(** * mtOpenGL: a shallow embedding of [mtOpenGL.go]

    The package is a helper layer over the OpenGL 4.5 core binding
    (package [gl]).  Every exported function is a straight sequence of driver
    calls, so the embedding has two layers:

    - [Module gl]: the enumerants the source names and a model of the driver
      entry points it calls, acting on an explicit context ([World]);
    - the package functions, transcribed statement by statement into a
      state monad with panics ([M]).

    Go integers are [Z] with the conversions written out ([int32], [int]);
    Go strings are [string]; a Go [error] is [option string] ([None] is
    [nil]); maps of driver objects are [gmap]s. *)

From Stdlib Require Import ZArith String Ascii List Lia.
From stdpp Require Import base option gmap strings list fin_maps.

Local Open Scope string_scope.
Local Open Scope Z_scope.

(** ** Machine integers *)

(** Conversion to [int32]: the low 32 bits, read in two's complement. *)
Definition int32 (z : Z) : Z := (z + 2 ^ 31) mod 2 ^ 32 - 2 ^ 31.

(** Conversion to the 64-bit [int]. *)
Definition int (z : Z) : Z := (z + 2 ^ 63) mod 2 ^ 64 - 2 ^ 63.

(** [len(x)] of a slice, as an [int]. *)
Definition len {A} (l : list A) : Z := Z.of_nat (List.length l).

(** [len(s)] of a string (its number of bytes). *)
Definition strlen (s : string) : Z := Z.of_nat (String.length s).

(** ** Strings *)

Definition NUL : ascii := "000"%char.
Definition LF : string := String "010"%char "".

Fixpoint str_take (n : nat) (s : string) : string :=
  match n, s with
  | S n', String c s' => String c (str_take n' s')
  | _, _ => ""
  end.

Fixpoint str_drop (n : nat) (s : string) : string :=
  match n, s with
  | S n', String _ s' => str_drop n' s'
  | _, _ => s
  end.

Fixpoint str_repeat (s : string) (n : nat) : string :=
  match n with
  | O => ""
  | S n' => s +:+ str_repeat s n'
  end.

(** The C string stored at the start of [s]: the bytes before the first NUL. *)
Fixpoint cstring (s : string) : string :=
  match s with
  | "" => ""
  | String c s' => if Ascii.eqb c NUL then "" else String c (cstring s')
  end.

Fixpoint ends_with_NUL (s : string) : bool :=
  match s with
  | "" => false
  | String c "" => Ascii.eqb c NUL
  | String _ s' => ends_with_NUL s'
  end.


(** ** Values of the package *)

(** A Go [error]: [nil] or an error carrying a message. *)
Definition error : Type := option string.

(** A [float32].  The package never computes with floats: it moves vertex
    data around ([Float32bits], the IEEE pattern) and converts image sizes
    ([Float32ofInt], the conversion of that integer). *)
Inductive float32 : Type :=
| Float32bits (b : Z)
| Float32ofInt (i : Z).

(** [mgl32.Vec2] is [[2]float32]; [unsafe.Sizeof] of it is 8, of a [uint32] 4. *)
Definition Vec2 : Type := (float32 * float32)%type.
Definition sizeof_Vec2 : Z := 8.
Definition sizeof_uint32 : Z := 4.

Record MeshBuffer := {
  ArrayBuffer : Z;
  VertexBuffer : Z;
  VertexCount : Z;
  IndexBuffer : Z;
  IndexCount : Z
}.

Record ImageTexture := {
  TextureHandle : Z;
  TextureSize : Vec2
}.

(** [image.Point], [image.Rectangle] and a decoded [image.Image]. *)
Record Point := { X : Z; Y : Z }.
Record Rectangle := { Min : Point; Max : Point }.
Record Image := { Bounds : Rectangle; Content : list Z }.

(** ** Driver objects *)

Record ShaderObj := {
  sh_type : Z;
  sh_source : string;
  sh_status : bool;          (* COMPILE_STATUS *)
  sh_log : string;           (* info log, without terminator *)
  sh_deleted : bool          (* DELETE_STATUS: flagged by DeleteShader *)
}.

Record ProgramObj := {
  pr_attached : list Z;      (* names of the attached shaders, in order *)
  pr_status : bool;          (* LINK_STATUS *)
  pr_log : string
}.

(** What a texture holds: immutable storage, or an uploaded image. *)
Inductive TexData : Type :=
| Storage2D (levels internalformat width height : Z)
| Storage2DMultisample (samples internalformat width height : Z) (fixedlocations : bool)
| Image2D (level internalformat width height border format xtype : Z) (pixels : option (Rectangle * Image)).

Record TextureObj := {
  tx_target : Z;
  tx_params : gmap Z Z;
  tx_data : option TexData
}.

Record FramebufferObj := {
  fb_attachments : gmap Z (Z * Z * Z)   (* attachment -> textarget, texture, level *)
}.

Inductive BufData : Type :=
| NoData
| Points (ps : list Vec2)
| Indices (ixs : list Z).

Record BufferObj := {
  bo_size : Z;
  bo_data : BufData;
  bo_usage : Z
}.

Record AttribPointer := {
  ap_size : Z;
  ap_type : Z;
  ap_normalized : bool;
  ap_stride : Z;
  ap_offset : Z;
  ap_buffer : Z              (* the ARRAY_BUFFER binding captured by the call *)
}.

Record VertexArrayObj := {
  va_enabled : gset Z;
  va_attribs : gmap Z AttribPointer;
  va_element : Z             (* ELEMENT_ARRAY_BUFFER binding of the array *)
}.

Inductive GLObject : Type :=
| ObjShader (s : ShaderObj)
| ObjProgram (p : ProgramObj)
| ObjTexture (t : TextureObj)
| ObjFramebuffer (f : FramebufferObj)
| ObjBuffer (b : BufferObj)
| ObjVertexArray (v : VertexArrayObj).

(** ** The world the package runs in

    The GL context (object names, objects, bindings), the GLSL compiler and
    linker of the driver as oracles, the file system, standard output, and
    the [uint32] variables the caller hands over by pointer.  Names are
    handed out from one counter, so no two objects share a name. *)
Record World := {
  next_name : Z;
  objects : gmap Z GLObject;
  bindings : gmap Z Z;
  glsl_compile : Z -> string -> bool * string;
  glsl_link : list (Z * string) -> bool * string;
  files : gmap string string;
  stdout : list string;
  heap : gmap Z Z
}.

Definition set_next_name (n : Z) (w : World) : World :=
  {| next_name := n; objects := objects w; bindings := bindings w;
     glsl_compile := glsl_compile w; glsl_link := glsl_link w;
     files := files w; stdout := stdout w; heap := heap w |}.

Definition set_objects (o : gmap Z GLObject) (w : World) : World :=
  {| next_name := next_name w; objects := o; bindings := bindings w;
     glsl_compile := glsl_compile w; glsl_link := glsl_link w;
     files := files w; stdout := stdout w; heap := heap w |}.

Definition set_bindings (b : gmap Z Z) (w : World) : World :=
  {| next_name := next_name w; objects := objects w; bindings := b;
     glsl_compile := glsl_compile w; glsl_link := glsl_link w;
     files := files w; stdout := stdout w; heap := heap w |}.

Definition set_stdout (o : list string) (w : World) : World :=
  {| next_name := next_name w; objects := objects w; bindings := bindings w;
     glsl_compile := glsl_compile w; glsl_link := glsl_link w;
     files := files w; stdout := o; heap := heap w |}.

Definition set_heap (h : gmap Z Z) (w : World) : World :=
  {| next_name := next_name w; objects := objects w; bindings := bindings w;
     glsl_compile := glsl_compile w; glsl_link := glsl_link w;
     files := files w; stdout := stdout w; heap := h |}.

(** ** The monad: state passing, with Go panics *)

Inductive result (A : Type) : Type :=
| Ret (a : A)
| Panic (msg : string).
Arguments Ret {A} a.
Arguments Panic {A} msg.

Definition M (A : Type) : Type := World -> result A * World.

#[global] Instance M_ret : MRet M := fun A a w => (Ret a, w).

#[global] Instance M_bind : MBind M := fun A B k m w =>
  match m w with
  | (Ret a, w') => k a w'
  | (Panic msg, w') => (Panic msg, w')
  end.

Definition panic {A} (msg : string) : M A := fun w => (Panic msg, w).
Definition get : M World := fun w => (Ret w, w).
Definition modify (f : World -> World) : M unit := fun w => (Ret tt, f w).

(** [*p] and [*p = v] for a non-nil [*uint32]. *)
Definition load (p : Z) : M Z := fun w => (Ret (heap w !!! p), w).
Definition store (p v : Z) : M unit := modify (fun w => set_heap (<[p := v]> (heap w)) w).

(** A block of a function body either returns from the function ([inl]) or
    falls through to the statements after it, handing on the variables it
    assigned ([inr]). *)
Definition returns {R A} (r : R) : M (R + A) := mret (inl r).
Definition falls_through {R A} (a : A) : M (R + A) := mret (inr a).

(** ** Package [gl]: enumerants and driver entry points

    The enumerants carry their values from the OpenGL registry.  An entry
    point that the driver rejects (a name of the wrong kind, an unused name)
    records an error the package never reads, and has no other effect: it is
    modelled as doing nothing.  The driver's checks of enumerants and sizes
    are modelled only where the package reads the outcome ([CreateShader]
    returns 0 for an unknown shader type).  Output parameters ([*params],
    the log buffer) are passed in with their current contents and returned;
    [gl.Strs], [gl.Ptr] and [gl.PtrOffset] only change the representation of
    their argument and are folded into the call that receives it. *)
Module gl.

Definition FALSE : Z := 0.
Definition TRUE : Z := 1.

Definition VERTEX_SHADER : Z := 0x8B31.
Definition FRAGMENT_SHADER : Z := 0x8B30.
Definition GEOMETRY_SHADER : Z := 0x8DD9.
Definition TESS_CONTROL_SHADER : Z := 0x8E88.
Definition TESS_EVALUATION_SHADER : Z := 0x8E87.
Definition COMPUTE_SHADER : Z := 0x91B9.

Definition DELETE_STATUS : Z := 0x8B80.
Definition COMPILE_STATUS : Z := 0x8B81.
Definition LINK_STATUS : Z := 0x8B82.
Definition INFO_LOG_LENGTH : Z := 0x8B84.

Definition TEXTURE_2D : Z := 0x0DE1.
Definition TEXTURE_2D_MULTISAMPLE : Z := 0x9100.
Definition TEXTURE_MAG_FILTER : Z := 0x2800.
Definition TEXTURE_MIN_FILTER : Z := 0x2801.
Definition TEXTURE_WRAP_S : Z := 0x2802.
Definition TEXTURE_WRAP_T : Z := 0x2803.
Definition NEAREST : Z := 0x2600.
Definition REPEAT : Z := 0x2901.
Definition CLAMP_TO_EDGE : Z := 0x812F.

Definition UNSIGNED_BYTE : Z := 0x1401.
Definition FLOAT : Z := 0x1406.
Definition DEPTH_COMPONENT : Z := 0x1902.
Definition RGBA : Z := 0x1908.
Definition RG : Z := 0x8227.
Definition RGBA8 : Z := 0x8058.
Definition RGBA32F : Z := 0x8814.
Definition RG32F : Z := 0x8230.
Definition DEPTH_COMPONENT32 : Z := 0x81A7.

Definition FRAMEBUFFER : Z := 0x8D40.
Definition COLOR_ATTACHMENT0 : Z := 0x8CE0.
Definition DEPTH_ATTACHMENT : Z := 0x8D00.

Definition ARRAY_BUFFER : Z := 0x8892.
Definition ELEMENT_ARRAY_BUFFER : Z := 0x8893.
Definition VERTEX_ARRAY_BINDING : Z := 0x85B5.
Definition STATIC_DRAW : Z := 0x88E4.

(** *** Names and objects *)

Definition fresh : M Z :=
  fun w => (Ret (next_name w), set_next_name (next_name w + 1) w).

Definition obj (name : Z) : M (option GLObject) :=
  fun w => (Ret (objects w !! name), w).

Definition put (name : Z) (o : GLObject) : M unit :=
  modify (fun w => set_objects (<[name := o]> (objects w)) w).

Definition remove (name : Z) : M unit :=
  modify (fun w => set_objects (delete name (objects w)) w).

Definition bound (target : Z) : M Z :=
  fun w => (Ret (default 0 (bindings w !! target)), w).

Definition bind_to (target name : Z) : M unit :=
  modify (fun w => set_bindings (<[target := name]> (bindings w)) w).

(** *** Shaders *)

Definition is_shader_type (t : Z) : bool :=
  bool_decide (t ∈ [VERTEX_SHADER; FRAGMENT_SHADER; GEOMETRY_SHADER;
                    TESS_CONTROL_SHADER; TESS_EVALUATION_SHADER; COMPUTE_SHADER]).

Definition CreateShader (xtype : Z) : M Z :=
  if is_shader_type xtype then
    name ← fresh;
    put name (ObjShader {| sh_type := xtype; sh_source := ""; sh_status := false;
                           sh_log := ""; sh_deleted := false |});;
    mret name
  else mret 0.

(** [ShaderSource(shader, 1, &source, &length)]: the first [length] bytes,
    or the C string when [length] is negative. *)
Definition ShaderSource (shader : Z) (source : string) (length : Z) : M unit :=
  o ← obj shader;
  match o with
  | Some (ObjShader s) =>
      put shader (ObjShader {| sh_type := sh_type s;
                               sh_source := if length <? 0 then cstring source
                                            else str_take (Z.to_nat length) source;
                               sh_status := sh_status s; sh_log := sh_log s;
                               sh_deleted := sh_deleted s |})
  | _ => mret tt
  end.

Definition CompileShader (shader : Z) : M unit :=
  o ← obj shader;
  match o with
  | Some (ObjShader s) =>
      w ← get;
      let '(ok, log) := glsl_compile w (sh_type s) (sh_source s) in
      put shader (ObjShader {| sh_type := sh_type s; sh_source := sh_source s;
                               sh_status := ok; sh_log := log;
                               sh_deleted := sh_deleted s |})
  | _ => mret tt
  end.

Definition of_bool (b : bool) : Z := if b then TRUE else FALSE.

(** The value of INFO_LOG_LENGTH: the log with its terminator, 0 without a log. *)
Definition log_length (log : string) : Z :=
  if String.eqb log "" then 0 else int32 (strlen log + 1).

(** What is left in a buffer [buf] after the driver wrote at most
    [bufSize] bytes of [log], terminator included, at its start. *)
Definition write_log (log : string) (bufSize : Z) (buf : string) : string :=
  if bufSize <=? 0 then buf
  else
    let text := str_take (Z.to_nat (bufSize - 1)) log in
    text +:+ String NUL (str_drop (S (String.length text)) buf).

Definition GetShaderiv (shader pname : Z) (params : Z) : M Z :=
  o ← obj shader;
  match o with
  | Some (ObjShader s) =>
      if pname =? COMPILE_STATUS then mret (of_bool (sh_status s))
      else if pname =? INFO_LOG_LENGTH then mret (log_length (sh_log s))
      else if pname =? DELETE_STATUS then mret (of_bool (sh_deleted s))
      else mret params
  | _ => mret params
  end.

Definition GetShaderInfoLog (shader bufSize : Z) (infoLog : string) : M string :=
  o ← obj shader;
  match o with
  | Some (ObjShader s) => mret (write_log (sh_log s) bufSize infoLog)
  | _ => mret infoLog
  end.

Definition is_attached (shader : Z) (o : GLObject) : Prop :=
  match o with
  | ObjProgram p => shader ∈ pr_attached p
  | _ => False
  end.

#[global] Instance is_attached_dec shader o : Decision (is_attached shader o).
Proof. destruct o; simpl; apply _. Defined.

(** A shader attached to a program is only flagged; it goes when detached. *)
Definition DeleteShader (shader : Z) : M unit :=
  o ← obj shader;
  match o with
  | Some (ObjShader s) =>
      w ← get;
      if bool_decide (map_Exists (fun _ => is_attached shader) (objects w)) then
        put shader (ObjShader {| sh_type := sh_type s; sh_source := sh_source s;
                                 sh_status := sh_status s; sh_log := sh_log s;
                                 sh_deleted := true |})
      else remove shader
  | _ => mret tt
  end.

(** *** Programs *)

Definition CreateProgram : M Z :=
  name ← fresh;
  put name (ObjProgram {| pr_attached := []; pr_status := false; pr_log := "" |});;
  mret name.

Definition AttachShader (program shader : Z) : M unit :=
  p ← obj program;
  s ← obj shader;
  match p, s with
  | Some (ObjProgram p), Some (ObjShader _) =>
      if bool_decide (shader ∈ pr_attached p) then mret tt
      else put program (ObjProgram {| pr_attached := pr_attached p ++ [shader];
                                      pr_status := pr_status p; pr_log := pr_log p |})
  | _, _ => mret tt
  end.

(** The stages the linker sees: type and source of each attached shader. *)
Definition stages (w : World) (attached : list Z) : list (Z * string) :=
  omap (fun name => match objects w !! name with
                    | Some (ObjShader s) => Some (sh_type s, sh_source s)
                    | _ => None
                    end) attached.

Definition LinkProgram (program : Z) : M unit :=
  o ← obj program;
  match o with
  | Some (ObjProgram p) =>
      w ← get;
      let '(ok, log) := glsl_link w (stages w (pr_attached p)) in
      put program (ObjProgram {| pr_attached := pr_attached p;
                                 pr_status := ok; pr_log := log |})
  | _ => mret tt
  end.

Definition GetProgramiv (program pname : Z) (params : Z) : M Z :=
  o ← obj program;
  match o with
  | Some (ObjProgram p) =>
      if pname =? LINK_STATUS then mret (of_bool (pr_status p))
      else if pname =? INFO_LOG_LENGTH then mret (log_length (pr_log p))
      else mret params
  | _ => mret params
  end.

Definition GetProgramInfoLog (program bufSize : Z) (infoLog : string) : M string :=
  o ← obj program;
  match o with
  | Some (ObjProgram p) => mret (write_log (pr_log p) bufSize infoLog)
  | _ => mret infoLog
  end.

(** *** Textures

    A generated name becomes a texture object of the target it is first
    bound to.  Name 0 is the default texture of a target. *)

Definition GenTextures : M Z := fresh.

Definition new_texture (target : Z) : TextureObj :=
  {| tx_target := target; tx_params := ∅; tx_data := None |}.

Definition BindTexture (target texture : Z) : M unit :=
  if texture =? 0 then bind_to target 0
  else
    o ← obj texture;
    match o with
    | None => put texture (ObjTexture (new_texture target));; bind_to target texture
    | Some (ObjTexture t) =>
        if tx_target t =? target then bind_to target texture else mret tt
    | Some _ => mret tt
    end.

(** The texture a call on [target] acts on: the one bound there, the
    default texture when nothing is bound or the name holds no texture yet. *)
Definition target_texture (target name : Z) (o : option GLObject) : option TextureObj :=
  match o with
  | Some (ObjTexture t) => Some t
  | None => if name =? 0 then Some (new_texture target) else None
  | Some _ => None
  end.

Definition is_immutable (t : TextureObj) : bool :=
  match tx_data t with
  | Some (Storage2D _ _ _ _) | Some (Storage2DMultisample _ _ _ _ _) => true
  | _ => false
  end.

Definition TexParameteri (target pname param : Z) : M unit :=
  name ← bound target;
  o ← obj name;
  match target_texture target name o with
  | Some t => put name (ObjTexture {| tx_target := tx_target t;
                                      tx_params := <[pname := param]> (tx_params t);
                                      tx_data := tx_data t |})
  | None => mret tt
  end.

Definition tex_data (target : Z) (d : TexData) : M unit :=
  name ← bound target;
  o ← obj name;
  match target_texture target name o with
  | Some t =>
      if is_immutable t then mret tt
      else put name (ObjTexture {| tx_target := tx_target t; tx_params := tx_params t;
                                   tx_data := Some d |})
  | None => mret tt
  end.

(** Immutable storage cannot be given to the default texture. *)
Definition TexStorage2D (target levels internalformat width height : Z) : M unit :=
  name ← bound target;
  if name =? 0 then mret tt
  else tex_data target (Storage2D levels internalformat width height).

Definition TexStorage2DMultisample (target samples internalformat width height : Z)
    (fixedsamplelocations : bool) : M unit :=
  name ← bound target;
  if name =? 0 then mret tt
  else tex_data target
         (Storage2DMultisample samples internalformat width height fixedsamplelocations).

Definition TexImage2D (target level internalformat width height border format xtype : Z)
    (pixels : option (Rectangle * Image)) : M unit :=
  tex_data target (Image2D level internalformat width height border format xtype pixels).

(** *** Framebuffers *)

Definition GenFramebuffers : M Z := fresh.

Definition BindFramebuffer (target framebuffer : Z) : M unit :=
  if framebuffer =? 0 then bind_to target 0
  else
    o ← obj framebuffer;
    match o with
    | None => put framebuffer (ObjFramebuffer {| fb_attachments := ∅ |});;
              bind_to target framebuffer
    | Some (ObjFramebuffer _) => bind_to target framebuffer
    | Some _ => mret tt
    end.

Definition FramebufferTexture2D (target attachment textarget texture level : Z) : M unit :=
  name ← bound target;
  o ← obj name;
  match o with
  | Some (ObjFramebuffer f) =>
      if texture =? 0 then
        put name (ObjFramebuffer {| fb_attachments := delete attachment (fb_attachments f) |})
      else
        t ← obj texture;
        match t with
        | Some (ObjTexture t) =>
            if tx_target t =? textarget then
              put name (ObjFramebuffer
                {| fb_attachments := <[attachment := (textarget, texture, level)]>
                                       (fb_attachments f) |})
            else mret tt
        | _ => mret tt
        end
  | _ => mret tt
  end.

(** *** Buffers and vertex arrays

    The ELEMENT_ARRAY_BUFFER binding belongs to the bound vertex array. *)

Definition GenBuffers : M Z := fresh.
Definition GenVertexArrays : M Z := fresh.

Definition set_element (buffer : Z) : M unit :=
  name ← bound VERTEX_ARRAY_BINDING;
  o ← obj name;
  match o with
  | Some (ObjVertexArray v) =>
      put name (ObjVertexArray {| va_enabled := va_enabled v; va_attribs := va_attribs v;
                                  va_element := buffer |})
  | _ => mret tt
  end.

Definition bind_buffer_to (target buffer : Z) : M unit :=
  bind_to target buffer;;
  if target =? ELEMENT_ARRAY_BUFFER then set_element buffer else mret tt.

Definition BindBuffer (target buffer : Z) : M unit :=
  if buffer =? 0 then bind_buffer_to target 0
  else
    o ← obj buffer;
    match o with
    | None => put buffer (ObjBuffer {| bo_size := 0; bo_data := NoData; bo_usage := 0 |});;
              bind_buffer_to target buffer
    | Some (ObjBuffer _) => bind_buffer_to target buffer
    | Some _ => mret tt
    end.

Definition BufferData (target size : Z) (data : BufData) (usage : Z) : M unit :=
  name ← bound target;
  o ← obj name;
  match o with
  | Some (ObjBuffer _) =>
      put name (ObjBuffer {| bo_size := size; bo_data := data; bo_usage := usage |})
  | _ => mret tt
  end.

Definition BindVertexArray (array : Z) : M unit :=
  if array =? 0 then
    bind_to VERTEX_ARRAY_BINDING 0;; bind_to ELEMENT_ARRAY_BUFFER 0
  else
    o ← obj array;
    match o with
    | None =>
        put array (ObjVertexArray {| va_enabled := ∅; va_attribs := ∅; va_element := 0 |});;
        bind_to VERTEX_ARRAY_BINDING array;; bind_to ELEMENT_ARRAY_BUFFER 0
    | Some (ObjVertexArray v) =>
        bind_to VERTEX_ARRAY_BINDING array;; bind_to ELEMENT_ARRAY_BUFFER (va_element v)
    | Some _ => mret tt
    end.

Definition EnableVertexAttribArray (index : Z) : M unit :=
  name ← bound VERTEX_ARRAY_BINDING;
  o ← obj name;
  match o with
  | Some (ObjVertexArray v) =>
      put name (ObjVertexArray {| va_enabled := {[index]} ∪ va_enabled v;
                                  va_attribs := va_attribs v;
                                  va_element := va_element v |})
  | _ => mret tt
  end.

Definition VertexAttribPointer (index size xtype : Z) (normalized : bool)
    (stride offset : Z) : M unit :=
  name ← bound VERTEX_ARRAY_BINDING;
  o ← obj name;
  buffer ← bound ARRAY_BUFFER;
  match o with
  | Some (ObjVertexArray v) =>
      put name (ObjVertexArray
        {| va_enabled := va_enabled v;
           va_attribs := <[index := {| ap_size := size; ap_type := xtype;
                                       ap_normalized := normalized; ap_stride := stride;
                                       ap_offset := offset; ap_buffer := buffer |}]>
                           (va_attribs v);
           va_element := va_element v |})
  | _ => mret tt
  end.

Definition unbind (target name : Z) : M unit :=
  b ← bound target;
  if b =? name then bind_to target 0 else mret tt.

(** [DeleteBuffers(1, &buffer)]: unused names and 0 are ignored. *)
Definition DeleteBuffers (buffer : Z) : M unit :=
  o ← obj buffer;
  match o with
  | Some (ObjBuffer _) =>
      remove buffer;;
      unbind ARRAY_BUFFER buffer;;
      e ← bound ELEMENT_ARRAY_BUFFER;
      if e =? buffer then bind_buffer_to ELEMENT_ARRAY_BUFFER 0 else mret tt
  | _ => mret tt
  end.

Definition DeleteVertexArrays (array : Z) : M unit :=
  o ← obj array;
  match o with
  | Some (ObjVertexArray _) =>
      remove array;;
      b ← bound VERTEX_ARRAY_BINDING;
      if b =? array then
        bind_to VERTEX_ARRAY_BINDING 0;; bind_to ELEMENT_ARRAY_BUFFER 0
      else mret tt
  | _ => mret tt
  end.

(** [gl.Str]: the address of a Go string that must end in NUL. *)
Definition Str (str : string) : M string :=
  if ends_with_NUL str then mret str
  else panic ("str argument missing null terminator: " +:+ str).

End gl.

(** ** Standard library calls *)

(** [strings.Repeat] panics on a negative count. *)
Definition strings_Repeat (s : string) (count : Z) : M string :=
  if count <? 0 then panic "strings: negative Repeat count"
  else mret (str_repeat s (Z.to_nat count)).

(** [fmt.Printf] with the format already applied. *)
Definition fmt_Printf (text : string) : M unit :=
  modify (fun w => set_stdout (stdout w ++ [text]) w).

(** [os.Open] followed by reading the whole file. *)
Definition os_ReadAll (name : string) : M (option string) :=
  fun w => (Ret (files w !! name), w).

(** ** Shader programs *)

Definition compileShader (source : string) (shaderType : Z) : M (Z * error) :=
  shader ← gl.CreateShader shaderType;
  let csourceslength := int32 (strlen source) in
  gl.ShaderSource shader source csourceslength;;
  gl.CompileShader shader;;
  status ← gl.GetShaderiv shader gl.COMPILE_STATUS 0;
  if status =? gl.FALSE then
    logLength ← gl.GetShaderiv shader gl.INFO_LOG_LENGTH 0;
    log ← strings_Repeat (String NUL "") (int (int32 (logLength + 1)));
    buf ← gl.Str log;
    log ← gl.GetShaderInfoLog shader logLength buf;
    mret (0, Some ("failed to compile " +:+ source +:+ ": " +:+ log))
  else
    mret (shader, None).

Definition readFile (name : string) : M (string * error) :=
  f ← os_ReadAll name;
  match f with
  | None => mret ("", Some ("open " +:+ name +:+ ": no such file or directory"))
  | Some contents => mret (contents, None)
  end.

Definition NewProgram (vertexShaderName geometryShaderName tessControlShaderName
    tessEvalShaderName fragmentShaderName : string) : M (Z * error) :=
  let useTessellationShader :=
    negb (String.eqb tessControlShaderName "") && negb (String.eqb tessEvalShaderName "") in
  let useGeometryShader := negb (String.eqb geometryShaderName "") in

  '(vertexShaderSource, err) ← readFile vertexShaderName;
  if err is Some _ then mret (0, err) else
  '(vertexShader, err) ← compileShader vertexShaderSource gl.VERTEX_SHADER;
  if err is Some e then
    fmt_Printf ("error: " +:+ e +:+ LF);;
    mret (0, err)
  else

  (* Compile Tessellation shader *)
  tess ← (if useTessellationShader then
            '(tessControlSource, err) ← readFile tessControlShaderName;
            if err is Some _ then returns (0, err) else
            '(tessControlShader, err) ← compileShader tessControlSource gl.TESS_CONTROL_SHADER;
            if err is Some _ then returns (0, err) else
            '(tessEvalSource, err) ← readFile tessEvalShaderName;
            if err is Some _ then returns (0, err) else
            '(tessEvalShader, err) ← compileShader tessEvalSource gl.TESS_EVALUATION_SHADER;
            if err is Some _ then returns (0, err) else
            falls_through (tessControlShader, tessEvalShader)
          else falls_through (0, 0));
  match tess with
  | inl r => mret r
  | inr (tessControlShader, tessEvalShader) =>

  '(fragmentShaderSource, err) ← readFile fragmentShaderName;
  if err is Some _ then mret (0, err) else
  '(fragmentShader, err) ← compileShader fragmentShaderSource gl.FRAGMENT_SHADER;
  if err is Some _ then mret (0, err) else

  geom ← (if useGeometryShader then
            '(geometryShaderSource, err) ← readFile geometryShaderName;
            if err is Some _ then returns (0, err) else
            '(geometryShader, err) ← compileShader geometryShaderSource gl.GEOMETRY_SHADER;
            if err is Some _ then returns (0, err) else
            falls_through geometryShader
          else falls_through 0);
  match geom with
  | inl r => mret r
  | inr geometryShader =>

  program ← gl.CreateProgram;

  gl.AttachShader program vertexShader;;
  (if useTessellationShader then
     gl.AttachShader program tessControlShader;;
     gl.AttachShader program tessEvalShader
   else mret tt);;
  gl.AttachShader program fragmentShader;;
  (if useGeometryShader then gl.AttachShader program geometryShader else mret tt);;
  gl.LinkProgram program;;

  status ← gl.GetProgramiv program gl.LINK_STATUS 0;
  if status =? gl.FALSE then
    logLength ← gl.GetProgramiv program gl.INFO_LOG_LENGTH 0;
    log ← strings_Repeat (String NUL "") (int (int32 (logLength + 1)));
    buf ← gl.Str log;
    log ← gl.GetProgramInfoLog program logLength buf;
    mret (0, Some ("failed to link program: " +:+ log))
  else

  gl.DeleteShader vertexShader;;
  (if useTessellationShader then
     gl.DeleteShader tessControlShader;;
     gl.DeleteShader tessEvalShader
   else mret tt);;
  gl.DeleteShader fragmentShader;;
  (if useGeometryShader then gl.DeleteShader geometryShader else mret tt);;

  mret (program, None)
  end end.

Definition NewComputeProgram (computeShaderName : string) : M (Z * error) :=
  '(computeShaderSource, err) ← readFile computeShaderName;
  if err is Some _ then mret (0, err) else
  '(computeShader, err) ← compileShader computeShaderSource gl.COMPUTE_SHADER;
  if err is Some _ then mret (0, err) else
  program ← gl.CreateProgram;

  gl.AttachShader program computeShader;;
  gl.LinkProgram program;;

  status ← gl.GetProgramiv program gl.LINK_STATUS 0;
  if status =? gl.FALSE then
    logLength ← gl.GetProgramiv program gl.INFO_LOG_LENGTH 0;
    log ← strings_Repeat (String NUL "") (int (int32 (logLength + 1)));
    buf ← gl.Str log;
    log ← gl.GetProgramInfoLog program logLength buf;
    mret (0, Some ("failed to link program: " +:+ log))
  else

  gl.DeleteShader computeShader;;

  mret (program, None).

(** ** Textures and framebuffers *)

Definition CreateTexture (width height internalFormat format internalType : Z)
    (multisampling : bool) (samples mipmapLevels : Z) : M Z :=
  let texType := if multisampling then gl.TEXTURE_2D_MULTISAMPLE else gl.TEXTURE_2D in

  tex ← gl.GenTextures;
  gl.BindTexture texType tex;;
  gl.TexParameteri gl.TEXTURE_2D gl.TEXTURE_WRAP_S gl.CLAMP_TO_EDGE;;
  gl.TexParameteri gl.TEXTURE_2D gl.TEXTURE_WRAP_T gl.CLAMP_TO_EDGE;;
  gl.TexParameteri gl.TEXTURE_2D gl.TEXTURE_MIN_FILTER gl.NEAREST;;
  gl.TexParameteri gl.TEXTURE_2D gl.TEXTURE_MAG_FILTER gl.NEAREST;;

  (if multisampling then
     gl.TexStorage2DMultisample gl.TEXTURE_2D_MULTISAMPLE samples internalFormat width height false
   else
     gl.TexStorage2D gl.TEXTURE_2D mipmapLevels internalFormat width height);;

  mret tex.

(** What [LoadImage] hands back: [img.Img] is an [image.Image] interface
    value, [None] when it is nil. *)
Record ImageData := { Img : option Image }.

Definition nil_dereference : string :=
  "runtime error: invalid memory address or nil pointer dereference".

Section ImageTextures.

(** [LoadImage] belongs to the package but not to [mtOpenGL.go]; it is a
    parameter here. *)
Variable LoadImage : string -> M (ImageData * error).

Definition CreateImageTexture (imageName : string) (isRepeating : bool) : M ImageTexture :=
  '(img, err) ← LoadImage imageName;
  (if err is Some e then fmt_Printf ("Image load failed: " +:+ e +:+ "." +:+ LF)
   else mret tt);;

  let textureWrap := if isRepeating then gl.REPEAT else gl.CLAMP_TO_EDGE in

  match Img img with
  | None => panic nil_dereference
  | Some image =>
      (* rgbaImg: a fresh RGBA image of these bounds with [image] drawn onto it *)
      let rgbaImg := (Bounds image, image) in

      handle ← gl.GenTextures;       (* imageTexture.TextureHandle *)
      gl.BindTexture gl.TEXTURE_2D handle;;
      gl.TexParameteri gl.TEXTURE_2D gl.TEXTURE_WRAP_S textureWrap;;
      gl.TexParameteri gl.TEXTURE_2D gl.TEXTURE_WRAP_T textureWrap;;
      gl.TexParameteri gl.TEXTURE_2D gl.TEXTURE_MIN_FILTER gl.NEAREST;;
      gl.TexParameteri gl.TEXTURE_2D gl.TEXTURE_MAG_FILTER gl.NEAREST;;
      gl.TexImage2D gl.TEXTURE_2D 0 gl.RGBA8
        (int32 (X (Max (Bounds image)))) (int32 (Y (Max (Bounds image)))) 0
        gl.RGBA gl.UNSIGNED_BYTE (Some rgbaImg);;

      mret {| TextureHandle := handle;
              TextureSize := (Float32ofInt (X (Max (Bounds image))),
                              Float32ofInt (Y (Max (Bounds image)))) |}
  end.

End ImageTextures.

(** A [*uint32] argument is [None] for nil, else the address of the
    variable in [heap]. *)
Definition CreateFboWithExistingTextures (colorTex depthTex : option Z) (texType : Z) : M Z :=
  fbo ← gl.GenFramebuffers;
  gl.BindFramebuffer gl.FRAMEBUFFER fbo;;

  (if colorTex is Some p then
     tex ← load p;
     gl.FramebufferTexture2D gl.FRAMEBUFFER gl.COLOR_ATTACHMENT0 texType tex 0
   else mret tt);;
  (if depthTex is Some p then
     tex ← load p;
     gl.FramebufferTexture2D gl.FRAMEBUFFER gl.DEPTH_ATTACHMENT texType tex 0
   else mret tt);;

  gl.BindFramebuffer gl.FRAMEBUFFER 0;;

  mret fbo.

Definition CreateLightFbo (colorTex depthTex : option Z) (width height : Z)
    (multisampling : bool) (samples : Z) : M Z :=
  (if colorTex is Some p then
     tex ← CreateTexture width height gl.RG32F gl.RG gl.FLOAT multisampling samples 1;
     store p tex
   else mret tt);;
  (if depthTex is Some p then
     tex ← CreateTexture width height gl.DEPTH_COMPONENT32 gl.DEPTH_COMPONENT gl.FLOAT
             multisampling samples 1;
     store p tex
   else mret tt);;

  let texType := if multisampling then gl.TEXTURE_2D_MULTISAMPLE else gl.TEXTURE_2D in

  CreateFboWithExistingTextures colorTex depthTex texType.

Definition CreateFbo (colorTex depthTex : option Z) (width height : Z)
    (multisampling : bool) (samples : Z) (isFloatingPoint : bool) (mipmapLevels : Z) : M Z :=
  let intFormat := gl.RGBA8 in
  let format := gl.RGBA in
  let ttype := gl.UNSIGNED_BYTE in

  let intFormat := if isFloatingPoint then gl.RGBA32F else intFormat in
  let ttype := if isFloatingPoint then gl.FLOAT else ttype in

  (if colorTex is Some p then
     tex ← CreateTexture width height intFormat format ttype multisampling samples mipmapLevels;
     store p tex
   else mret tt);;
  (if depthTex is Some p then
     tex ← CreateTexture width height gl.DEPTH_COMPONENT32 gl.DEPTH_COMPONENT gl.FLOAT
             multisampling samples 1;
     store p tex
   else mret tt);;

  let texType := if multisampling then gl.TEXTURE_2D_MULTISAMPLE else gl.TEXTURE_2D in

  CreateFboWithExistingTextures colorTex depthTex texType.

(** ** Mesh buffers

    The [*MeshBuffer] argument is passed in state-passing style: a function
    takes the struct the pointer refers to and returns what it holds at the
    end. *)

Definition GenerateBufferFromTriangles2D (bufferObject : MeshBuffer) (points : list Vec2)
    : M MeshBuffer :=
  if len points <? 3 then mret bufferObject else

  let stride := int32 sizeof_Vec2 in

  name ← gl.GenBuffers;
  let bufferObject :=
    {| ArrayBuffer := name; VertexBuffer := VertexBuffer bufferObject;
       VertexCount := VertexCount bufferObject; IndexBuffer := IndexBuffer bufferObject;
       IndexCount := IndexCount bufferObject |} in
  gl.BindBuffer gl.ARRAY_BUFFER (ArrayBuffer bufferObject);;
  gl.BufferData gl.ARRAY_BUFFER (int (int stride * len points)) (Points points) gl.STATIC_DRAW;;

  name ← gl.GenVertexArrays;
  let bufferObject :=
    {| ArrayBuffer := ArrayBuffer bufferObject; VertexBuffer := name;
       VertexCount := VertexCount bufferObject; IndexBuffer := IndexBuffer bufferObject;
       IndexCount := IndexCount bufferObject |} in
  gl.BindVertexArray (VertexBuffer bufferObject);;

  gl.EnableVertexAttribArray 0;;
  gl.VertexAttribPointer 0 2 gl.FLOAT false stride 0;;

  let bufferObject :=
    {| ArrayBuffer := ArrayBuffer bufferObject; VertexBuffer := VertexBuffer bufferObject;
       VertexCount := int32 (len points); IndexBuffer := IndexBuffer bufferObject;
       IndexCount := IndexCount bufferObject |} in

  gl.BindBuffer gl.ARRAY_BUFFER 0;;
  mret bufferObject.

Definition GenerateBufferFromLines2D (bufferObject : MeshBuffer) (points : list Vec2)
    (indices : list Z) : M MeshBuffer :=
  if (len points <? 2) || (len indices <? 2) then mret bufferObject else

  let stride := int32 sizeof_Vec2 in
  let uiStride := int sizeof_uint32 in

  name ← gl.GenBuffers;
  let bufferObject :=
    {| ArrayBuffer := name; VertexBuffer := VertexBuffer bufferObject;
       VertexCount := VertexCount bufferObject; IndexBuffer := IndexBuffer bufferObject;
       IndexCount := IndexCount bufferObject |} in
  gl.BindBuffer gl.ARRAY_BUFFER (ArrayBuffer bufferObject);;
  gl.BufferData gl.ARRAY_BUFFER (int (int stride * len points)) (Points points) gl.STATIC_DRAW;;

  name ← gl.GenVertexArrays;
  let bufferObject :=
    {| ArrayBuffer := ArrayBuffer bufferObject; VertexBuffer := name;
       VertexCount := VertexCount bufferObject; IndexBuffer := IndexBuffer bufferObject;
       IndexCount := IndexCount bufferObject |} in
  gl.BindVertexArray (VertexBuffer bufferObject);;

  gl.EnableVertexAttribArray 0;;
  gl.VertexAttribPointer 0 2 gl.FLOAT false stride 0;;

  let bufferObject :=
    {| ArrayBuffer := ArrayBuffer bufferObject; VertexBuffer := VertexBuffer bufferObject;
       VertexCount := int32 (len points); IndexBuffer := IndexBuffer bufferObject;
       IndexCount := IndexCount bufferObject |} in

  gl.BindBuffer gl.ARRAY_BUFFER 0;;

  name ← gl.GenBuffers;
  let bufferObject :=
    {| ArrayBuffer := ArrayBuffer bufferObject; VertexBuffer := VertexBuffer bufferObject;
       VertexCount := VertexCount bufferObject; IndexBuffer := name;
       IndexCount := IndexCount bufferObject |} in
  gl.BindBuffer gl.ELEMENT_ARRAY_BUFFER (IndexBuffer bufferObject);;
  gl.BufferData gl.ELEMENT_ARRAY_BUFFER (int (uiStride * len indices)) (Indices indices)
    gl.STATIC_DRAW;;
  gl.BindBuffer gl.ELEMENT_ARRAY_BUFFER 0;;
  let bufferObject :=
    {| ArrayBuffer := ArrayBuffer bufferObject; VertexBuffer := VertexBuffer bufferObject;
       VertexCount := VertexCount bufferObject; IndexBuffer := IndexBuffer bufferObject;
       IndexCount := int32 (len indices) |} in
  mret bufferObject.

Definition FreeGLBuffer (buffer : MeshBuffer) : M MeshBuffer :=
  buffer ← (if 0 <? VertexCount buffer then
              gl.DeleteBuffers (ArrayBuffer buffer);;
              gl.DeleteVertexArrays (VertexBuffer buffer);;
              mret {| ArrayBuffer := 0; VertexBuffer := 0; VertexCount := 0;
                      IndexBuffer := IndexBuffer buffer; IndexCount := IndexCount buffer |}
            else mret buffer);
  buffer ← (if 0 <? IndexCount buffer then
              (* Does it work, if the buffer was never used? *)
              gl.DeleteBuffers (IndexBuffer buffer);;
              mret {| ArrayBuffer := ArrayBuffer buffer; VertexBuffer := VertexBuffer buffer;
                      VertexCount := 0; IndexBuffer := 0; IndexCount := IndexCount buffer |}
            else mret buffer);
  mret buffer.

(** * Specification vocabulary

    Closed forms of what the functions compute, and the predicates the
    theorems are stated with. *)

(** The driver's info logs, with terminator and the extra byte the package
    allocates, have lengths that fit in an [int32]. *)
Definition logs_fit (w : World) : Prop :=
  (forall t s, strlen (glsl_compile w t s).2 + 2 < 2 ^ 31) /\
  (forall l, strlen (glsl_link w l).2 + 2 < 2 ^ 31).

(** The source [ShaderSource] installs for [source] and its [int32] length. *)
Definition installed_source (source : string) : string :=
  if int32 (strlen source) <? 0 then cstring source
  else str_take (Z.to_nat (int32 (strlen source))) source.

(** The buffer the package reads an info log into, after the driver wrote it. *)
Definition log_buffer (log : string) : string :=
  gl.write_log log (gl.log_length log)
    (str_repeat (String NUL "") (Z.to_nat (int (int32 (gl.log_length log + 1))))).

(** The shader object [compileShader] leaves behind. *)
Definition compiled_shader (w : World) (source : string) (shaderType : Z) : ShaderObj :=
  let src := installed_source source in
  {| sh_type := shaderType; sh_source := src;
     sh_status := (glsl_compile w shaderType src).1;
     sh_log := (glsl_compile w shaderType src).2;
     sh_deleted := false |}.

Definition with_shader (w : World) (s : ShaderObj) : World :=
  set_objects (<[next_name w := ObjShader s]> (objects w)) (set_next_name (next_name w + 1) w).

Definition compile_error (source : string) (s : ShaderObj) : string :=
  "failed to compile " +:+ source +:+ ": " +:+ log_buffer (sh_log s).

(** The stages [NewProgram] builds, in the order it attaches them. *)
Definition stage_types (useTessellationShader useGeometryShader : bool) : list Z :=
  [gl.VERTEX_SHADER]
  ++ (if useTessellationShader then [gl.TESS_CONTROL_SHADER; gl.TESS_EVALUATION_SHADER] else [])
  ++ [gl.FRAGMENT_SHADER]
  ++ (if useGeometryShader then [gl.GEOMETRY_SHADER] else []).

(** [name] is a successfully compiled shader of type [ty] whose deletion
    flag is [flag]. *)
Definition stage_ok (w : World) (flag : bool) (name ty : Z) : Prop :=
  exists s, objects w !! name = Some (ObjShader s) /\
            sh_type s = ty /\ sh_status s = true /\ sh_deleted s = flag.

(** The errors of the package. *)
Definition read_error (name : string) : string :=
  "open " +:+ name +:+ ": no such file or directory".

Definition link_error (p : ProgramObj) : string :=
  "failed to link program: " +:+ log_buffer (pr_log p).

Definition read_or_compile_error (msg : string) : Prop :=
  (exists name, msg = read_error name) \/
  (exists source s, sh_status s = false /\ msg = compile_error source s).

(** A call left the program objects other than [p] as they were. *)
Definition programs_kept (w w' : World) (p : Z) : Prop :=
  forall q prog, q <> p -> objects w' !! q = Some (ObjProgram prog) ->
                 objects w !! q = Some (ObjProgram prog).

(** A call made no program object. *)
Definition no_new_program (w w' : World) : Prop :=
  forall q prog, objects w' !! q = Some (ObjProgram prog) ->
                 objects w !! q = Some (ObjProgram prog).

(** How a call that got as far as [gl.CreateProgram] ends: [p] is the new
    program, its stages are the shaders compiled by the call, flagged for
    deletion exactly when the link succeeded, and the result follows the
    link status. *)
Definition linked_outcome (w w' : World) (types : list Z) (r : Z * error) : Prop :=
  exists p prog,
    p = next_name w + len types /\
    objects w' !! p = Some (ObjProgram prog) /\
    next_name w' = p + 1 /\
    Forall2 (stage_ok w' (pr_status prog)) (pr_attached prog) types /\
    Forall (fun name => next_name w <= name < p) (pr_attached prog) /\
    programs_kept w w' p /\
    r = if pr_status prog then (p, None) else (0, Some (link_error prog)).

(** How a call that stopped before ends. *)
Definition early_outcome (w w' : World) (r : Z * error) : Prop :=
  (exists msg, r = (0, Some msg) /\ read_or_compile_error msg) /\ no_new_program w w'.

(** The types of the shaders attached to a program. *)
Definition attached_types (w : World) (p : ProgramObj) : list Z :=
  (gl.stages w (pr_attached p)).*1.

(** The handle returned without an error names a program made by the call
    whose link succeeded. *)
Definition fresh_linked_program (w w' : World) (handle : Z) : Prop :=
  next_name w <= handle < next_name w' /\
  exists prog, objects w' !! handle = Some (ObjProgram prog) /\ pr_status prog = true.

(** A driver and a file system to run the package on: the compiler rejects
    the source [bad], the linker rejects a program with a stage whose source
    is [unlinkable]. *)
Definition demo_compile (shaderType : Z) (source : string) : bool * string :=
  if String.eqb source "bad" then (false, "0:1: syntax error") else (true, "").

Definition demo_link (stages : list (Z * string)) : bool * string :=
  if bool_decide ("unlinkable" ∈ stages.*2) then (false, "undefined symbol") else (true, "").

Definition demo_world : World :=
  {| next_name := 1; objects := ∅; bindings := ∅;
     glsl_compile := demo_compile; glsl_link := demo_link;
     files := list_to_map [("v.glsl", "void main(){}"); ("f.glsl", "out vec4 c;");
                           ("g.glsl", "layout(points) in;"); ("tc.glsl", "layout(vertices=3) out;");
                           ("te.glsl", "layout(triangles) in;"); ("c.glsl", "layout(local_size_x=1) in;");
                           ("bad.glsl", "bad"); ("u.glsl", "unlinkable");
                           ("tiles.png", "PNG")];
     stdout := []; heap := ∅ |}.

(** The context invariant of a driver that hands out names from a counter:
    names are positive, unused names hold no object, bindings refer to
    names already handed out. *)
Definition ctx_ok (w : World) : Prop :=
  0 < next_name w /\
  (forall n, next_name w <= n -> objects w !! n = None) /\
  (forall target name, bindings w !! target = Some name -> name < next_name w).

(** The four fixed sampling parameters, set in the order of the source. *)
Definition fixed_params (params : gmap Z Z) : gmap Z Z :=
  <[gl.TEXTURE_MAG_FILTER := gl.NEAREST]>
    (<[gl.TEXTURE_MIN_FILTER := gl.NEAREST]>
       (<[gl.TEXTURE_WRAP_T := gl.CLAMP_TO_EDGE]>
          (<[gl.TEXTURE_WRAP_S := gl.CLAMP_TO_EDGE]> params))).

Definition texture_at (w : World) (name : Z) : option TextureObj :=
  match objects w !! name with
  | Some (ObjTexture t) => Some t
  | _ => None
  end.

Definition storage_of (w : World) (name : Z) : option TexData :=
  t ← texture_at w name; tx_data t.

(** The pixel type the driver was given with a texture's data: an image
    upload names one, immutable storage has none. *)
Definition pixel_type_of (w : World) (name : Z) : option Z :=
  match storage_of w name with
  | Some (Image2D _ _ _ _ _ _ xtype _) => Some xtype
  | _ => None
  end.

(** A parameter of the texture [name]. *)
Definition param_of (w : World) (name pname : Z) : option Z :=
  t ← texture_at w name; tx_params t !! pname.

(** The storage [CreateTexture] asks for. *)
Definition tex_storage (multisampling : bool)
    (samples mipmapLevels internalFormat width height : Z) : TexData :=
  if multisampling then Storage2DMultisample samples internalFormat width height false
  else Storage2D mipmapLevels internalFormat width height.

(** The shape both framebuffer presets share, in the words of the
    specification: a color texture and a depth texture, each created only
    for a non-nil pointer and stored through it, then a framebuffer
    assembled from the two. *)
Definition fbo_preset (colorTex depthTex : option Z) (color depth : M Z) (texType : Z) : M Z :=
  (if colorTex is Some p then tex ← color; store p tex else mret tt);;
  (if depthTex is Some p then tex ← depth; store p tex else mret tt);;
  CreateFboWithExistingTextures colorTex depthTex texType.

(** What a preset leaves behind: the storage of the two textures, no other
    new texture, and the names stored through the pointers. *)
Definition fbo_textures (w w' : World) (colorTex depthTex : option Z)
    (color depth : TexData) : Prop :=
  let ncolor := next_name w in
  let ndepth := if colorTex is Some _ then next_name w + 1 else next_name w in
  (colorTex <> None -> storage_of w' ncolor = Some color) /\
  (depthTex <> None -> storage_of w' ndepth = Some depth) /\
  (forall k t, next_name w <= k -> texture_at w' k = Some t ->
     (colorTex <> None /\ k = ncolor) \/ (depthTex <> None /\ k = ndepth)) /\
  (forall p, depthTex = Some p -> heap w' !! p = Some ndepth) /\
  (forall p, colorTex = Some p -> depthTex <> Some p -> heap w' !! p = Some ncolor).

(** The vertex attribute both mesh functions configure. *)
Definition vec2_attribute (buffer : Z) : AttribPointer :=
  {| ap_size := 2; ap_type := gl.FLOAT; ap_normalized := false;
     ap_stride := sizeof_Vec2; ap_offset := 0; ap_buffer := buffer |}.

(** The fields of a [MeshBuffer] after [FreeGLBuffer]. *)
Definition freed (b : MeshBuffer) : MeshBuffer :=
  let b := if 0 <? VertexCount b
           then {| ArrayBuffer := 0; VertexBuffer := 0; VertexCount := 0;
                   IndexBuffer := IndexBuffer b; IndexCount := IndexCount b |}
           else b in
  if 0 <? IndexCount b
  then {| ArrayBuffer := ArrayBuffer b; VertexBuffer := VertexBuffer b; VertexCount := 0;
          IndexBuffer := 0; IndexCount := IndexCount b |}
  else b.

Definition load_failed_message (e : string) : string :=
  "Image load failed: " +:+ e +:+ "." +:+ LF.

(** An image loader to run [CreateImageTexture] with: it decodes every
    existing file to a 4x2 image, and fails on a missing file with the
    zero [ImageData] and the error. *)
Definition demo_image : Image :=
  {| Bounds := {| Min := {| X := 0; Y := 0 |}; Max := {| X := 4; Y := 2 |} |};
     Content := [] |}.

Definition demo_LoadImage (name : string) : M (ImageData * error) :=
  fun w => match files w !! name with
           | Some _ => (Ret ({| Img := Some demo_image |}, None), w)
           | None => (Ret ({| Img := None |}, Some (read_error name)), w)
           end.

Definition origin : Vec2 := (Float32bits 0, Float32bits 0).

Definition empty_mesh : MeshBuffer :=
  {| ArrayBuffer := 0; VertexBuffer := 0; VertexCount := 0;
     IndexBuffer := 0; IndexCount := 0 |}.

(** 2^31 points: a slice the 64-bit [int] can measure and [int32] cannot. *)
Definition many_points : list Vec2 := replicate (Z.to_nat 2147483648) origin.

(** The context after a repeating image texture was loaded: texture 1,
    bound to TEXTURE_2D, wrap mode REPEAT. *)
Definition tiles_world : World :=
  (CreateImageTexture demo_LoadImage "tiles.png" true demo_world).2.

(** The context after [NewProgram] ran into a failed link. *)
Definition failed_link_world : World :=
  (NewProgram "v.glsl" "" "" "" "u.glsl" demo_world).2.

(** ** Vocabulary of the further properties *)

(** The NUL bytes left after an info log of the buffer the package reads it
    into: the driver's terminator, and the extra byte the package allocates
    (only that byte when there is no log). *)
Definition log_padding (log : string) : string :=
  if String.eqb log "" then String NUL "" else String NUL (String NUL "").

(** A name handed out between two worlds. *)
Definition created (w w' : World) (n : Z) : Prop := next_name w <= n < next_name w'.

(** The object [n] is still in the driver, and not flagged for deletion. *)
Definition unreleased (w : World) (n : Z) : Prop :=
  match objects w !! n with
  | Some (ObjShader s) => sh_deleted s = false
  | Some _ => True
  | None => False
  end.

(** What [NewProgram] prints: a line for a vertex shader that fails to
    compile, nothing else. *)
Definition vertex_report (w : World) (vertexShaderName : string) : list string :=
  match files w !! vertexShaderName with
  | Some source =>
      let s := compiled_shader w source gl.VERTEX_SHADER in
      if sh_status s then [] else ["error: " +:+ compile_error source s +:+ LF]
  | None => []
  end.

(** The shader files [NewProgram] reads, with the type each is compiled as,
    in the order it attaches them. *)
Definition stage_files (vertexShaderName geometryShaderName tessControlShaderName
    tessEvalShaderName fragmentShaderName : string) : list (Z * string) :=
  let useTessellationShader :=
    negb (String.eqb tessControlShaderName "") && negb (String.eqb tessEvalShaderName "") in
  let useGeometryShader := negb (String.eqb geometryShaderName "") in
  [(gl.VERTEX_SHADER, vertexShaderName)]
  ++ (if useTessellationShader
      then [(gl.TESS_CONTROL_SHADER, tessControlShaderName);
            (gl.TESS_EVALUATION_SHADER, tessEvalShaderName)]
      else [])
  ++ [(gl.FRAGMENT_SHADER, fragmentShaderName)]
  ++ (if useGeometryShader then [(gl.GEOMETRY_SHADER, geometryShaderName)] else []).

(** Type and installed source of each of these files, when all exist. *)
Definition file_stages (w : World) (stage_files : list (Z * string))
    : option (list (Z * string)) :=
  mapM (fun '(shaderType, name) =>
          source ← files w !! name; Some (shaderType, installed_source source))
       stage_files.

(** The driver's compiler accepts a stage. *)
Definition compiles (w : World) (stage : Z * string) : Prop :=
  (glsl_compile w stage.1 stage.2).1 = true.

(** Every file is there, every stage compiles, and the linker accepts them. *)
Definition builds (w : World) (stage_files : list (Z * string)) : Prop :=
  exists stages,
    file_stages w stage_files = Some stages /\
    Forall (compiles w) stages /\
    (glsl_link w stages).1 = true.

(** The same, file by file: read, compile, go on. *)
Fixpoint build_in_order (w : World) (stage_files : list (Z * string))
    : option (list (Z * string)) :=
  match stage_files with
  | [] => Some []
  | (shaderType, name) :: rest =>
      match files w !! name with
      | Some source =>
          if (glsl_compile w shaderType (installed_source source)).1 then
            match build_in_order w rest with
            | Some stages => Some ((shaderType, installed_source source) :: stages)
            | None => None
            end
          else None
      | None => None
      end
  end.

(** What a call that got as far as the link returns, from the linker's
    verdict on the stages: the name of the program, which follows those of
    the shaders, or the link error. *)
Definition link_result (w : World) (stages : list (Z * string)) : Z * error :=
  let '(ok, log) := glsl_link w stages in
  if ok then (next_name w + len stages, None)
  else (0, Some ("failed to link program: " +:+ log +:+ log_padding log)).

(** The target [CreateTexture] and the framebuffer presets work on. *)
Definition texture_target (multisampling : bool) : Z :=
  if multisampling then gl.TEXTURE_2D_MULTISAMPLE else gl.TEXTURE_2D.

(** The wrap mode [CreateImageTexture] sets. *)
Definition wrap_mode (isRepeating : bool) : Z :=
  if isRepeating then gl.REPEAT else gl.CLAMP_TO_EDGE.

(** What an attachment point of a framebuffer holds. *)
Definition attachment_of (w : World) (fbo attachment : Z) : option (Z * Z * Z) :=
  match objects w !! fbo with
  | Some (ObjFramebuffer f) => fb_attachments f !! attachment
  | _ => None
  end.

(** The attachments after [gl.FramebufferTexture2D] was called for the
    texture a pointer refers to (no call for a nil pointer). *)
Definition attach_texture (w : World) (attachment texType : Z) (tex : option Z)
    (attachments : gmap Z (Z * Z * Z)) : gmap Z (Z * Z * Z) :=
  match tex with
  | None => attachments
  | Some p =>
      let name := heap w !!! p in
      if name =? 0 then delete attachment attachments
      else match texture_at w name with
           | Some t =>
               if tx_target t =? texType
               then <[attachment := (texType, name, 0)]> attachments
               else attachments
           | None => attachments
           end
  end.

(** The buffer, the vertex array the driver holds under a name. *)
Definition buffer_at (w : World) (name : Z) : option BufferObj :=
  match objects w !! name with
  | Some (ObjBuffer b) => Some b
  | _ => None
  end.

Definition vertex_array_at (w : World) (name : Z) : option VertexArrayObj :=
  match objects w !! name with
  | Some (ObjVertexArray v) => Some v
  | _ => None
  end.

(** The binding points the mesh functions use. *)
Definition mesh_targets : list Z :=
  [gl.ARRAY_BUFFER; gl.VERTEX_ARRAY_BINDING; gl.ELEMENT_ARRAY_BUFFER].

(** Generating a mesh, then freeing it. *)
Definition triangles_round_trip (b : MeshBuffer) (points : list Vec2) : M MeshBuffer :=
  b' ← GenerateBufferFromTriangles2D b points; FreeGLBuffer b'.

Definition lines_round_trip (b : MeshBuffer) (points : list Vec2) (indices : list Z)
    : M MeshBuffer :=
  b' ← GenerateBufferFromLines2D b points indices; FreeGLBuffer b'.

(** What deletions do to a context, at most: a name that held no buffer,
    no vertex array, no object holds none after; a binding is kept or reset
    to 0; no name is handed out. *)
Definition deletion (w w' : World) : Prop :=
  (forall k, buffer_at w k = None -> buffer_at w' k = None) /\
  (forall k, vertex_array_at w k = None -> vertex_array_at w' k = None) /\
  (forall k, objects w !! k = None -> objects w' !! k = None) /\
  (forall target name, bindings w' !! target = Some name ->
     name = 0 \/ bindings w !! target = Some name) /\
  next_name w' = next_name w /\ heap w' = heap w /\ stdout w' = stdout w.

(** A context with a texture (name 1) and a [uint32] variable, at address
    100, that holds its name. *)
Definition texture_world : World :=
  set_heap {[100 := 1]}
    (CreateTexture 64 32 gl.RGBA8 gl.RGBA gl.UNSIGNED_BYTE false 4 1 demo_world).2.

(** * Proofs

    ** Strings and integers *)

Lemma int32_small z : - 2 ^ 31 <= z < 2 ^ 31 -> int32 z = z.
Proof. intros H. unfold int32. rewrite Z.mod_small; lia. Qed.

Lemma int_small z : - 2 ^ 63 <= z < 2 ^ 63 -> int z = z.
Proof. intros H. unfold int. rewrite Z.mod_small; lia. Qed.

Lemma str_take_all s : str_take (String.length s) s = s.
Proof. induction s as [|c s IH]; simpl; [done | by rewrite IH]. Qed.

Lemma str_repeat_NUL_ends n : ends_with_NUL (str_repeat (String NUL "") (S n)) = true.
Proof.
  induction n as [|n IH]; [done |].
  change (str_repeat (String NUL "") (S (S n)))
    with (String NUL (str_repeat (String NUL "") (S n))).
  simpl in *. exact IH.
Qed.

Lemma strlen_nonneg s : 0 <= strlen s.
Proof. unfold strlen. lia. Qed.

Lemma log_length_range log :
  strlen log + 2 < 2 ^ 31 -> 0 <= gl.log_length log /\ gl.log_length log + 1 < 2 ^ 31.
Proof.
  intros H. pose proof (strlen_nonneg log). unfold gl.log_length.
  destruct (String.eqb log ""); [lia |]. rewrite int32_small; lia.
Qed.


(** Symbolic execution: unfold the monad and the entry points, then
    resolve the lookups of names that were just written. *)
Ltac gl_unfold :=
  repeat progress unfold gl.CreateShader, gl.ShaderSource, gl.CompileShader, gl.GetShaderiv,
    gl.GetShaderInfoLog, gl.DeleteShader, gl.CreateProgram, gl.AttachShader,
    gl.LinkProgram, gl.GetProgramiv, gl.GetProgramInfoLog, gl.Str,
    gl.GenTextures, gl.BindTexture, gl.TexParameteri, gl.TexStorage2D,
    gl.TexStorage2DMultisample, gl.TexImage2D, gl.tex_data,
    gl.GenFramebuffers, gl.BindFramebuffer, gl.FramebufferTexture2D,
    gl.GenBuffers, gl.GenVertexArrays, gl.BindBuffer, gl.bind_buffer_to, gl.set_element,
    gl.BufferData, gl.BindVertexArray, gl.EnableVertexAttribArray,
    gl.VertexAttribPointer, gl.DeleteBuffers, gl.DeleteVertexArrays, gl.unbind,
    gl.fresh, gl.put, gl.remove, gl.obj, gl.bound, gl.bind_to,
    strings_Repeat, fmt_Printf, os_ReadAll, load, store, returns, falls_through,
    panic, modify, get, mbind, M_bind, mret, M_ret.

Ltac not_in_list :=
  let H := fresh in
  intros H; repeat (apply elem_of_cons in H; destruct H as [H | H]; [lia |]);
  by apply elem_of_nil in H.

(** Some program has the shader attached. *)
Ltac solve_attached :=
  match goal with
  | |- map_Exists _ ?m =>
      match m with
      | context [<[?p := ObjProgram ?prog]> _] =>
          exists p, (ObjProgram prog);
          split; [repeat (rewrite lookup_insert_ne by lia); apply lookup_insert_eq
                 | simpl; set_solver]
      end
  end.

Ltac gl_lookup :=
  repeat (simpl;
          first [ rewrite lookup_insert_eq
                | rewrite lookup_insert_ne by lia
                | rewrite insert_insert_eq
                | rewrite bool_decide_eq_false_2 by not_in_list
                | rewrite bool_decide_eq_true_2 by solve_attached
                | progress simpl ]).

Lemma compileShader_eq w source shaderType :
  logs_fit w -> gl.is_shader_type shaderType = true ->
  compileShader source shaderType w =
    let s := compiled_shader w source shaderType in
    (Ret (if sh_status s then (next_name w, None) else (0, Some (compile_error source s))),
     with_shader w s).
Proof.
  intros [Hfit _] Hty.
  unfold compileShader, gl.CreateShader. rewrite Hty.
  unfold compiled_shader, with_shader, compile_error, log_buffer.
  fold (installed_source source).
  specialize (Hfit shaderType (installed_source source)).
  gl_unfold. gl_lookup.
  fold (installed_source source).
  destruct (glsl_compile w shaderType (installed_source source)) as [ok log] eqn:Hc.
  destruct ok; gl_lookup; [reflexivity |].
  simpl in Hfit. destruct (log_length_range log Hfit) as [H0 H1].
  rewrite (int32_small (gl.log_length log + 1)) by lia.
  rewrite int_small by lia.
  destruct (Z.ltb_spec (gl.log_length log + 1) 0); [lia |].
  replace (Z.to_nat (gl.log_length log + 1)) with (S (Z.to_nat (gl.log_length log))) by lia.
  rewrite str_repeat_NUL_ends. gl_lookup. reflexivity.
Qed.



Lemma readFile_eq name w :
  readFile name w =
    (Ret (match files w !! name with
          | None => ("", Some (read_error name))
          | Some contents => (contents, None)
          end), w).
Proof. unfold readFile. gl_unfold. simpl. by destruct (files w !! name). Qed.

#[local] Arguments compileShader : simpl never.
#[local] Arguments readFile : simpl never.
#[local] Arguments compiled_shader : simpl never.
#[local] Arguments int32 : simpl never.
#[local] Arguments int : simpl never.

Lemma sh_type_compiled w source shaderType :
  sh_type (compiled_shader w source shaderType) = shaderType.
Proof. reflexivity. Qed.

Lemma sh_deleted_compiled w source shaderType :
  sh_deleted (compiled_shader w source shaderType) = false.
Proof. reflexivity. Qed.

(** Step through the reads and compilations of a function, one case per
    outcome; a compiled shader is kept as a variable with its type. *)
Ltac run_shaders Hfit :=
  repeat (simpl;
    match goal with
    | |- context [readFile ?n ?w'] =>
        rewrite (readFile_eq n w'); destruct (files w' !! n) as [?src|] eqn:?
    | |- context [compileShader ?s ?t ?w'] =>
        rewrite (compileShader_eq w' s t) by (done || exact Hfit); cbv zeta;
        let sh := fresh "sh" in
        let Hty := fresh "Hty" in
        let Hdel := fresh "Hdel" in
        pose proof (sh_type_compiled w' s t) as Hty;
        pose proof (sh_deleted_compiled w' s t) as Hdel;
        generalize dependent (compiled_shader w' s t); intros sh Hty Hdel;
        destruct (sh_status sh) eqn:?
    end).

(** Facts about the objects of the final world, for an arbitrary name. *)
Ltac kept :=
  let q := fresh "q" in
  let prog := fresh "prog" in
  let Hq := fresh "Hq" in
  let H := fresh "H" in
  intros q prog Hq H; simpl in H;
  repeat (rewrite lookup_insert in H; case_decide; [by simplify_eq |]);
  exact H.

Ltac none_new :=
  let q := fresh "q" in
  let prog := fresh "prog" in
  let H := fresh "H" in
  intros q prog H; simpl in H;
  repeat (rewrite lookup_insert in H; case_decide; [by simplify_eq |]);
  exact H.

Ltac early_leaf :=
  eexists _, _; split; [reflexivity |]; left; split;
  [ eexists; split; [reflexivity |];
    first [ left; by eexists | right; by eexists _, _ ]
  | none_new ].

Ltac stages_ok :=
  repeat (constructor; [eexists; split; [gl_lookup; reflexivity | by simpl] |]);
  constructor.

(** Reading back an info log of a length that fits: no panic. *)
Ltac read_log Hlog :=
  let H0 := fresh in
  let H1 := fresh in
  simpl in Hlog; destruct (log_length_range _ Hlog) as [H0 H1];
  rewrite (int32_small (gl.log_length _ + 1)) by lia;
  rewrite int_small by lia;
  match goal with
  | |- context [gl.log_length ?l + 1 <? 0] =>
      destruct (Z.ltb_spec (gl.log_length l + 1) 0); [lia |];
      replace (Z.to_nat (gl.log_length l + 1)) with (S (Z.to_nat (gl.log_length l))) by lia
  end;
  rewrite str_repeat_NUL_ends.

Ltac linked_leaf :=
  match goal with
  | |- context [<[?p := ObjProgram _]> _] =>
      eexists _, _; split; [reflexivity |]; right;
      unfold linked_outcome, len, stage_types;
      exists p; eexists; split; [simpl; lia |]; split; [gl_lookup; reflexivity |];
      split; [simpl; lia |]
  end;
  split; [stages_ok |]; split; [repeat (constructor; [lia |]); constructor |];
  split; [kept |];
  simpl; unfold link_error, log_buffer; simpl;
  repeat (rewrite (int32_small (gl.log_length _ + 1)) by lia);
  repeat (rewrite int_small by lia);
  repeat match goal with
  | |- context [Z.to_nat (gl.log_length ?l + 1)] =>
      replace (Z.to_nat (gl.log_length l + 1)) with (S (Z.to_nat (gl.log_length l))) by lia
  end;
  reflexivity.

Lemma NewProgram_outcome w a b c d e : logs_fit w ->
  exists r w', NewProgram a b c d e w = (Ret r, w') /\
    (early_outcome w w' r \/
     linked_outcome w w'
       (stage_types (negb (String.eqb c "") && negb (String.eqb d ""))
                    (negb (String.eqb b ""))) r).
Proof.
  intros Hfit.
  unfold NewProgram.
  destruct (negb (String.eqb c "") && negb (String.eqb d "")) eqn:Htess;
  destruct (negb (String.eqb b "")) eqn:Hgeom.
  all: gl_unfold.
  all: run_shaders Hfit.
  all: try early_leaf.
  all: gl_lookup.
  all: match goal with
       | |- context [glsl_link ?w0 ?st] =>
           pose proof (proj2 Hfit st) as Hlog;
           destruct (glsl_link w0 st) as [ok log] eqn:Hlink; destruct ok
       end.
  all: gl_lookup.
  all: try read_log Hlog.
  all: gl_lookup.
  all: linked_leaf.
Qed.

Lemma NewComputeProgram_outcome w a : logs_fit w ->
  exists r w', NewComputeProgram a w = (Ret r, w') /\
    (early_outcome w w' r \/ linked_outcome w w' [gl.COMPUTE_SHADER] r).
Proof.
  intros Hfit.
  unfold NewComputeProgram.
  gl_unfold.
  run_shaders Hfit.
  all: try early_leaf.
  all: gl_lookup.
  all: match goal with
       | |- context [glsl_link ?w0 ?st] =>
           pose proof (proj2 Hfit st) as Hlog;
           destruct (glsl_link w0 st) as [ok log] eqn:Hlink; destruct ok
       end.
  all: gl_lookup.
  all: try read_log Hlog.
  all: gl_lookup.
  all: linked_leaf.
Qed.

Lemma stages_of_ok w flag names types :
  Forall2 (stage_ok w flag) names types ->
  (gl.stages w names).*1 = types /\ len names = len types.
Proof.
  unfold len. induction 1 as [|name ty names types (s & Hs & Hty & _) _ [IH1 IH2]];
    [done |].
  unfold gl.stages in *. csimpl. rewrite Hs. csimpl. rewrite IH1, Hty.
  split; [done | simpl in *; lia].
Qed.

Lemma stage_types_len t g : 2 <= len (stage_types t g) <= 5.
Proof. destruct t, g; vm_compute; split; discriminate. Qed.

Lemma demo_logs_fit : logs_fit demo_world.
Proof.
  split; simpl.
  - intros t s. unfold demo_compile. by destruct (String.eqb s "bad").
  - intros l. unfold demo_link. by case_bool_decide.
Qed.

(** ** Textures, framebuffers, buffers

    A second stepping tactic, for code whose driver calls depend on what the
    context holds: it splits on the lookups it cannot resolve. *)

Ltac side := first [lia | done].

Ltac world_simpl :=
  cbn [objects next_name bindings glsl_compile glsl_link files stdout heap
       set_next_name set_objects set_bindings set_stdout set_heap].

Ltac neq0 :=
  match goal with
  | |- context [?n =? 0] =>
      destruct (Z.eqb_spec n 0) as [? | ?]; [lia |]
  end.

Ltac fresh_lookup :=
  match goal with
  | H : forall n, next_name ?w <= n -> objects ?w !! n = None |- _ => rewrite H by lia
  end.

Ltac known_lookup :=
  match goal with
  | H : ?m !! ?k = _ |- context [?m !! ?k] => rewrite H
  | H : (?a =? ?b) = _ |- context [?a =? ?b] => rewrite H
  end.

Ltac lookup_ne :=
  match goal with
  | |- context [<[?i := ?x]> ?m !! ?j] => rewrite (lookup_insert_ne m i j x) by side
  end.

Ltac gl_step :=
  first [ rewrite lookup_insert_eq
        | lookup_ne
        | rewrite insert_insert_eq
        | fresh_lookup
        | known_lookup
        | neq0
        | progress world_simpl
        | progress simpl ].

Lemma CreateTexture_2D w width height internalFormat format internalType samples mipmapLevels :
  ctx_ok w ->
  CreateTexture width height internalFormat format internalType false samples mipmapLevels w =
    (Ret (next_name w),
     set_bindings (<[gl.TEXTURE_2D := next_name w]> (bindings w))
       (set_objects
          (<[next_name w := ObjTexture {| tx_target := gl.TEXTURE_2D;
                                          tx_params := fixed_params ∅;
                                          tx_data := Some (Storage2D mipmapLevels internalFormat width height) |}]>
             (objects w))
          (set_next_name (next_name w + 1) w))).
Proof.
  intros (Hpos & Hfresh & Hbound).
  unfold CreateTexture. gl_unfold.
  repeat gl_step.
  reflexivity.
Qed.

(** With multisampling the parameters go to the texture bound to TEXTURE_2D. *)
Lemma CreateTexture_multisample w width height internalFormat format internalType samples mipmapLevels :
  ctx_ok w ->
  exists w',
    CreateTexture width height internalFormat format internalType true samples mipmapLevels w =
      (Ret (next_name w), w') /\
    next_name w' = next_name w + 1 /\
    bindings w' = <[gl.TEXTURE_2D_MULTISAMPLE := next_name w]> (bindings w) /\
    heap w' = heap w /\ stdout w' = stdout w /\
    texture_at w' (next_name w) =
      Some {| tx_target := gl.TEXTURE_2D_MULTISAMPLE; tx_params := ∅;
              tx_data := Some (Storage2DMultisample samples internalFormat width height false) |} /\
    let b := default 0 (bindings w !! gl.TEXTURE_2D) in
    (forall k, k <> next_name w -> k <> b -> objects w' !! k = objects w !! k) /\
    (forall t, gl.target_texture gl.TEXTURE_2D b (objects w !! b) = Some t ->
       texture_at w' b = Some {| tx_target := tx_target t; tx_params := fixed_params (tx_params t);
                                 tx_data := tx_data t |}) /\
    (gl.target_texture gl.TEXTURE_2D b (objects w !! b) = None ->
       objects w' !! b = objects w !! b).
Proof.
  intros (Hpos & Hfresh & Hbound).
  unfold CreateTexture, texture_at. gl_unfold.
  assert (default 0 (bindings w !! gl.TEXTURE_2D) < next_name w) as Hb.
  { destruct (bindings w !! gl.TEXTURE_2D) as [b|] eqn:E; simpl; [by eapply Hbound | lia]. }
  destruct (bindings w !! gl.TEXTURE_2D) as [b|] eqn:Eb; simpl default in *.
  all: match goal with
       | |- context [gl.target_texture _ ?b (objects _ !! ?b) = None] =>
           destruct (objects w !! b) as [[]|] eqn:Eo; try destruct (b =? 0) eqn:E0
       end.
  all: repeat gl_step.
  all: eexists; (split; [reflexivity |]); world_simpl; repeat gl_step.
  all: repeat split; try done.
  all: try by (intros k H1 H2; rewrite !lookup_insert_ne by done).
  all: try by (intros ? [= <-]).
Qed.

Lemma CreateTexture_spec w width height internalFormat format internalType multisampling samples mipmapLevels :
  ctx_ok w ->
  exists w',
    CreateTexture width height internalFormat format internalType multisampling samples mipmapLevels w =
      (Ret (next_name w), w') /\
    ctx_ok w' /\
    next_name w' = next_name w + 1 /\
    heap w' = heap w /\
    storage_of w' (next_name w) =
      Some (tex_storage multisampling samples mipmapLevels internalFormat width height) /\
    (forall k, k <> next_name w -> storage_of w' k = storage_of w k).
Proof.
  intros Hok. destruct multisampling.
  - destruct (CreateTexture_multisample w width height internalFormat format internalType
                samples mipmapLevels Hok)
      as (w' & E & Hn & Hb & Hh & _ & Hnew & Hother & Hset & Hnot).
    destruct Hok as (Hpos & Hfresh & Hbound).
    assert (default 0 (bindings w !! gl.TEXTURE_2D) < next_name w) as Hlt.
    { destruct (bindings w !! gl.TEXTURE_2D) as [b|] eqn:Eb; simpl; [by eapply Hbound | lia]. }
    cbv zeta in *.
    generalize dependent (default 0 (bindings w !! gl.TEXTURE_2D)). intros b Hother Hset Hnot Hlt.
    exists w'. split; [exact E |]. split; [| split; [exact Hn |]; split; [exact Hh |]; split].
    + unfold ctx_ok. rewrite Hn. split; [lia |]. split.
      * intros k Hk. rewrite Hother by lia. apply Hfresh. lia.
      * intros target name. rewrite Hb, lookup_insert. case_decide.
        -- intros [= <-]. lia.
        -- intros H'. apply Hbound in H'. lia.
    + unfold storage_of. by rewrite Hnew.
    + intros k Hk. destruct (decide (k = b)) as [-> | Hkb].
      * unfold storage_of.
        destruct (gl.target_texture gl.TEXTURE_2D b (objects w !! b)) as [t|] eqn:Ht.
        -- rewrite (Hset t eq_refl). simpl. unfold texture_at.
           unfold gl.target_texture in Ht.
           destruct (objects w !! b) as [[]|]; simplify_eq/=; try done.
           by destruct (b =? 0); simplify_eq/=.
        -- unfold texture_at. by rewrite Hnot.
      * unfold storage_of, texture_at. by rewrite Hother.
  - rewrite (CreateTexture_2D w width height internalFormat format internalType
               samples mipmapLevels Hok).
    destruct Hok as (Hpos & Hfresh & Hbound).
    eexists. split; [reflexivity |]. world_simpl.
    split; [| split; [done |]; split; [done |]; split].
    + unfold ctx_ok. world_simpl. split; [lia |]. split.
      * intros k Hk. rewrite lookup_insert_ne by lia. apply Hfresh. lia.
      * intros target name. rewrite lookup_insert. case_decide.
        -- intros [= <-]. lia.
        -- intros H'. apply Hbound in H'. lia.
    + unfold storage_of, texture_at. world_simpl. by rewrite lookup_insert_eq.
    + intros k Hk. unfold storage_of, texture_at. world_simpl. by rewrite lookup_insert_ne.
Qed.

(** Split on the first undetermined test: a lookup, an integer comparison,
    or a variable. *)
Ltac gl_split :=
  match goal with
  | |- context [match ?x with _ => _ end] =>
      lazymatch x with
      | <[_ := _]> _ !! _ => fail
      | _ !! _ => first [ destruct x as [[]|] eqn:? | destruct x eqn:? ]
      | _ =? _ => destruct x eqn:?
      | _ <? _ => destruct x eqn:?
      | ?f ?v => is_var v; destruct x as [[]|] eqn:?
      | _ => is_var x; destruct x
      end
  end.

Ltac gl_undecided :=
  match goal with
  | |- context [<[?i := _]> _ !! ?j] =>
      let E := fresh "E" in
      destruct (decide (j = i)) as [E | E];
      [ first [ discriminate E | lia | (rewrite E in *; rewrite lookup_insert_eq) ]
      | rewrite lookup_insert_ne by side ]
  end.

Ltac gl_case := first [ gl_step | gl_undecided | gl_split ].

Lemma CreateFboWithExistingTextures_eq w colorTex depthTex texType :
  ctx_ok w ->
  exists f,
    CreateFboWithExistingTextures colorTex depthTex texType w =
      (Ret (next_name w),
       set_bindings (<[gl.FRAMEBUFFER := 0]> (bindings w))
         (set_objects (<[next_name w := ObjFramebuffer f]> (objects w))
            (set_next_name (next_name w + 1) w))).
Proof.
  intros (Hpos & Hfresh & Hbound).
  unfold CreateFboWithExistingTextures. gl_unfold.
  repeat gl_case.
  all: eexists; reflexivity.
Qed.

Ltac run_texture :=
  match goal with
  | |- context [CreateTexture ?a ?b ?c ?d ?e ?f ?g ?h ?w] =>
      let w1 := fresh "w" in
      let E := fresh "E" in
      let Hok := fresh "Hok" in
      let Hn := fresh "Hn" in
      let Hh := fresh "Hh" in
      let Hs := fresh "Hs" in
      let Hf := fresh "Hf" in
      destruct (CreateTexture_spec w a b c d e f g h ltac:(assumption))
        as (w1 & E & Hok & Hn & Hh & Hs & Hf);
      rewrite E; clear E; cbv beta iota zeta;
      match goal with
      | |- context [set_heap ?h w1] => assert (ctx_ok (set_heap h w1)) by exact Hok
      end
  end.

Lemma texture_at_below w k t : ctx_ok w -> texture_at w k = Some t -> k < next_name w.
Proof.
  intros (_ & Hfresh & _) H. destruct (Z.lt_ge_cases k (next_name w)) as [|Hge]; [done |].
  unfold texture_at in H. by rewrite (Hfresh k) in H by lia.
Qed.

Lemma texture_at_with_fbo w b m n f k :
  texture_at (set_bindings b (set_objects (<[n := ObjFramebuffer f]> (objects w))
                                (set_next_name m w))) k
  = if decide (k = n) then None else texture_at w k.
Proof.
  unfold texture_at. world_simpl. rewrite lookup_insert.
  destruct (decide (n = k)), (decide (k = n)); congruence.
Qed.

Lemma storage_of_with_fbo w b m n f k :
  storage_of (set_bindings b (set_objects (<[n := ObjFramebuffer f]> (objects w))
                                (set_next_name m w))) k
  = if decide (k = n) then None else storage_of w k.
Proof. unfold storage_of. rewrite texture_at_with_fbo. by case_decide. Qed.

Lemma texture_at_set_heap w h k : texture_at (set_heap h w) k = texture_at w k.
Proof. reflexivity. Qed.

Lemma storage_of_set_heap w h k : storage_of (set_heap h w) k = storage_of w k.
Proof. reflexivity. Qed.

Ltac norm_heap :=
  repeat match goal with
  | H : context [next_name (set_heap ?h ?w0)] |- _ =>
      change (next_name (set_heap h w0)) with (next_name w0) in H
  | H : context [storage_of (set_heap ?h ?w0) ?k] |- _ =>
      change (storage_of (set_heap h w0) k) with (storage_of w0 k) in H
  | |- context [next_name (set_heap ?h ?w0)] =>
      change (next_name (set_heap h w0)) with (next_name w0)
  | |- context [storage_of (set_heap ?h ?w0) ?k] =>
      change (storage_of (set_heap h w0) k) with (storage_of w0 k)
  | |- context [texture_at (set_heap ?h ?w0) ?k] =>
      change (texture_at (set_heap h w0) k) with (texture_at w0 k)
  | H : context [texture_at (set_heap ?h ?w0) ?k] |- _ =>
      change (texture_at (set_heap h w0) k) with (texture_at w0 k) in H
  end.

Ltac storage_goal :=
  norm_heap; rewrite storage_of_with_fbo; norm_heap; (case_decide; [lia |]);
  repeat match goal with
  | Hf : forall k, k <> _ -> storage_of ?w1 k = storage_of _ k |- storage_of ?w1 _ = _ =>
      first [ assumption | rewrite Hf by lia ]
  end;
  first [ assumption
        | match goal with
          | Hs : storage_of ?w1 ?a = _ |- storage_of ?w1 ?b = _ =>
              replace b with a by lia; exact Hs
          end ].

Ltac texture_goal w :=
  let k := fresh "k" in
  let t := fresh "t" in
  let Hk := fresh "Hk" in
  let Ht := fresh "Ht" in
  intros k t Hk; rewrite texture_at_with_fbo; norm_heap;
  (case_decide; [done |]); intros Ht;
  match goal with
  | H : ctx_ok ?w0, Ht : texture_at ?w0 _ = _ |- _ =>
      apply (texture_at_below _ _ _ H) in Ht
  end;
  first [ lia | left; split; [done | lia] | right; split; [done | lia]
        | destruct (decide (k = next_name w));
          [left; split; [done | lia] | right; split; [done | lia]] ].

Ltac heap_goal :=
  world_simpl;
  repeat match goal with
  | H : heap _ = _ |- _ => rewrite H; clear H
  end;
  norm_heap; world_simpl;
  repeat first [ rewrite lookup_insert_eq | rewrite lookup_insert_ne by congruence ];
  first [ done | f_equal; lia ].

Lemma fbo_preset_textures w colorTex depthTex width height multisampling samples texType
    cformat ctype cintFormat clevels dformat dtype dintFormat dlevels :
  ctx_ok w ->
  exists fbo w',
    fbo_preset colorTex depthTex
      (CreateTexture width height cintFormat cformat ctype multisampling samples clevels)
      (CreateTexture width height dintFormat dformat dtype multisampling samples dlevels)
      texType w = (Ret fbo, w') /\
    fbo_textures w w' colorTex depthTex
      (tex_storage multisampling samples clevels cintFormat width height)
      (tex_storage multisampling samples dlevels dintFormat width height).
Proof.
  intros Hok. unfold fbo_preset.
  destruct colorTex as [pc|], depthTex as [pd|].
  all: unfold mbind, M_bind, mret, M_ret, store, modify.
  all: repeat run_texture.
  all: match goal with
       | |- context [CreateFboWithExistingTextures ?c ?d ?t ?w] =>
           destruct (CreateFboWithExistingTextures_eq w c d t ltac:(assumption)) as (f & ->)
       end.
  all: eexists _, _; (split; [reflexivity |]).
  all: unfold fbo_textures; cbv zeta; norm_heap.
  all: (split; [intros ?; try done; storage_goal |]).
  all: (split; [intros ?; try done; storage_goal |]).
  all: (split; [texture_goal w |]).
  all: split; [intros p E; try done; injection E as <-; heap_goal
              | intros p E Hne; try done; injection E as <-; heap_goal].
Qed.

Lemma DeleteBuffers_total buffer w : exists w', gl.DeleteBuffers buffer w = (Ret (), w').
Proof. gl_unfold. repeat gl_case. all: eexists; reflexivity. Qed.

Lemma DeleteVertexArrays_total array w : exists w', gl.DeleteVertexArrays array w = (Ret (), w').
Proof. gl_unfold. repeat gl_case. all: eexists; reflexivity. Qed.

Lemma FreeGLBuffer_freed b w : exists w', FreeGLBuffer b w = (Ret (freed b), w').
Proof.
  unfold FreeGLBuffer, freed. unfold mbind, M_bind, mret, M_ret.
  destruct (0 <? VertexCount b) eqn:Hv.
  - destruct (DeleteBuffers_total (ArrayBuffer b) w) as (w1 & ->).
    destruct (DeleteVertexArrays_total (VertexBuffer b) w1) as (w2 & ->).
    cbn [IndexCount IndexBuffer].
    destruct (0 <? IndexCount b) eqn:Hi.
    + destruct (DeleteBuffers_total (IndexBuffer b) w2) as (w3 & ->). by eexists.
    + by eexists.
  - destruct (0 <? IndexCount b) eqn:Hi.
    + destruct (DeleteBuffers_total (IndexBuffer b) w) as (w3 & ->). by eexists.
    + by eexists.
Qed.

Lemma freed_twice b : freed (freed b) = freed b.
Proof.
  unfold freed. destruct b as [ab vb vc ib ic].
  cbn [VertexCount IndexCount].
  destruct (0 <? vc) eqn:Hv, (0 <? ic) eqn:Hi;
    repeat first
      [ progress cbn [VertexCount IndexCount ArrayBuffer VertexBuffer IndexBuffer]
      | progress change (0 <? 0) with false
      | rewrite Hi | rewrite Hv ];
    reflexivity.
Qed.

Lemma GenerateBufferFromTriangles2D_eq w b points :
  ctx_ok w -> 3 <= len points ->
  exists w',
    GenerateBufferFromTriangles2D b points w =
      (Ret {| ArrayBuffer := next_name w; VertexBuffer := next_name w + 1;
              VertexCount := int32 (len points);
              IndexBuffer := IndexBuffer b; IndexCount := IndexCount b |}, w') /\
    objects w' !! next_name w =
      Some (ObjBuffer {| bo_size := int (int (int32 sizeof_Vec2) * len points);
                         bo_data := Points points; bo_usage := gl.STATIC_DRAW |}) /\
    objects w' !! (next_name w + 1) =
      Some (ObjVertexArray
              {| va_enabled := {[0]} ∪ ∅;
                 va_attribs := {[0 := {| ap_size := 2; ap_type := gl.FLOAT;
                                        ap_normalized := false;
                                        ap_stride := int32 sizeof_Vec2;
                                        ap_offset := 0; ap_buffer := next_name w |}]};
                 va_element := 0 |}) /\
    next_name w' = next_name w + 2.
Proof.
  intros (Hpos & Hfresh & Hbound) Hlen.
  unfold GenerateBufferFromTriangles2D.
  destruct (Z.ltb_spec (len points) 3); [lia |].
  gl_unfold. repeat gl_step.
  eexists. split; [reflexivity |]. world_simpl. repeat gl_step.
  rewrite insert_empty. repeat split; first [done | lia].
Qed.

Lemma GenerateBufferFromLines2D_eq w b points indices :
  ctx_ok w -> 2 <= len points -> 2 <= len indices ->
  exists w',
    GenerateBufferFromLines2D b points indices w =
      (Ret {| ArrayBuffer := next_name w; VertexBuffer := next_name w + 1;
              VertexCount := int32 (len points);
              IndexBuffer := next_name w + 2; IndexCount := int32 (len indices) |}, w') /\
    objects w' !! next_name w =
      Some (ObjBuffer {| bo_size := int (int (int32 sizeof_Vec2) * len points);
                         bo_data := Points points; bo_usage := gl.STATIC_DRAW |}) /\
    objects w' !! (next_name w + 1) =
      Some (ObjVertexArray
              {| va_enabled := {[0]} ∪ ∅;
                 va_attribs := {[0 := {| ap_size := 2; ap_type := gl.FLOAT;
                                        ap_normalized := false;
                                        ap_stride := int32 sizeof_Vec2;
                                        ap_offset := 0; ap_buffer := next_name w |}]};
                 va_element := 0 |}) /\
    objects w' !! (next_name w + 2) =
      Some (ObjBuffer {| bo_size := int (int sizeof_uint32 * len indices);
                         bo_data := Indices indices; bo_usage := gl.STATIC_DRAW |}) /\
    next_name w' = next_name w + 3.
Proof.
  intros (Hpos & Hfresh & Hbound) Hp Hi.
  unfold GenerateBufferFromLines2D.
  destruct (Z.ltb_spec (len points) 2); [lia |].
  destruct (Z.ltb_spec (len indices) 2); [lia |].
  replace (next_name w + 2) with (next_name w + 1 + 1) by lia.
  gl_unfold. repeat gl_step.
  eexists. split; [reflexivity |]. world_simpl. repeat gl_step.
  rewrite insert_empty. repeat split; first [done | lia].
Qed.

Lemma BindTexture_total target texture w :
  exists w', gl.BindTexture target texture w = (Ret (), w') /\ stdout w' = stdout w.
Proof. gl_unfold. repeat gl_case. all: eexists; split; [reflexivity | done]. Qed.

Lemma TexParameteri_total target pname param w :
  exists w', gl.TexParameteri target pname param w = (Ret (), w') /\ stdout w' = stdout w.
Proof. gl_unfold. unfold gl.target_texture. repeat gl_case. all: eexists; split; [reflexivity | done]. Qed.

Lemma TexImage2D_total target level internalformat width height border format xtype pixels w :
  exists w',
    gl.TexImage2D target level internalformat width height border format xtype pixels w
      = (Ret (), w') /\ stdout w' = stdout w.
Proof.
  gl_unfold. unfold gl.target_texture, gl.is_immutable. repeat gl_case. all: eexists; split; [reflexivity | done].
Qed.

Ltac run_total :=
  match goal with
  | |- context [gl.BindTexture ?a ?b ?w] =>
      let w' := fresh "w" in let E := fresh "E" in let Ho := fresh "Hout" in
      destruct (BindTexture_total a b w) as (w' & E & Ho); rewrite E; clear E
  | |- context [gl.TexParameteri ?a ?b ?c ?w] =>
      let w' := fresh "w" in let E := fresh "E" in let Ho := fresh "Hout" in
      destruct (TexParameteri_total a b c w) as (w' & E & Ho); rewrite E; clear E
  | |- context [gl.TexImage2D ?a ?b ?c ?d ?e ?f ?g ?h ?i ?w] =>
      let w' := fresh "w" in let E := fresh "E" in let Ho := fresh "Hout" in
      destruct (TexImage2D_total a b c d e f g h i w) as (w' & E & Ho); rewrite E; clear E
  end.

(** * Claims *)

(** C1 (amended): a program object made by [NewProgram] has the stages of
    [stage_types] attached, in that order: vertex, then tessellation control
    and evaluation exactly when both of their file names are non-empty, then
    fragment, then geometry exactly when its file name is non-empty.  That is
    at least 2 and at most 5 shader objects. *)
Theorem NewProgram_attached_stages w v g tc te f p prog :
  logs_fit w ->
  let w' := (NewProgram v g tc te f w).2 in
  let useTessellationShader := negb (String.eqb tc "") && negb (String.eqb te "") in
  let useGeometryShader := negb (String.eqb g "") in
  objects w' !! p = Some (ObjProgram prog) ->
  objects w !! p <> Some (ObjProgram prog) ->
  attached_types w' prog = stage_types useTessellationShader useGeometryShader /\
  len (pr_attached prog) = len (stage_types useTessellationShader useGeometryShader) /\
  2 <= len (pr_attached prog) <= 5.
Proof.
  intros Hfit w' useT useG Hp Hnew. subst w'.
  destruct (NewProgram_outcome w v g tc te f Hfit) as (r & w' & E & [[_ Hnone] | Hl]);
    rewrite E in Hp; simpl in Hp.
  - by apply Hnone in Hp.
  - destruct Hl as (p0 & prog0 & _ & Hp0 & _ & Hst & _ & Hkept & _).
    destruct (decide (p = p0)) as [-> | Hne]; [| by apply Hkept in Hp].
    rewrite E. simpl. assert (prog = prog0) as -> by congruence.
    destruct (stages_of_ok _ _ _ _ Hst) as [H1 H2].
    unfold attached_types. fold useT useG in H1, H2 |- *.
    rewrite H2. split; [done |]. split; [done |]. apply stage_types_len.
Qed.

Lemma NewProgram_attached_stages_witness :
  attached_types (NewProgram "v.glsl" "" "tc.glsl" "te.glsl" "f.glsl" demo_world).2
    {| pr_attached := [1; 2; 3; 4]; pr_status := true; pr_log := "" |}
    = stage_types true false /\
  len [1; 2; 3; 4] = len (stage_types true false) /\
  2 <= len [1; 2; 3; 4] <= 5.
Proof.
  apply (NewProgram_attached_stages demo_world "v.glsl" "" "tc.glsl" "te.glsl" "f.glsl" 5
           {| pr_attached := [1; 2; 3; 4]; pr_status := true; pr_log := "" |}).
  - exact demo_logs_fit.
  - vm_compute. reflexivity.
  - vm_compute. discriminate.
Defined.

(** C1, as stated, fails: with five non-empty file names the program gets
    five shader objects attached, more than 4. *)
Lemma NewProgram_five_stages :
  exists prog,
    objects (NewProgram "v.glsl" "g.glsl" "tc.glsl" "te.glsl" "f.glsl" demo_world).2 !! 6
      = Some (ObjProgram prog) /\
    objects demo_world !! 6 = None /\
    ~ (2 <= len (pr_attached prog) <= 4).
Proof.
  eexists. split; [vm_compute; reflexivity |]. split; [reflexivity |].
  vm_compute. intros [_ H]. by apply H.
Qed.

(** C2: when the link fails, [NewProgram] returns the link error and leaves
    the vertex and fragment shader objects it compiled unreleased: they are
    still there, and their DELETE_STATUS is FALSE. *)
Theorem NewProgram_link_failure_leaks_shaders :
  NewProgram "v.glsl" "" "" "" "u.glsl" demo_world
    = (Ret (0, Some (link_error {| pr_attached := [1; 2]; pr_status := false;
                                   pr_log := "undefined symbol" |})),
       failed_link_world) /\
  (exists s, objects failed_link_world !! 1 = Some (ObjShader s) /\
             sh_type s = gl.VERTEX_SHADER /\ sh_status s = true /\ sh_deleted s = false) /\
  (exists s, objects failed_link_world !! 2 = Some (ObjShader s) /\
             sh_type s = gl.FRAGMENT_SHADER /\ sh_status s = true /\ sh_deleted s = false) /\
  gl.GetShaderiv 1 gl.DELETE_STATUS 0 failed_link_world = (Ret gl.FALSE, failed_link_world) /\
  gl.GetShaderiv 2 gl.DELETE_STATUS 0 failed_link_world = (Ret gl.FALSE, failed_link_world).
Proof.
  split; [vm_compute; reflexivity |].
  split; [eexists; split; [vm_compute; reflexivity | done] |].
  split; [eexists; split; [vm_compute; reflexivity | done] |].
  split; vm_compute; reflexivity.
Qed.

(** The sibling path: whenever [NewProgram] gets to the link, the shaders it
    attached are flagged for deletion exactly when the link succeeded. *)
Lemma NewProgram_releases_iff_linked w v g tc te f p prog :
  logs_fit w ->
  let w' := (NewProgram v g tc te f w).2 in
  objects w' !! p = Some (ObjProgram prog) ->
  objects w !! p <> Some (ObjProgram prog) ->
  Forall (fun name => exists s, objects w' !! name = Some (ObjShader s) /\
                                sh_deleted s = pr_status prog) (pr_attached prog).
Proof.
  intros Hfit w' Hp Hnew. subst w'.
  destruct (NewProgram_outcome w v g tc te f Hfit) as (r & w' & E & [[_ Hnone] | Hl]);
    rewrite E in Hp |- *; simpl in Hp |- *.
  - by apply Hnone in Hp.
  - destruct Hl as (p0 & prog0 & _ & Hp0 & _ & Hst & _ & Hkept & _).
    destruct (decide (p = p0)) as [-> | Hne]; [| by apply Hkept in Hp].
    assert (prog = prog0) as -> by congruence.
    induction Hst as [|name ty names types (s & Hs & _ & _ & Hd) _ IH]; constructor; eauto.
Qed.

Lemma outcome_handle w w' types r :
  0 < next_name w ->
  early_outcome w w' r \/ linked_outcome w w' types r ->
  exists handle err,
    r = (handle, err) /\
    (handle = 0 <-> err <> None) /\
    (err = None -> fresh_linked_program w w' handle) /\
    (forall msg, err = Some msg ->
       read_or_compile_error msg \/
       exists prog, pr_status prog = false /\ msg = link_error prog).
Proof.
  intros Hpos [[(msg & -> & Hmsg) _] | (p & prog & -> & Hp & Hnext & _ & _ & _ & ->)].
  - exists 0, (Some msg). split; [done |]. split; [done |].
    split; [done |]. intros ? [= <-]. by left.
  - assert (0 <= len types) by (unfold len; lia).
    destruct (pr_status prog) eqn:Hst.
    + eexists _, _. split; [done |]. split; [split; [lia | done] |].
      split; [| done]. intros _. split; [lia |]. eauto.
    + eexists _, _. split; [done |]. split; [done |]. split; [done |].
      intros ? [= <-]. right. eauto.
Qed.

(** C3: [NewProgram] and [NewComputeProgram] return the handle 0 exactly
    when they return a non-nil error; the error is a file read failure, a
    shader compile failure or a link failure; with a nil error the handle
    names the program object the call made and linked. *)
Theorem program_handle_zero_iff_error w :
  logs_fit w -> 0 < next_name w ->
  (forall v g tc te f, exists handle err w',
      NewProgram v g tc te f w = (Ret (handle, err), w') /\
      (handle = 0 <-> err <> None) /\
      (err = None -> fresh_linked_program w w' handle) /\
      (forall msg, err = Some msg ->
         read_or_compile_error msg \/
         exists prog, pr_status prog = false /\ msg = link_error prog)) /\
  (forall c, exists handle err w',
      NewComputeProgram c w = (Ret (handle, err), w') /\
      (handle = 0 <-> err <> None) /\
      (err = None -> fresh_linked_program w w' handle) /\
      (forall msg, err = Some msg ->
         read_or_compile_error msg \/
         exists prog, pr_status prog = false /\ msg = link_error prog)).
Proof.
  intros Hfit Hpos. split.
  - intros v g tc te f.
    destruct (NewProgram_outcome w v g tc te f Hfit) as (r & w' & E & Hr).
    destruct (outcome_handle _ _ _ _ Hpos Hr) as (handle & err & -> & H).
    by exists handle, err, w'.
  - intros c.
    destruct (NewComputeProgram_outcome w c Hfit) as (r & w' & E & Hr).
    destruct (outcome_handle _ _ _ _ Hpos Hr) as (handle & err & -> & H).
    by exists handle, err, w'.
Qed.

Lemma program_handle_zero_iff_error_witness :
  (exists handle err w',
      NewProgram "v.glsl" "g.glsl" "" "" "f.glsl" demo_world = (Ret (handle, err), w') /\
      (handle = 0 <-> err <> None) /\
      (err = None -> fresh_linked_program demo_world w' handle) /\
      (forall msg, err = Some msg ->
         read_or_compile_error msg \/
         exists prog, pr_status prog = false /\ msg = link_error prog)) /\
  (exists handle err w',
      NewComputeProgram "missing.glsl" demo_world = (Ret (handle, err), w') /\
      (handle = 0 <-> err <> None) /\
      (err = None -> fresh_linked_program demo_world w' handle) /\
      (forall msg, err = Some msg ->
         read_or_compile_error msg \/
         exists prog, pr_status prog = false /\ msg = link_error prog)).
Proof.
  assert (0 < next_name demo_world) as Hpos by (simpl; lia).
  destruct (program_handle_zero_iff_error demo_world demo_logs_fit Hpos) as [H1 H2].
  split; [apply H1 | apply H2].
Defined.



Lemma demo_ctx_ok : ctx_ok demo_world.
Proof.
  split; [simpl; lia |]. split.
  - intros n _. apply lookup_empty.
  - intros target name H. change (bindings demo_world) with (∅ : gmap Z Z) in H.
    by rewrite lookup_empty in H.
Qed.

(** C5: a multisampled [CreateTexture] after a repeating image texture was
    loaded.  The new texture 2 is bound to TEXTURE_2D_MULTISAMPLE, but the
    four parameter calls name TEXTURE_2D: the new texture gets none of the
    fixed parameters, and the image texture 1, still bound to TEXTURE_2D,
    has its wrap mode overwritten. *)
Theorem CreateTexture_multisample_misses_new_texture :
  exists w',
    CreateTexture 64 32 gl.RGBA8 gl.RGBA gl.UNSIGNED_BYTE true 4 1 tiles_world
      = (Ret 2, w') /\
    bindings w' !! gl.TEXTURE_2D_MULTISAMPLE = Some 2 /\
    bindings w' !! gl.TEXTURE_2D = Some 1 /\
    param_of w' 2 gl.TEXTURE_WRAP_S = None /\
    param_of w' 2 gl.TEXTURE_WRAP_T = None /\
    param_of w' 2 gl.TEXTURE_MIN_FILTER = None /\
    param_of w' 2 gl.TEXTURE_MAG_FILTER = None /\
    param_of tiles_world 1 gl.TEXTURE_WRAP_S = Some gl.REPEAT /\
    param_of w' 1 gl.TEXTURE_WRAP_S = Some gl.CLAMP_TO_EDGE.
Proof.
  exists (CreateTexture 64 32 gl.RGBA8 gl.RGBA gl.UNSIGNED_BYTE true 4 1 tiles_world).2.
  vm_compute. repeat split; reflexivity.
Qed.

(** Without multisampling the fixed parameters do reach the new texture. *)
Lemma CreateTexture_2D_params w width height internalFormat format internalType
    samples mipmapLevels :
  ctx_ok w ->
  let '(r, w') := CreateTexture width height internalFormat format internalType false
                    samples mipmapLevels w in
  r = Ret (next_name w) /\
  bindings w' !! gl.TEXTURE_2D = Some (next_name w) /\
  param_of w' (next_name w) gl.TEXTURE_WRAP_S = Some gl.CLAMP_TO_EDGE /\
  param_of w' (next_name w) gl.TEXTURE_WRAP_T = Some gl.CLAMP_TO_EDGE /\
  param_of w' (next_name w) gl.TEXTURE_MIN_FILTER = Some gl.NEAREST /\
  param_of w' (next_name w) gl.TEXTURE_MAG_FILTER = Some gl.NEAREST.
Proof.
  intros Hok. rewrite (CreateTexture_2D _ _ _ _ _ _ _ _ Hok).
  unfold param_of, texture_at. world_simpl. rewrite !lookup_insert_eq. simpl.
  by repeat split.
Qed.

(** With multisampling they never do: the new texture has no parameter set. *)
Lemma CreateTexture_multisample_params w width height internalFormat format internalType
    samples mipmapLevels pname :
  ctx_ok w ->
  let '(r, w') := CreateTexture width height internalFormat format internalType true
                    samples mipmapLevels w in
  r = Ret (next_name w) /\
  bindings w' !! gl.TEXTURE_2D_MULTISAMPLE = Some (next_name w) /\
  param_of w' (next_name w) pname = None.
Proof.
  intros Hok.
  destruct (CreateTexture_multisample w width height internalFormat format internalType
              samples mipmapLevels Hok) as (w' & -> & _ & Hb & _ & _ & Hnew & _).
  split; [done |]. split; [by rewrite Hb, lookup_insert_eq |].
  unfold param_of. by rewrite Hnew.
Qed.

(** The textures a preset leaves behind have storage and no pixel type. *)
Lemma fbo_textures_no_pixel_type w w' colorTex depthTex multisampling samples
    clevels cintFormat dlevels dintFormat width height :
  fbo_textures w w' colorTex depthTex
    (tex_storage multisampling samples clevels cintFormat width height)
    (tex_storage multisampling samples dlevels dintFormat width height) ->
  forall k, next_name w <= k -> pixel_type_of w' k = None.
Proof.
  intros (Hc & Hd & Hnew & _) k Hk. unfold pixel_type_of.
  destruct (storage_of w' k) as [data|] eqn:Hdata; [| done].
  assert (exists t, texture_at w' k = Some t) as (t & Ht).
  { unfold storage_of in Hdata. destruct (texture_at w' k) as [t|]; [by exists t | done]. }
  destruct (Hnew k t Hk Ht) as [(Hp & ->) | (Hp & ->)].
  - rewrite (Hc Hp) in Hdata. injection Hdata as <-. by destruct multisampling.
  - rewrite (Hd Hp) in Hdata. injection Hdata as <-. by destruct multisampling.
Qed.

(** C6 (as stated): the color texture of the standard preset is not created
    with a type.  [CreateFbo] hands UNSIGNED_BYTE to [CreateTexture], which
    allots immutable storage and passes no type to the driver: the texture
    holds RGBA8 storage and no pixel type, and the run is the one of the
    preset that names FLOAT instead.  An image texture, uploaded with
    [gl.TexImage2D], does carry UNSIGNED_BYTE. *)
Theorem CreateFbo_color_texture_has_no_type :
  exists fbo w',
    CreateFbo (Some 100) None 64 32 false 4 false 3 demo_world = (Ret fbo, w') /\
    heap w' !! 100 = Some 1 /\
    storage_of w' 1 = Some (Storage2D 3 gl.RGBA8 64 32) /\
    pixel_type_of w' 1 <> Some gl.UNSIGNED_BYTE /\
    fbo_preset (Some 100) None
      (CreateTexture 64 32 gl.RGBA8 gl.RGBA gl.FLOAT false 4 3)
      (CreateTexture 64 32 gl.DEPTH_COMPONENT32 gl.DEPTH_COMPONENT gl.FLOAT false 4 1)
      gl.TEXTURE_2D demo_world = (Ret fbo, w') /\
    pixel_type_of tiles_world 1 = Some gl.UNSIGNED_BYTE.
Proof.
  exists 2, (CreateFbo (Some 100) None 64 32 false 4 false 3 demo_world).2.
  split; [vm_compute; reflexivity |].
  split; [vm_compute; reflexivity |].
  split; [vm_compute; reflexivity |].
  split; [vm_compute; discriminate |].
  split; vm_compute; reflexivity.
Qed.

(** C6 (amended): [CreateFbo] creates its color texture with internal
    format RGBA8, or RGBA32F when [isFloatingPoint], and its depth texture
    with DEPTH_COMPONENT32; [CreateLightFbo] creates its color texture with
    RG32F and the same depth texture.  The textures hold storage of these
    internal formats and no pixel type; a texture is created only for a
    non-nil pointer, which then receives its name. *)
Theorem fbo_presets_create_textures (w : World) (colorTex depthTex : option Z)
    (width height : Z) (multisampling : bool) (samples : Z) (isFloatingPoint : bool)
    (mipmapLevels : Z) :
  ctx_ok w ->
  (exists fbo w',
     CreateFbo colorTex depthTex width height multisampling samples isFloatingPoint
       mipmapLevels w = (Ret fbo, w') /\
     fbo_textures w w' colorTex depthTex
       (tex_storage multisampling samples mipmapLevels
          (if isFloatingPoint then gl.RGBA32F else gl.RGBA8) width height)
       (tex_storage multisampling samples 1 gl.DEPTH_COMPONENT32 width height) /\
     (forall k, next_name w <= k -> pixel_type_of w' k = None)) /\
  (exists fbo w',
     CreateLightFbo colorTex depthTex width height multisampling samples w = (Ret fbo, w') /\
     fbo_textures w w' colorTex depthTex
       (tex_storage multisampling samples 1 gl.RG32F width height)
       (tex_storage multisampling samples 1 gl.DEPTH_COMPONENT32 width height) /\
     (forall k, next_name w <= k -> pixel_type_of w' k = None)).
Proof.
  intros Hok.
  assert (CreateFbo colorTex depthTex width height multisampling samples isFloatingPoint
            mipmapLevels
          = fbo_preset colorTex depthTex
              (CreateTexture width height (if isFloatingPoint then gl.RGBA32F else gl.RGBA8)
                 gl.RGBA (if isFloatingPoint then gl.FLOAT else gl.UNSIGNED_BYTE)
                 multisampling samples mipmapLevels)
              (CreateTexture width height gl.DEPTH_COMPONENT32 gl.DEPTH_COMPONENT gl.FLOAT
                 multisampling samples 1)
              (if multisampling then gl.TEXTURE_2D_MULTISAMPLE else gl.TEXTURE_2D))
    as Hfbo by (by destruct isFloatingPoint).
  assert (CreateLightFbo colorTex depthTex width height multisampling samples
          = fbo_preset colorTex depthTex
              (CreateTexture width height gl.RG32F gl.RG gl.FLOAT multisampling samples 1)
              (CreateTexture width height gl.DEPTH_COMPONENT32 gl.DEPTH_COMPONENT gl.FLOAT
                 multisampling samples 1)
              (if multisampling then gl.TEXTURE_2D_MULTISAMPLE else gl.TEXTURE_2D))
    as Hlight by reflexivity.
  split.
  - rewrite Hfbo.
    edestruct fbo_preset_textures as (fbo & w' & Hrun & Htex); [exact Hok |].
    exists fbo, w'. split; [exact Hrun |]. split; [exact Htex |].
    by eapply fbo_textures_no_pixel_type.
  - rewrite Hlight.
    edestruct fbo_preset_textures as (fbo & w' & Hrun & Htex); [exact Hok |].
    exists fbo, w'. split; [exact Hrun |]. split; [exact Htex |].
    by eapply fbo_textures_no_pixel_type.
Qed.

Lemma fbo_presets_create_textures_witness :
  (exists fbo w',
     CreateFbo (Some 100) None 64 32 false 4 true 3 demo_world = (Ret fbo, w') /\
     fbo_textures demo_world w' (Some 100) None
       (tex_storage false 4 3 gl.RGBA32F 64 32)
       (tex_storage false 4 1 gl.DEPTH_COMPONENT32 64 32) /\
     (forall k, next_name demo_world <= k -> pixel_type_of w' k = None)) /\
  (exists fbo w',
     CreateLightFbo (Some 100) None 64 32 false 4 demo_world = (Ret fbo, w') /\
     fbo_textures demo_world w' (Some 100) None
       (tex_storage false 4 1 gl.RG32F 64 32)
       (tex_storage false 4 1 gl.DEPTH_COMPONENT32 64 32) /\
     (forall k, next_name demo_world <= k -> pixel_type_of w' k = None)).
Proof.
  apply (fbo_presets_create_textures demo_world (Some 100) None 64 32 false 4 true 3).
  exact demo_ctx_ok.
Defined.

(** C7 (amended): for inputs meeting the minimum sizes, both functions
    enable exactly one vertex attribute, index 0, as 2 floats with the
    stride of a [Vec2], reading the array buffer that holds the points, and
    record in [VertexCount] the number of points converted to [int32], which
    is that number below 2^31; [GenerateBufferFromLines2D] also uploads the
    indices into an element buffer and records in [IndexCount] their number
    converted to [int32]. *)
Theorem mesh_buffers_generated w b points indices :
  ctx_ok w ->
  (3 <= len points ->
   exists b' w' v,
     GenerateBufferFromTriangles2D b points w = (Ret b', w') /\
     objects w' !! VertexBuffer b' = Some (ObjVertexArray v) /\
     va_enabled v = {[0]} /\
     va_attribs v = {[0 := vec2_attribute (ArrayBuffer b')]} /\
     objects w' !! ArrayBuffer b'
       = Some (ObjBuffer {| bo_size := int (sizeof_Vec2 * len points);
                            bo_data := Points points; bo_usage := gl.STATIC_DRAW |}) /\
     VertexCount b' = int32 (len points) /\
     (len points < 2 ^ 31 -> VertexCount b' = len points)) /\
  (2 <= len points -> 2 <= len indices ->
   exists b' w' v,
     GenerateBufferFromLines2D b points indices w = (Ret b', w') /\
     objects w' !! VertexBuffer b' = Some (ObjVertexArray v) /\
     va_enabled v = {[0]} /\
     va_attribs v = {[0 := vec2_attribute (ArrayBuffer b')]} /\
     objects w' !! ArrayBuffer b'
       = Some (ObjBuffer {| bo_size := int (sizeof_Vec2 * len points);
                            bo_data := Points points; bo_usage := gl.STATIC_DRAW |}) /\
     objects w' !! IndexBuffer b'
       = Some (ObjBuffer {| bo_size := int (sizeof_uint32 * len indices);
                            bo_data := Indices indices; bo_usage := gl.STATIC_DRAW |}) /\
     VertexCount b' = int32 (len points) /\
     IndexCount b' = int32 (len indices) /\
     (len points < 2 ^ 31 -> VertexCount b' = len points) /\
     (len indices < 2 ^ 31 -> IndexCount b' = len indices)).
Proof.
  intros Hok.
  assert (forall l : list Vec2, 0 <= len l) as Hpos by (intros; unfold len; lia).
  assert (forall l : list Z, 0 <= len l) as Hpos' by (intros; unfold len; lia).
  split.
  - intros Hlen.
    destruct (GenerateBufferFromTriangles2D_eq w b points Hok Hlen)
      as (w' & E & Hbuf & Hvao & _).
    eexists _, w', _. split; [exact E |]. cbn [ArrayBuffer VertexBuffer VertexCount].
    split; [exact Hvao |]. cbn [va_enabled va_attribs].
    split; [apply union_empty_r_L |]. split; [done |]. split; [exact Hbuf |].
    split; [done |]. intros ?. apply int32_small. specialize (Hpos points). lia.
  - intros Hp Hi.
    destruct (GenerateBufferFromLines2D_eq w b points indices Hok Hp Hi)
      as (w' & E & Hbuf & Hvao & Hidx & _).
    eexists _, w', _. split; [exact E |].
    cbn [ArrayBuffer VertexBuffer VertexCount IndexBuffer IndexCount].
    split; [exact Hvao |]. cbn [va_enabled va_attribs].
    split; [apply union_empty_r_L |]. split; [done |]. split; [exact Hbuf |].
    split; [exact Hidx |]. split; [done |]. split; [done |].
    split; intros ?; apply int32_small.
    + specialize (Hpos points). lia.
    + specialize (Hpos' indices). lia.
Qed.

Lemma mesh_buffers_generated_witness :
  (exists b' w' v,
     GenerateBufferFromTriangles2D empty_mesh [origin; origin; origin] demo_world
       = (Ret b', w') /\
     objects w' !! VertexBuffer b' = Some (ObjVertexArray v) /\
     va_enabled v = {[0]} /\
     va_attribs v = {[0 := vec2_attribute (ArrayBuffer b')]} /\
     objects w' !! ArrayBuffer b'
       = Some (ObjBuffer {| bo_size := int (sizeof_Vec2 * len [origin; origin; origin]);
                            bo_data := Points [origin; origin; origin];
                            bo_usage := gl.STATIC_DRAW |}) /\
     VertexCount b' = int32 (len [origin; origin; origin]) /\
     (len [origin; origin; origin] < 2 ^ 31 ->
      VertexCount b' = len [origin; origin; origin])) /\
  (exists b' w' v,
     GenerateBufferFromLines2D empty_mesh [origin; origin; origin] [0; 1; 1; 2] demo_world
       = (Ret b', w') /\
     objects w' !! VertexBuffer b' = Some (ObjVertexArray v) /\
     va_enabled v = {[0]} /\
     va_attribs v = {[0 := vec2_attribute (ArrayBuffer b')]} /\
     objects w' !! ArrayBuffer b'
       = Some (ObjBuffer {| bo_size := int (sizeof_Vec2 * len [origin; origin; origin]);
                            bo_data := Points [origin; origin; origin];
                            bo_usage := gl.STATIC_DRAW |}) /\
     objects w' !! IndexBuffer b'
       = Some (ObjBuffer {| bo_size := int (sizeof_uint32 * len [0; 1; 1; 2]);
                            bo_data := Indices [0; 1; 1; 2]; bo_usage := gl.STATIC_DRAW |}) /\
     VertexCount b' = int32 (len [origin; origin; origin]) /\
     IndexCount b' = int32 (len [0; 1; 1; 2]) /\
     (len [origin; origin; origin] < 2 ^ 31 ->
      VertexCount b' = len [origin; origin; origin]) /\
     (len [0; 1; 1; 2] < 2 ^ 31 -> IndexCount b' = len [0; 1; 1; 2])).
Proof.
  destruct (mesh_buffers_generated demo_world empty_mesh [origin; origin; origin]
              [0; 1; 1; 2] demo_ctx_ok) as [H1 H2].
  split; [apply H1 | apply H2]; unfold len; simpl; lia.
Defined.

(** C7, as stated, fails: 2^31 points meet the minimum size, and
    [VertexCount], an [int32], then holds -2^31, not their number. *)
Lemma VertexCount_wraps_at_2_pow_31 :
  3 <= len many_points /\
  exists b' w',
    GenerateBufferFromTriangles2D empty_mesh many_points demo_world = (Ret b', w') /\
    VertexCount b' = -2147483648 /\
    VertexCount b' <> len many_points.
Proof.
  assert (len many_points = 2147483648) as Hlen.
  { unfold len, many_points. rewrite length_replicate. apply Z2Nat.id. discriminate. }
  assert (3 <= len many_points) as H3 by (rewrite Hlen; discriminate).
  split; [exact H3 |].
  destruct (GenerateBufferFromTriangles2D_eq demo_world empty_mesh many_points
              demo_ctx_ok H3) as (w' & E & _).
  eexists _, w'. split; [exact E |]. cbn [VertexCount]. rewrite Hlen.
  split; [reflexivity | discriminate].
Qed.

(** C8: below the minimum sizes both functions return at once: the driver
    state is untouched and the [MeshBuffer] is as it was passed. *)
Theorem mesh_buffers_guarded b points indices w :
  (len points < 3 -> GenerateBufferFromTriangles2D b points w = (Ret b, w)) /\
  (len points < 2 \/ len indices < 2 ->
   GenerateBufferFromLines2D b points indices w = (Ret b, w)).
Proof.
  split.
  - intros H. unfold GenerateBufferFromTriangles2D.
    destruct (Z.ltb_spec (len points) 3); [reflexivity | lia].
  - intros H. unfold GenerateBufferFromLines2D.
    destruct (Z.ltb_spec (len points) 2), (Z.ltb_spec (len indices) 2);
      first [reflexivity | lia].
Qed.

Lemma mesh_buffers_guarded_witness :
  GenerateBufferFromTriangles2D empty_mesh [origin; origin] demo_world
    = (Ret empty_mesh, demo_world) /\
  GenerateBufferFromLines2D empty_mesh [origin; origin; origin] [7] demo_world
    = (Ret empty_mesh, demo_world).
Proof.
  destruct (mesh_buffers_guarded empty_mesh [origin; origin] [7] demo_world) as [H1 _].
  destruct (mesh_buffers_guarded empty_mesh [origin; origin; origin] [7] demo_world)
    as [_ H2].
  split; [apply H1 | apply H2; right]; vm_compute; reflexivity.
Defined.

(** After a failed load [CreateImageTexture] prints one line and goes on
    exactly as after a successful load of the same result. *)
Lemma CreateImageTexture_failed_load_continues LoadImage imageName isRepeating w img e w1 :
  LoadImage imageName w = (Ret (img, Some e), w1) ->
  CreateImageTexture LoadImage imageName isRepeating w
    = CreateImageTexture (fun _ => mret (img, None)) imageName isRepeating
        (set_stdout (stdout w1 ++ [load_failed_message e]) w1).
Proof.
  intros Hload. unfold CreateImageTexture.
  unfold mbind at 1 3, M_bind at 1 3. rewrite Hload.
  unfold mbind at 1 3, M_bind at 1 3. reflexivity.
Qed.

(** Whatever the loader reports, a result without an image ends the call in
    a panic at [img.Img.Bounds()], after the message of a failed load. *)
Lemma CreateImageTexture_nil_image LoadImage imageName isRepeating w img err w1 :
  LoadImage imageName w = (Ret (img, err), w1) ->
  Img img = None ->
  CreateImageTexture LoadImage imageName isRepeating w
    = (Panic nil_dereference,
       if err is Some e then set_stdout (stdout w1 ++ [load_failed_message e]) w1 else w1).
Proof.
  intros Hload Himg. unfold CreateImageTexture.
  unfold mbind, M_bind, mret, M_ret. rewrite Hload.
  destruct err as [e|]; simpl; by rewrite Himg.
Qed.

(** C9: a load that fails without an image.  [CreateImageTexture] prints
    the message and then panics on [img.Img.Bounds()]: it returns no
    [ImageTexture] and creates no texture.  The same call on a file the
    loader decodes returns the texture it built. *)
Theorem CreateImageTexture_failed_load_panics :
  demo_LoadImage "missing.png" demo_world
    = (Ret ({| Img := None |}, Some (read_error "missing.png")), demo_world) /\
  CreateImageTexture demo_LoadImage "missing.png" false demo_world
    = (Panic nil_dereference,
       set_stdout [load_failed_message (read_error "missing.png")] demo_world) /\
  (exists w',
     CreateImageTexture demo_LoadImage "tiles.png" false demo_world
       = (Ret {| TextureHandle := 1; TextureSize := (Float32ofInt 4, Float32ofInt 2) |}, w') /\
     storage_of w' 1
       = Some (Image2D 0 gl.RGBA8 4 2 0 gl.RGBA gl.UNSIGNED_BYTE
                 (Some (Bounds demo_image, demo_image)))).
Proof.
  split; [reflexivity |].
  split.
  - by rewrite (CreateImageTexture_nil_image demo_LoadImage "missing.png" false demo_world
                  {| Img := None |} (Some (read_error "missing.png")) demo_world).
  - eexists. split; vm_compute; reflexivity.
Qed.

(** C10: [FreeGLBuffer] leaves [IndexCount] as it was; with a positive
    [VertexCount] it zeroes [ArrayBuffer], [VertexBuffer] and [VertexCount],
    with a positive [IndexCount] it zeroes [IndexBuffer] and [VertexCount];
    a second call leaves the fields as the first one left them. *)
Theorem FreeGLBuffer_fields b w :
  exists b1 w1 w2,
    FreeGLBuffer b w = (Ret b1, w1) /\
    IndexCount b1 = IndexCount b /\
    (0 < VertexCount b -> ArrayBuffer b1 = 0 /\ VertexBuffer b1 = 0 /\ VertexCount b1 = 0) /\
    (0 < IndexCount b -> IndexBuffer b1 = 0 /\ VertexCount b1 = 0) /\
    FreeGLBuffer b1 w1 = (Ret b1, w2).
Proof.
  destruct (FreeGLBuffer_freed b w) as (w1 & E1).
  destruct (FreeGLBuffer_freed (freed b) w1) as (w2 & E2).
  rewrite freed_twice in E2.
  exists (freed b), w1, w2.
  split; [exact E1 |]. split; [| split; [| split; [| exact E2]]].
  all: unfold freed; destruct b as [ab vb vc ib ic].
  all: cbn [VertexCount IndexCount].
  all: destruct (Z.ltb_spec 0 vc), (Z.ltb_spec 0 ic).
  all: cbn [VertexCount IndexCount ArrayBuffer VertexBuffer IndexBuffer].
  all: try (destruct (Z.ltb_spec 0 ic); [| lia]).
  all: try (destruct (Z.ltb_spec 0 ic); [lia |]).
  all: cbn [VertexCount IndexCount ArrayBuffer VertexBuffer IndexBuffer].
  all: first [ done | lia | intros; lia ].
Qed.

(** * Further properties

    What the functions do beyond the claims: what they leave in the driver,
    what they print, how they compose.

    ** Shaders and programs *)

(** What the driver is handed as source, and what the package reads back
    as a log. *)
Lemma installed_source_small source :
  strlen source < 2 ^ 31 -> installed_source source = source.
Proof.
  intros H. pose proof (strlen_nonneg source). unfold installed_source.
  rewrite int32_small by lia.
  destruct (Z.ltb_spec (strlen source) 0); [lia |].
  replace (Z.to_nat (strlen source)) with (String.length source) by (unfold strlen; lia).
  apply str_take_all.
Qed.

Lemma str_drop_repeat_NUL n m :
  str_drop n (str_repeat (String NUL "") (n + m)) = str_repeat (String NUL "") m.
Proof. induction n as [|n IH]; [done |]. exact IH. Qed.

Lemma log_buffer_eq log :
  strlen log + 2 < 2 ^ 31 -> log_buffer log = log +:+ log_padding log.
Proof.
  intros H. pose proof (strlen_nonneg log).
  unfold log_buffer, log_padding, gl.write_log, gl.log_length.
  destruct (String.eqb_spec log "") as [-> | Hne]; [reflexivity |].
  rewrite (int32_small (strlen log + 1)) by lia.
  rewrite (int32_small (strlen log + 1 + 1)) by lia.
  rewrite int_small by lia.
  destruct (Z.leb_spec (strlen log + 1) 0); [lia |].
  replace (Z.to_nat (strlen log + 1 - 1)) with (String.length log) by (unfold strlen; lia).
  rewrite str_take_all.
  replace (Z.to_nat (strlen log + 1 + 1)) with (S (String.length log) + 1)%nat
    by (unfold strlen; lia).
  by rewrite str_drop_repeat_NUL.
Qed.

Lemma sh_source_compiled w source shaderType :
  sh_source (compiled_shader w source shaderType) = installed_source source.
Proof. reflexivity. Qed.

Lemma sh_status_compiled w source shaderType :
  sh_status (compiled_shader w source shaderType)
  = (glsl_compile w shaderType (installed_source source)).1.
Proof. reflexivity. Qed.

Lemma mapM_cons_option {A B} (f : A -> option B) x l :
  mapM f (x :: l) =
    match f x with
    | Some y => match mapM f l with Some k => Some (y :: k) | None => None end
    | None => None
    end.
Proof. csimpl. destruct (f x); [| done]. csimpl. by destruct (mapM f l). Qed.

Lemma build_in_order_spec w stage_files stages :
  build_in_order w stage_files = Some stages <->
  file_stages w stage_files = Some stages /\ Forall (compiles w) stages.
Proof.
  unfold file_stages. revert stages.
  induction stage_files as [|[shaderType name] rest IH]; intros stages.
  - simpl. split; [intros [= <-]; by split | by intros [[= <-] _]].
  - rewrite mapM_cons_option. cbn [build_in_order].
    destruct (files w !! name) as [source|]; cbn [mbind option_bind];
      [| split; [done | by intros [? _]]].
    destruct (mapM _ rest) as [l|] eqn:Hm.
    + destruct (glsl_compile w shaderType (installed_source source)).1 eqn:Hc.
      * destruct (build_in_order w rest) as [l'|] eqn:Hb.
        -- destruct (proj1 (IH l') eq_refl) as [[= ->] Hall].
           split; [intros [= <-]; split; [done |]; constructor; [exact Hc | exact Hall]
                  | by intros [[= <-] _]].
        -- split; [done |]. intros [[= <-] Hall]. apply Forall_cons in Hall as [_ Hall].
           discriminate (proj2 (IH l) (conj eq_refl Hall)).
      * split; [done |]. intros [[= <-] Hall]. apply Forall_cons in Hall as [Hhd _].
        unfold compiles in Hhd. simpl in Hhd. congruence.
    + destruct (glsl_compile w shaderType (installed_source source)).1;
        [| by split; [| intros [? _]]].
      destruct (build_in_order w rest) as [l'|] eqn:Hb; [| by split; [| intros [? _]]].
      destruct (proj1 (IH l') eq_refl) as [? _]. discriminate.
Qed.

Lemma builds_in_order w stage_files :
  builds w stage_files <->
  exists stages, build_in_order w stage_files = Some stages /\ (glsl_link w stages).1 = true.
Proof.
  unfold builds. split.
  - intros (stages & Hf & Hall & Hl). exists stages. split; [| done].
    by apply build_in_order_spec.
  - intros (stages & Hb & Hl). exists stages.
    apply build_in_order_spec in Hb as [Hf Hall]. done.
Qed.

Lemma read_back_log log :
  strlen log + 2 < 2 ^ 31 ->
  gl.write_log log (gl.log_length log)
    (String NUL "" +:+ str_repeat (String NUL "") (Z.to_nat (gl.log_length log)))
  = log +:+ log_padding log.
Proof.
  intros H. rewrite <- (log_buffer_eq log H). unfold log_buffer.
  destruct (log_length_range log H) as [H0 H1].
  rewrite (int32_small (gl.log_length log + 1)) by lia.
  rewrite int_small by lia.
  replace (Z.to_nat (gl.log_length log + 1)) with (S (Z.to_nat (gl.log_length log))) by lia.
  reflexivity.
Qed.

(** Stepping through reads and compilations as [run_shaders] does, keeping
    for each shader the source it was compiled from and the verdict of the
    compiler. *)
Ltac run_sources Hfit :=
  repeat (simpl;
    match goal with
    | |- context [readFile ?n ?w'] =>
        rewrite (readFile_eq n w');
        let E := fresh "Efile" in
        destruct (files w' !! n) as [?src|] eqn:E; simpl in E; try rewrite E
    | |- context [compileShader ?s ?t ?w'] =>
        rewrite (compileShader_eq w' s t) by (done || exact Hfit); cbv zeta;
        let sh := fresh "sh" in
        let Hty := fresh "Hty" in
        let Hdel := fresh "Hdel" in
        let Hsrc := fresh "Hsrc" in
        let Hst := fresh "Hst" in
        pose proof (sh_type_compiled w' s t) as Hty;
        pose proof (sh_deleted_compiled w' s t) as Hdel;
        pose proof (sh_source_compiled w' s t) as Hsrc;
        pose proof (sh_status_compiled w' s t) as Hst;
        generalize dependent (compiled_shader w' s t); intros sh Hty Hdel Hsrc Hst;
        simpl in Hst;
        destruct (sh_status sh) eqn:?; try rewrite <- Hst; clear Hst
    end).

Ltac shader_facts :=
  repeat match goal with
  | H : sh_type _ = _ |- _ => rewrite H
  | H : sh_source _ = _ |- _ => rewrite H
  end.

(** Split on the verdict of the linker, where the execution gets to it. *)
Ltac run_link Hfit :=
  try (shader_facts;
       match goal with
       | |- context [glsl_link ?w0 ?st] =>
           let Hlog := fresh "Hlog" in
           let Hlink := fresh "Hlink" in
           pose proof (proj2 Hfit st) as Hlog;
           destruct (glsl_link w0 st) as [[] ?log] eqn:Hlink;
           gl_lookup; try read_log Hlog
       end).

Ltac link_verdict := match goal with L : glsl_link _ _ = _ |- _ => rewrite L end.
Ltac link_verdict_in H := match goal with L : glsl_link _ _ = _ |- _ => rewrite L in H end.

(** The conjuncts of an effects lemma, at a leaf of the execution. *)
Ltac effects_leaf :=
  let n := fresh "n" in
  let Hn := fresh "Hn" in
  let Herr := fresh "Herr" in
  let p := fresh "p" in
  let prog := fresh "prog" in
  let Hprog := fresh "Hprog" in
  let st := fresh "st" in
  let Hb := fresh "Hb" in
  let Hl := fresh "Hl" in
  unfold created, unreleased, gl.stages; simpl;
  split; [lia |];
  split; [intros n Hn; repeat (rewrite lookup_insert_ne by lia); reflexivity |];
  split; [intros n Hn; repeat (rewrite lookup_insert; case_decide; [by eexists |]); lia |];
  split; [intros Herr n Hn; try (by destruct Herr);
          repeat (rewrite lookup_insert; case_decide; [by simpl |]); lia |];
  split; [intros p prog Hn Hprog;
          repeat (rewrite lookup_insert in Hprog; case_decide; [simplify_eq |]);
          first [ lia
                | split; [simpl in *; lia |]; simpl; gl_lookup; shader_facts; simpl;
                  split; [reflexivity | by link_verdict] ] |];
  split; [intros st Hb;
          first [ discriminate Hb
                | injection Hb as <-; unfold link_result, len; link_verdict; simpl;
                  first [ f_equal; lia
                        | rewrite read_back_log by (simpl in *; lia); reflexivity ] ] |];
  split; [intros Hb; first [discriminate Hb | by simpl] |];
  repeat split;
  first [ done | by rewrite app_nil_r
        | intros Herr; first [by destruct Herr | by eexists] ].

(** What a call does to the context and what it returns, in one
    statement per function; the properties below are read off these. *)
Lemma NewComputeProgram_effects w c : logs_fit w ->
  exists r w', NewComputeProgram c w = (Ret r, w') /\
    next_name w <= next_name w' <= next_name w + 2 /\
    (forall n, ~ created w w' n -> objects w' !! n = objects w !! n) /\
    (forall n, created w w' n -> is_Some (objects w' !! n)) /\
    (r.2 <> None -> forall n, created w w' n -> unreleased w' n) /\
    (forall p prog, created w w' p -> objects w' !! p = Some (ObjProgram prog) ->
       strlen (pr_log prog) + 2 < 2 ^ 31 /\
       file_stages w [(gl.COMPUTE_SHADER, c)] = Some (gl.stages w' (pr_attached prog)) /\
       (pr_status prog, pr_log prog) = glsl_link w (gl.stages w' (pr_attached prog))) /\
    (forall stages, build_in_order w [(gl.COMPUTE_SHADER, c)] = Some stages ->
       r = link_result w stages) /\
    (build_in_order w [(gl.COMPUTE_SHADER, c)] = None -> r.2 <> None) /\
    bindings w' = bindings w /\ heap w' = heap w /\ files w' = files w /\
    stdout w' = stdout w.
Proof.
  intros Hfit.
  unfold NewComputeProgram, file_stages, build_in_order.
  gl_unfold.
  run_sources Hfit.
  all: gl_lookup.
  all: run_link Hfit.
  all: gl_lookup.
  all: eexists _, _; (split; [reflexivity |]).
  all: effects_leaf.
Qed.

Lemma NewProgram_effects w v g tc te f : logs_fit w ->
  exists r w', NewProgram v g tc te f w = (Ret r, w') /\
    next_name w <= next_name w' <= next_name w + 6 /\
    (forall n, ~ created w w' n -> objects w' !! n = objects w !! n) /\
    (forall n, created w w' n -> is_Some (objects w' !! n)) /\
    (r.2 <> None -> forall n, created w w' n -> unreleased w' n) /\
    (forall p prog, created w w' p -> objects w' !! p = Some (ObjProgram prog) ->
       strlen (pr_log prog) + 2 < 2 ^ 31 /\
       file_stages w (stage_files v g tc te f) = Some (gl.stages w' (pr_attached prog)) /\
       (pr_status prog, pr_log prog) = glsl_link w (gl.stages w' (pr_attached prog))) /\
    (forall stages, build_in_order w (stage_files v g tc te f) = Some stages ->
       r = link_result w stages) /\
    (build_in_order w (stage_files v g tc te f) = None -> r.2 <> None) /\
    bindings w' = bindings w /\ heap w' = heap w /\ files w' = files w /\
    stdout w' = (stdout w ++ vertex_report w v)%list /\
    (vertex_report w v <> [] ->
     exists msg, r = (0, Some msg) /\ vertex_report w v = ["error: " +:+ msg +:+ LF]).
Proof.
  intros Hfit.
  unfold NewProgram, file_stages, stage_files, vertex_report, build_in_order.
  destruct (negb (String.eqb tc "") && negb (String.eqb te "")) eqn:Htess;
  destruct (negb (String.eqb g "")) eqn:Hgeom.
  all: gl_unfold.
  all: run_sources Hfit.
  all: gl_lookup.
  all: run_link Hfit.
  all: gl_lookup.
  all: eexists _, _; (split; [reflexivity |]).
  all: effects_leaf.
Qed.

Lemma succeeds_iff_builds w stage_files (r : Z * error) :
  (forall stages, build_in_order w stage_files = Some stages -> r = link_result w stages) ->
  (build_in_order w stage_files = None -> r.2 <> None) ->
  r.2 = None <-> builds w stage_files.
Proof.
  intros Hres Hnone. rewrite builds_in_order.
  destruct (build_in_order w stage_files) as [stages|] eqn:Hb.
  - rewrite (Hres stages eq_refl). unfold link_result.
    destruct (glsl_link w stages) as [[] log] eqn:Hl; simpl.
    + split; [intros _; exists stages; by rewrite Hl | done].
    + split; [done |]. intros (st & [= <-] & H). rewrite Hl in H. discriminate.
  - split; [intros H; by destruct (Hnone eq_refl) | by intros (st & ? & _)].
Qed.

Lemma built_stages w stage_files stages :
  file_stages w stage_files = Some stages -> Forall (compiles w) stages ->
  build_in_order w stage_files = Some stages.
Proof. intros Hf Hall. by apply build_in_order_spec. Qed.

Lemma returned_program w w' types (handle : Z) :
  early_outcome w w' (handle, None) \/ linked_outcome w w' types (handle, None) ->
  created w w' handle /\
  exists prog, objects w' !! handle = Some (ObjProgram prog) /\ pr_status prog = true.
Proof.
  intros [[(msg & [=] & _) _] | (p & prog & -> & Hp & Hnext & _ & _ & _ & Hr)].
  assert (0 <= len types) by (unfold len; lia).
  destruct (pr_status prog) eqn:Hst; [| discriminate Hr].
  injection Hr as ->. split; [unfold created; lia |]. eauto.
Qed.

(** X1: [compileShader] hands the driver exactly the string it was given
    (for a source shorter than 2^31 bytes): the shader object it creates has
    the requested type and that string as its source, its compile status
    and info log are the compiler's verdict on it, and the error is nil
    exactly when the compiler accepts it. *)
Theorem compileShader_compiles_given_source w source shaderType :
  logs_fit w -> gl.is_shader_type shaderType = true -> strlen source < 2 ^ 31 ->
  exists handle err w' s,
    compileShader source shaderType w = (Ret (handle, err), w') /\
    objects w' !! next_name w = Some (ObjShader s) /\
    sh_type s = shaderType /\
    sh_source s = source /\
    (sh_status s, sh_log s) = glsl_compile w shaderType source /\
    (err = None <-> (glsl_compile w shaderType source).1 = true).
Proof.
  intros Hfit Hty Hlen. rewrite (compileShader_eq w source shaderType Hfit Hty). cbv zeta.
  unfold compiled_shader. rewrite (installed_source_small source Hlen).
  destruct (glsl_compile w shaderType source) as [ok log] eqn:Hc.
  destruct ok; cbn [fst snd sh_status]; eexists _, _, _, _; (split; [reflexivity |]);
    (split; [apply lookup_insert_eq |]); cbn [sh_type sh_source sh_status sh_log];
    (split; [done |]); (split; [done |]); (split; [done |]); split; congruence.
Qed.

Lemma compileShader_compiles_given_source_witness :
  exists handle err w' s,
    compileShader "void main(){}" gl.VERTEX_SHADER demo_world = (Ret (handle, err), w') /\
    objects w' !! next_name demo_world = Some (ObjShader s) /\
    sh_type s = gl.VERTEX_SHADER /\
    sh_source s = "void main(){}" /\
    (sh_status s, sh_log s) = glsl_compile demo_world gl.VERTEX_SHADER "void main(){}" /\
    (err = None <-> (glsl_compile demo_world gl.VERTEX_SHADER "void main(){}").1 = true).
Proof.
  apply (compileShader_compiles_given_source demo_world "void main(){}" gl.VERTEX_SHADER).
  - exact demo_logs_fit.
  - reflexivity.
  - vm_compute. reflexivity.
Defined.

(** X2: the message of a compile error, byte for byte: the prefix, the
    whole source text (not a file name), the info log, and the NUL bytes
    left in the buffer the log was read into. *)
Theorem compileShader_error_message w source shaderType :
  logs_fit w -> gl.is_shader_type shaderType = true ->
  exists handle err w' s,
    compileShader source shaderType w = (Ret (handle, err), w') /\
    objects w' !! next_name w = Some (ObjShader s) /\
    (sh_status s = false ->
     err = Some ("failed to compile " +:+ source +:+ ": "
                 +:+ sh_log s +:+ log_padding (sh_log s))).
Proof.
  intros Hfit Hty. rewrite (compileShader_eq w source shaderType Hfit Hty). cbv zeta.
  pose proof (proj1 Hfit shaderType (installed_source source)) as Hlog.
  change (glsl_compile w shaderType (installed_source source)).2
    with (sh_log (compiled_shader w source shaderType)) in Hlog.
  generalize dependent (compiled_shader w source shaderType). intros s Hlog.
  destruct (sh_status s) eqn:Hst; eexists _, _, _, s;
    (split; [reflexivity |]); (split; [apply lookup_insert_eq |]); [intros ?; congruence |].
  intros _. unfold compile_error. by rewrite log_buffer_eq.
Qed.

Lemma compileShader_error_message_witness :
  exists handle err w' s,
    compileShader "bad" gl.VERTEX_SHADER demo_world = (Ret (handle, err), w') /\
    objects w' !! next_name demo_world = Some (ObjShader s) /\
    (sh_status s = false ->
     err = Some ("failed to compile " +:+ "bad" +:+ ": "
                 +:+ sh_log s +:+ log_padding (sh_log s))).
Proof.
  apply (compileShader_error_message demo_world "bad" gl.VERTEX_SHADER).
  - exact demo_logs_fit.
  - reflexivity.
Defined.

(** X3: whatever the outcome, [compileShader] uses up one object name and
    leaves one shader object under it, unreleased: also when the compile
    failed and the caller got the handle 0.  Nothing else changes. *)
Theorem compileShader_leaves_shader w source shaderType :
  logs_fit w -> gl.is_shader_type shaderType = true ->
  exists handle err w',
    compileShader source shaderType w = (Ret (handle, err), w') /\
    next_name w' = next_name w + 1 /\
    unreleased w' (next_name w) /\
    (handle = next_name w \/ handle = 0 /\ err <> None) /\
    (forall n, n <> next_name w -> objects w' !! n = objects w !! n) /\
    bindings w' = bindings w /\ stdout w' = stdout w /\ heap w' = heap w.
Proof.
  intros Hfit Hty. rewrite (compileShader_eq w source shaderType Hfit Hty). cbv zeta.
  pose proof (sh_deleted_compiled w source shaderType) as Hdel.
  generalize dependent (compiled_shader w source shaderType). intros s Hdel.
  destruct (sh_status s); eexists _, _, _; (split; [reflexivity |]);
    (split; [done |]);
    (split; [unfold unreleased, with_shader; simpl; by rewrite lookup_insert_eq |]);
    (split; [first [by left | by right] |]);
    (split; [intros n Hn; unfold with_shader; simpl; by rewrite lookup_insert_ne |]);
    done.
Qed.

Lemma compileShader_leaves_shader_witness :
  exists handle err w',
    compileShader "bad" gl.GEOMETRY_SHADER demo_world = (Ret (handle, err), w') /\
    next_name w' = next_name demo_world + 1 /\
    unreleased w' (next_name demo_world) /\
    (handle = next_name demo_world \/ handle = 0 /\ err <> None) /\
    (forall n, n <> next_name demo_world -> objects w' !! n = objects demo_world !! n) /\
    bindings w' = bindings demo_world /\ stdout w' = stdout demo_world /\
    heap w' = heap demo_world.
Proof.
  apply (compileShader_leaves_shader demo_world "bad" gl.GEOMETRY_SHADER).
  - exact demo_logs_fit.
  - reflexivity.
Defined.

(** X4: on every error return of [NewProgram] and [NewComputeProgram]
    nothing the call created has been released: each name handed out during
    the call still names an object, and no shader among them is flagged for
    deletion.  The caller gets the handle 0 and cannot release them. *)
Theorem shader_programs_release_nothing_on_error w :
  logs_fit w ->
  (forall v g tc te f, exists handle err w',
      NewProgram v g tc te f w = (Ret (handle, err), w') /\
      (err <> None -> forall n, created w w' n -> unreleased w' n)) /\
  (forall c, exists handle err w',
      NewComputeProgram c w = (Ret (handle, err), w') /\
      (err <> None -> forall n, created w w' n -> unreleased w' n)).
Proof.
  intros Hfit. split.
  - intros v g tc te f.
    destruct (NewProgram_effects w v g tc te f Hfit) as ([handle err] & w' & E & _ & _ & _ & H & _).
    by exists handle, err, w'.
  - intros c.
    destruct (NewComputeProgram_effects w c Hfit) as ([handle err] & w' & E & _ & _ & _ & H & _).
    by exists handle, err, w'.
Qed.

Lemma shader_programs_release_nothing_on_error_witness :
  (exists handle err w',
      NewProgram "v.glsl" "g.glsl" "" "" "bad.glsl" demo_world = (Ret (handle, err), w') /\
      (err <> None -> forall n, created demo_world w' n -> unreleased w' n)) /\
  (exists handle err w',
      NewComputeProgram "u.glsl" demo_world = (Ret (handle, err), w') /\
      (err <> None -> forall n, created demo_world w' n -> unreleased w' n)).
Proof.
  destruct (shader_programs_release_nothing_on_error demo_world demo_logs_fit) as [H1 H2].
  split; [apply H1 | apply H2].
Defined.

(** X5: [NewProgram] and [NewComputeProgram] only add objects.  The names
    they use are the next 6 (2) at most; every object that was there before
    is as it was; no name handed out during the call is free again at the
    end, also after a successful link (the shaders stay attached, so
    [gl.DeleteShader] only flags them); bindings and the caller's variables
    are untouched. *)
Theorem shader_programs_only_add_objects w :
  logs_fit w ->
  (forall v g tc te f, exists r w',
      NewProgram v g tc te f w = (Ret r, w') /\
      next_name w <= next_name w' <= next_name w + 6 /\
      (forall n, ~ created w w' n -> objects w' !! n = objects w !! n) /\
      (forall n, created w w' n -> is_Some (objects w' !! n)) /\
      bindings w' = bindings w /\ heap w' = heap w) /\
  (forall c, exists r w',
      NewComputeProgram c w = (Ret r, w') /\
      next_name w <= next_name w' <= next_name w + 2 /\
      (forall n, ~ created w w' n -> objects w' !! n = objects w !! n) /\
      (forall n, created w w' n -> is_Some (objects w' !! n)) /\
      bindings w' = bindings w /\ heap w' = heap w).
Proof.
  intros Hfit. split.
  - intros v g tc te f.
    destruct (NewProgram_effects w v g tc te f Hfit)
      as (r & w' & E & Hn & Hframe & Hkeep & _ & _ & _ & _ & Hb & Hh & _).
    by exists r, w'.
  - intros c.
    destruct (NewComputeProgram_effects w c Hfit)
      as (r & w' & E & Hn & Hframe & Hkeep & _ & _ & _ & _ & Hb & Hh & _).
    by exists r, w'.
Qed.

Lemma shader_programs_only_add_objects_witness :
  (exists r w',
      NewProgram "v.glsl" "" "tc.glsl" "te.glsl" "f.glsl" demo_world = (Ret r, w') /\
      next_name demo_world <= next_name w' <= next_name demo_world + 6 /\
      (forall n, ~ created demo_world w' n -> objects w' !! n = objects demo_world !! n) /\
      (forall n, created demo_world w' n -> is_Some (objects w' !! n)) /\
      bindings w' = bindings demo_world /\ heap w' = heap demo_world) /\
  (exists r w',
      NewComputeProgram "c.glsl" demo_world = (Ret r, w') /\
      next_name demo_world <= next_name w' <= next_name demo_world + 2 /\
      (forall n, ~ created demo_world w' n -> objects w' !! n = objects demo_world !! n) /\
      (forall n, created demo_world w' n -> is_Some (objects w' !! n)) /\
      bindings w' = bindings demo_world /\ heap w' = heap demo_world).
Proof.
  destruct (shader_programs_only_add_objects demo_world demo_logs_fit) as [H1 H2].
  split; [apply H1 | apply H2].
Defined.

(** X6: [NewProgram] writes to standard output in one case only: when the
    vertex shader fails to compile, it prints the line [error: ] followed by
    the error it returns.  Every other failure, and success, print
    nothing. *)
Theorem NewProgram_prints_vertex_compile_error w v g tc te f :
  logs_fit w ->
  exists r w',
    NewProgram v g tc te f w = (Ret r, w') /\
    stdout w' = (stdout w ++ vertex_report w v)%list /\
    (vertex_report w v = [] \/
     exists msg, r = (0, Some msg) /\ vertex_report w v = ["error: " +:+ msg +:+ LF]).
Proof.
  intros Hfit.
  destruct (NewProgram_effects w v g tc te f Hfit)
    as (r & w' & E & _ & _ & _ & _ & _ & _ & _ & _ & _ & _ & Hout & Hmsg).
  exists r, w'. split; [exact E |]. split; [exact Hout |].
  destruct (vertex_report w v) as [|line rest] eqn:Hrep; [by left |].
  right. by apply Hmsg.
Qed.

Lemma NewProgram_prints_vertex_compile_error_witness :
  exists r w',
    NewProgram "bad.glsl" "" "" "" "f.glsl" demo_world = (Ret r, w') /\
    stdout w' = (stdout demo_world ++ vertex_report demo_world "bad.glsl")%list /\
    (vertex_report demo_world "bad.glsl" = [] \/
     exists msg, r = (0, Some msg) /\
                 vertex_report demo_world "bad.glsl" = ["error: " +:+ msg +:+ LF]).
Proof.
  apply (NewProgram_prints_vertex_compile_error demo_world "bad.glsl" "" "" "" "f.glsl").
  exact demo_logs_fit.
Defined.

(** X7: [NewProgram] and [NewComputeProgram] return a nil error exactly
    when every shader file they read exists, the driver compiles each of
    them as the stage it is meant for, and the driver links these stages. *)
Theorem shader_programs_succeed_iff_build w :
  logs_fit w ->
  (forall v g tc te f, exists handle err w',
      NewProgram v g tc te f w = (Ret (handle, err), w') /\
      (err = None <-> builds w (stage_files v g tc te f))) /\
  (forall c, exists handle err w',
      NewComputeProgram c w = (Ret (handle, err), w') /\
      (err = None <-> builds w [(gl.COMPUTE_SHADER, c)])).
Proof.
  intros Hfit. split.
  - intros v g tc te f.
    destruct (NewProgram_effects w v g tc te f Hfit)
      as ([handle err] & w' & E & _ & _ & _ & _ & _ & Hres & Hnone & _).
    exists handle, err, w'. split; [exact E |].
    exact (succeeds_iff_builds w _ (handle, err) Hres Hnone).
  - intros c.
    destruct (NewComputeProgram_effects w c Hfit)
      as ([handle err] & w' & E & _ & _ & _ & _ & _ & Hres & Hnone & _).
    exists handle, err, w'. split; [exact E |].
    exact (succeeds_iff_builds w _ (handle, err) Hres Hnone).
Qed.

Lemma shader_programs_succeed_iff_build_witness :
  (exists handle err w',
      NewProgram "v.glsl" "g.glsl" "" "" "f.glsl" demo_world = (Ret (handle, err), w') /\
      (err = None <-> builds demo_world (stage_files "v.glsl" "g.glsl" "" "" "f.glsl"))) /\
  (exists handle err w',
      NewComputeProgram "bad.glsl" demo_world = (Ret (handle, err), w') /\
      (err = None <-> builds demo_world [(gl.COMPUTE_SHADER, "bad.glsl")])).
Proof.
  destruct (shader_programs_succeed_iff_build demo_world demo_logs_fit) as [H1 H2].
  split; [apply H1 | apply H2].
Defined.

(** X8: when every shader file exists and compiles, what [NewProgram] and
    [NewComputeProgram] return is the verdict of the linker on these stages:
    the name of the program, which is the name after those of the shaders,
    with a nil error; or 0 with the error [failed to link program: ]
    followed by the linker's log and the NUL bytes left in the buffer. *)
Theorem shader_programs_return_link_verdict w :
  logs_fit w ->
  (forall v g tc te f, exists r w',
      NewProgram v g tc te f w = (Ret r, w') /\
      forall stages, file_stages w (stage_files v g tc te f) = Some stages ->
                     Forall (compiles w) stages -> r = link_result w stages) /\
  (forall c, exists r w',
      NewComputeProgram c w = (Ret r, w') /\
      forall stages, file_stages w [(gl.COMPUTE_SHADER, c)] = Some stages ->
                     Forall (compiles w) stages -> r = link_result w stages).
Proof.
  intros Hfit. split.
  - intros v g tc te f.
    destruct (NewProgram_effects w v g tc te f Hfit)
      as (r & w' & E & _ & _ & _ & _ & _ & Hres & _).
    exists r, w'. split; [exact E |]. intros stages Hf Hall.
    apply Hres. by apply built_stages.
  - intros c.
    destruct (NewComputeProgram_effects w c Hfit)
      as (r & w' & E & _ & _ & _ & _ & _ & Hres & _).
    exists r, w'. split; [exact E |]. intros stages Hf Hall.
    apply Hres. by apply built_stages.
Qed.

Lemma shader_programs_return_link_verdict_witness :
  (exists r w',
      NewProgram "v.glsl" "" "" "" "u.glsl" demo_world = (Ret r, w') /\
      forall stages, file_stages demo_world (stage_files "v.glsl" "" "" "" "u.glsl")
                     = Some stages ->
                     Forall (compiles demo_world) stages ->
                     r = link_result demo_world stages) /\
  (exists r w',
      NewComputeProgram "c.glsl" demo_world = (Ret r, w') /\
      forall stages, file_stages demo_world [(gl.COMPUTE_SHADER, "c.glsl")] = Some stages ->
                     Forall (compiles demo_world) stages ->
                     r = link_result demo_world stages).
Proof.
  destruct (shader_programs_return_link_verdict demo_world demo_logs_fit) as [H1 H2].
  split; [apply H1 | apply H2].
Defined.

(** X9: the program a successful call returns is the one the driver linked
    from the files: its stages carry, in the order of attachment, the type
    each file is compiled as and the source installed from its content, and
    the linker accepted exactly these stages. *)
Theorem shader_programs_link_file_contents w :
  logs_fit w ->
  (forall v g tc te f, exists handle err w',
      NewProgram v g tc te f w = (Ret (handle, err), w') /\
      (err = None ->
       exists prog,
         objects w' !! handle = Some (ObjProgram prog) /\
         file_stages w (stage_files v g tc te f) = Some (gl.stages w' (pr_attached prog)) /\
         glsl_link w (gl.stages w' (pr_attached prog)) = (true, pr_log prog))) /\
  (forall c, exists handle err w',
      NewComputeProgram c w = (Ret (handle, err), w') /\
      (err = None ->
       exists prog,
         objects w' !! handle = Some (ObjProgram prog) /\
         file_stages w [(gl.COMPUTE_SHADER, c)] = Some (gl.stages w' (pr_attached prog)) /\
         glsl_link w (gl.stages w' (pr_attached prog)) = (true, pr_log prog))).
Proof.
  intros Hfit. split.
  - intros v g tc te f.
    destruct (NewProgram_effects w v g tc te f Hfit)
      as ([handle err] & w' & E & _ & _ & _ & _ & Hprog & _).
    destruct (NewProgram_outcome w v g tc te f Hfit) as (r & w0 & E0 & Hr).
    rewrite E in E0. injection E0 as <- <-.
    exists handle, err, w'. split; [exact E |]. intros ->.
    destruct (returned_program _ _ _ _ Hr) as (Hc & prog & Hp & Hst).
    destruct (Hprog handle prog Hc Hp) as (_ & Hf & Hl).
    exists prog. split; [exact Hp |]. split; [exact Hf |]. by rewrite <- Hl, Hst.
  - intros c.
    destruct (NewComputeProgram_effects w c Hfit)
      as ([handle err] & w' & E & _ & _ & _ & _ & Hprog & _).
    destruct (NewComputeProgram_outcome w c Hfit) as (r & w0 & E0 & Hr).
    rewrite E in E0. injection E0 as <- <-.
    exists handle, err, w'. split; [exact E |]. intros ->.
    destruct (returned_program _ _ _ _ Hr) as (Hc & prog & Hp & Hst).
    destruct (Hprog handle prog Hc Hp) as (_ & Hf & Hl).
    exists prog. split; [exact Hp |]. split; [exact Hf |]. by rewrite <- Hl, Hst.
Qed.

Lemma shader_programs_link_file_contents_witness :
  (exists handle err w',
      NewProgram "v.glsl" "g.glsl" "tc.glsl" "te.glsl" "f.glsl" demo_world
        = (Ret (handle, err), w') /\
      (err = None ->
       exists prog,
         objects w' !! handle = Some (ObjProgram prog) /\
         file_stages demo_world (stage_files "v.glsl" "g.glsl" "tc.glsl" "te.glsl" "f.glsl")
           = Some (gl.stages w' (pr_attached prog)) /\
         glsl_link demo_world (gl.stages w' (pr_attached prog)) = (true, pr_log prog))) /\
  (exists handle err w',
      NewComputeProgram "c.glsl" demo_world = (Ret (handle, err), w') /\
      (err = None ->
       exists prog,
         objects w' !! handle = Some (ObjProgram prog) /\
         file_stages demo_world [(gl.COMPUTE_SHADER, "c.glsl")]
           = Some (gl.stages w' (pr_attached prog)) /\
         glsl_link demo_world (gl.stages w' (pr_attached prog)) = (true, pr_log prog))).
Proof.
  destruct (shader_programs_link_file_contents demo_world demo_logs_fit) as [H1 H2].
  split; [apply H1 | apply H2].
Defined.

(** X10: a program object made by [NewComputeProgram] has one shader
    attached, a compiled compute shader, and that shader is flagged for
    deletion exactly when the link succeeded: the early return on a failed
    link skips [gl.DeleteShader] here as well. *)
Theorem NewComputeProgram_attached_stage w c :
  logs_fit w ->
  exists r w',
    NewComputeProgram c w = (Ret r, w') /\
    forall p prog,
      objects w' !! p = Some (ObjProgram prog) ->
      objects w !! p <> Some (ObjProgram prog) ->
      exists name s,
        pr_attached prog = [name] /\
        objects w' !! name = Some (ObjShader s) /\
        sh_type s = gl.COMPUTE_SHADER /\ sh_status s = true /\
        sh_deleted s = pr_status prog.
Proof.
  intros Hfit.
  destruct (NewComputeProgram_outcome w c Hfit) as (r & w' & E & Hr).
  exists r, w'. split; [exact E |]. intros p prog Hp Hnew.
  destruct Hr as [[_ Hnone] | (p0 & prog0 & _ & Hp0 & _ & Hst & _ & Hkept & _)].
  - by apply Hnone in Hp.
  - destruct (decide (p = p0)) as [-> | Hne]; [| by apply Hkept in Hp].
    assert (prog = prog0) as -> by congruence.
    inversion Hst as [|name ty names types (s & Hs & Hty & Hok & Hdel) Hrest Hnames Htypes].
    inversion Hrest. subst. by exists name, s.
Qed.

Lemma NewComputeProgram_attached_stage_witness :
  exists r w',
    NewComputeProgram "u.glsl" demo_world = (Ret r, w') /\
    forall p prog,
      objects w' !! p = Some (ObjProgram prog) ->
      objects demo_world !! p <> Some (ObjProgram prog) ->
      exists name s,
        pr_attached prog = [name] /\
        objects w' !! name = Some (ObjShader s) /\
        sh_type s = gl.COMPUTE_SHADER /\ sh_status s = true /\
        sh_deleted s = pr_status prog.
Proof.
  apply (NewComputeProgram_attached_stage demo_world "u.glsl").
  exact demo_logs_fit.
Defined.

(** X11: when the first file to read (the vertex shader, the compute
    shader) does not exist, the call returns 0 with the error of the read
    and has made no driver call: the context is untouched, whatever the
    other arguments are. *)
Theorem missing_first_file_changes_nothing w :
  (forall v g tc te f, files w !! v = None ->
     NewProgram v g tc te f w = (Ret (0, Some (read_error v)), w)) /\
  (forall c, files w !! c = None ->
     NewComputeProgram c w = (Ret (0, Some (read_error c)), w)).
Proof.
  split.
  - intros v g tc te f Hv. unfold NewProgram.
    unfold mbind at 1, M_bind at 1. rewrite readFile_eq, Hv. reflexivity.
  - intros c Hc. unfold NewComputeProgram.
    unfold mbind at 1, M_bind at 1. rewrite readFile_eq, Hc. reflexivity.
Qed.

Lemma missing_first_file_changes_nothing_witness :
  NewProgram "missing.glsl" "g.glsl" "" "" "f.glsl" demo_world
    = (Ret (0, Some (read_error "missing.glsl")), demo_world) /\
  NewComputeProgram "missing.glsl" demo_world
    = (Ret (0, Some (read_error "missing.glsl")), demo_world).
Proof.
  destruct (missing_first_file_changes_nothing demo_world) as [H1 H2].
  split; [apply H1 | apply H2]; reflexivity.
Defined.

(** ** Textures *)

Ltac world_simpl_in H :=
  cbn [objects next_name bindings glsl_compile glsl_link files stdout heap
       set_next_name set_objects set_bindings set_stdout set_heap] in H.

(** A context that only grew is still well-formed. *)
Lemma ctx_ok_grows w w' :
  ctx_ok w -> next_name w <= next_name w' ->
  (forall n, ~ created w w' n -> objects w' !! n = objects w !! n) ->
  (forall target name, bindings w' !! target = Some name -> name < next_name w') ->
  ctx_ok w'.
Proof.
  intros (Hpos & Hfresh & Hbound) Hn Hframe Hb.
  split; [lia |]. split; [| exact Hb].
  intros n Hge. rewrite Hframe by (unfold created; lia). apply Hfresh. lia.
Qed.

Lemma ctx_ok_with_framebuffer w f :
  ctx_ok w ->
  ctx_ok (set_bindings (<[gl.FRAMEBUFFER := 0]> (bindings w))
            (set_objects (<[next_name w := ObjFramebuffer f]> (objects w))
               (set_next_name (next_name w + 1) w))).
Proof.
  intros Hok. apply (ctx_ok_grows w); [done | simpl; lia | |].
  - intros n Hn. unfold created in Hn. world_simpl. world_simpl_in Hn.
    rewrite lookup_insert_ne by lia. done.
  - intros target name. world_simpl. rewrite lookup_insert. case_decide.
    + intros [= <-]. destruct Hok. lia.
    + intros H'. destruct Hok as (_ & _ & Hb). apply Hb in H'. lia.
Qed.

(** [CreateImageTexture] once [LoadImage] has handed back an image. *)
Lemma CreateImageTexture_run LoadImage imageName isRepeating w image err w1 :
  LoadImage imageName w = (Ret ({| Img := Some image |}, err), w1) ->
  ctx_ok w1 ->
  exists w',
    CreateImageTexture LoadImage imageName isRepeating w
      = (Ret {| TextureHandle := next_name w1;
                TextureSize := (Float32ofInt (X (Max (Bounds image))),
                                Float32ofInt (Y (Max (Bounds image)))) |}, w') /\
    next_name w' = next_name w1 + 1 /\
    objects w' =
      <[next_name w1 := ObjTexture
          {| tx_target := gl.TEXTURE_2D;
             tx_params :=
               <[gl.TEXTURE_MAG_FILTER := gl.NEAREST]>
                 (<[gl.TEXTURE_MIN_FILTER := gl.NEAREST]>
                    (<[gl.TEXTURE_WRAP_T := wrap_mode isRepeating]>
                       (<[gl.TEXTURE_WRAP_S := wrap_mode isRepeating]> ∅)));
             tx_data :=
               Some (Image2D 0 gl.RGBA8 (int32 (X (Max (Bounds image))))
                       (int32 (Y (Max (Bounds image)))) 0 gl.RGBA gl.UNSIGNED_BYTE
                       (Some (Bounds image, image))) |}]> (objects w1) /\
    bindings w' = <[gl.TEXTURE_2D := next_name w1]> (bindings w1) /\
    stdout w' = (stdout w1 ++ (if err is Some e then [load_failed_message e] else []))%list.
Proof.
  intros Hload (Hpos & Hfresh & Hbound).
  unfold CreateImageTexture.
  unfold mbind at 1, M_bind at 1. rewrite Hload.
  cbn [Img]. gl_unfold.
  destruct err as [e|]; repeat gl_step.
  all: eexists; (split; [reflexivity |]); world_simpl.
  all: (split; [done |]); (split; [by destruct isRepeating |]); (split; [done |]).
  - done.
  - by rewrite app_nil_r.
Qed.

(** X12: [CreateTexture] returns a fresh name, under which the driver now
    holds a texture of the chosen target with immutable storage, and leaves
    that texture bound to the target; no other binding changes.  The only
    other object that can change is, with multisampling, the texture bound
    to TEXTURE_2D.  The [format] and [internalType] arguments play no part:
    the call is the same call for any other values of them. *)
Theorem CreateTexture_binds_new_texture w width height internalFormat format internalType
    multisampling samples mipmapLevels :
  ctx_ok w ->
  (exists w' t,
     CreateTexture width height internalFormat format internalType multisampling samples
       mipmapLevels w = (Ret (next_name w), w') /\
     objects w !! next_name w = None /\
     texture_at w' (next_name w) = Some t /\
     tx_target t = texture_target multisampling /\
     gl.is_immutable t = true /\
     bindings w' = <[texture_target multisampling := next_name w]> (bindings w) /\
     next_name w' = next_name w + 1 /\
     (forall k, k <> next_name w ->
        (multisampling = true -> k <> default 0 (bindings w !! gl.TEXTURE_2D)) ->
        objects w' !! k = objects w !! k)) /\
  (forall format' internalType',
     CreateTexture width height internalFormat format' internalType' multisampling samples
       mipmapLevels
     = CreateTexture width height internalFormat format internalType multisampling samples
         mipmapLevels).
Proof.
  intros Hok. split; [| reflexivity]. destruct multisampling.
  - destruct (CreateTexture_multisample w width height internalFormat format internalType
                samples mipmapLevels Hok)
      as (w' & E & Hn & Hb & _ & _ & Hnew & Hother & _).
    destruct Hok as (_ & Hfresh & _).
    eexists w', _. split; [exact E |]. split; [apply Hfresh; lia |].
    split; [exact Hnew |]. split; [done |]. split; [done |]. split; [exact Hb |].
    split; [exact Hn |]. intros k Hk Hb2. apply Hother; [done | by apply Hb2].
  - rewrite (CreateTexture_2D w width height internalFormat format internalType
               samples mipmapLevels Hok).
    destruct Hok as (_ & Hfresh & _).
    eexists _, _. split; [reflexivity |]. split; [apply Hfresh; lia |].
    unfold texture_at. world_simpl. rewrite lookup_insert_eq.
    split; [reflexivity |]. split; [done |]. split; [done |]. split; [done |].
    split; [done |]. intros k Hk _. by rewrite lookup_insert_ne.
Qed.

Lemma CreateTexture_binds_new_texture_witness :
  (exists w' t,
     CreateTexture 64 32 gl.RGBA8 gl.RGBA gl.UNSIGNED_BYTE true 4 1 demo_world
       = (Ret (next_name demo_world), w') /\
     objects demo_world !! next_name demo_world = None /\
     texture_at w' (next_name demo_world) = Some t /\
     tx_target t = texture_target true /\
     gl.is_immutable t = true /\
     bindings w' = <[texture_target true := next_name demo_world]> (bindings demo_world) /\
     next_name w' = next_name demo_world + 1 /\
     (forall k, k <> next_name demo_world ->
        (true = true -> k <> default 0 (bindings demo_world !! gl.TEXTURE_2D)) ->
        objects w' !! k = objects demo_world !! k)) /\
  (forall format' internalType',
     CreateTexture 64 32 gl.RGBA8 format' internalType' true 4 1
     = CreateTexture 64 32 gl.RGBA8 gl.RGBA gl.UNSIGNED_BYTE true 4 1).
Proof.
  apply (CreateTexture_binds_new_texture demo_world 64 32 gl.RGBA8 gl.RGBA gl.UNSIGNED_BYTE
           true 4 1).
  exact demo_ctx_ok.
Defined.



(** ** Framebuffers *)

(** The framebuffer [CreateFboWithExistingTextures] makes, in closed form. *)
Lemma CreateFboWithExistingTextures_closed w colorTex depthTex texType :
  ctx_ok w ->
  CreateFboWithExistingTextures colorTex depthTex texType w =
    (Ret (next_name w),
     set_bindings (<[gl.FRAMEBUFFER := 0]> (bindings w))
       (set_objects
          (<[next_name w := ObjFramebuffer
               {| fb_attachments :=
                    attach_texture w gl.DEPTH_ATTACHMENT texType depthTex
                      (attach_texture w gl.COLOR_ATTACHMENT0 texType colorTex ∅) |}]>
             (objects w))
          (set_next_name (next_name w + 1) w))).
Proof.
  intros (Hpos & Hfresh & Hbound).
  unfold CreateFboWithExistingTextures, attach_texture, texture_at. gl_unfold.
  destruct colorTex as [pc|], depthTex as [pd|].
  all: repeat gl_case.
  all: reflexivity.
Qed.

Lemma attach_texture_other w attachment texType tex attachments a :
  a <> attachment ->
  attach_texture w attachment texType tex attachments !! a = attachments !! a.
Proof.
  intros Hne. unfold attach_texture. destruct tex as [p|]; [| done].
  cbv zeta. destruct (heap w !!! p =? 0).
  - by rewrite lookup_delete_ne.
  - destruct (texture_at w (heap w !!! p)) as [t|]; [| done].
    destruct (tx_target t =? texType); [| done]. by rewrite lookup_insert_ne.
Qed.

Lemma attach_texture_valid w attachment texType p attachments t :
  heap w !!! p <> 0 ->
  texture_at w (heap w !!! p) = Some t -> tx_target t = texType ->
  attach_texture w attachment texType (Some p) attachments !! attachment
    = Some (texType, heap w !!! p, 0).
Proof.
  intros H0 Ht Htg. unfold attach_texture. cbv zeta.
  destruct (Z.eqb_spec (heap w !!! p) 0) as [|_]; [done |].
  rewrite Ht. destruct (Z.eqb_spec (tx_target t) texType) as [_|]; [| done].
  apply lookup_insert_eq.
Qed.

Lemma attach_texture_named w attachment texType p attachments name t :
  heap w !!! p = name -> name <> 0 ->
  texture_at w name = Some t -> tx_target t = texType ->
  attach_texture w attachment texType (Some p) attachments !! attachment
    = Some (texType, name, 0).
Proof. intros <-. apply attach_texture_valid. Qed.

Lemma attach_texture_invalid w attachment texType p attachments :
  (forall t, texture_at w (heap w !!! p) = Some t -> tx_target t <> texType) ->
  attachments !! attachment = None ->
  attach_texture w attachment texType (Some p) attachments !! attachment = None.
Proof.
  intros Hbad Hnone. unfold attach_texture. cbv zeta.
  destruct (heap w !!! p =? 0); [by rewrite lookup_delete_eq |].
  destruct (texture_at w (heap w !!! p)) as [t|] eqn:Ht; [| done].
  destruct (Z.eqb_spec (tx_target t) texType) as [E|]; [| done].
  by destruct (Hbad t eq_refl).
Qed.

(** [CreateTexture] as the presets need it: the target of the new texture,
    and the targets of the textures that were there. *)
Lemma CreateTexture_target w width height internalFormat format internalType multisampling
    samples mipmapLevels :
  ctx_ok w ->
  exists w',
    CreateTexture width height internalFormat format internalType multisampling samples
      mipmapLevels w = (Ret (next_name w), w') /\
    ctx_ok w' /\
    next_name w' = next_name w + 1 /\
    heap w' = heap w /\
    (exists t, texture_at w' (next_name w) = Some t /\
               tx_target t = texture_target multisampling) /\
    (forall k t, texture_at w k = Some t ->
       exists t', texture_at w' k = Some t' /\ tx_target t' = tx_target t).
Proof.
  intros Hok.
  destruct (CreateTexture_spec w width height internalFormat format internalType multisampling
              samples mipmapLevels Hok) as (w' & E & Hok' & Hn & Hh & _).
  exists w'. split; [exact E |]. split; [exact Hok' |]. split; [exact Hn |].
  split; [exact Hh |].
  destruct multisampling.
  - destruct (CreateTexture_multisample w width height internalFormat format internalType
                samples mipmapLevels Hok)
      as (w0 & E0 & _ & _ & _ & _ & Hnew & Hother & Hset & _).
    rewrite E in E0. injection E0 as <-. cbv zeta in *.
    split; [by eexists |].
    intros k t Ht.
    assert (k <> next_name w) as Hk.
    { pose proof (texture_at_below w k t Hok Ht). lia. }
    destruct (decide (k = default 0 (bindings w !! gl.TEXTURE_2D))) as [-> | Hkb].
    + eexists. split; [apply Hset |]; [| reflexivity].
      unfold texture_at in Ht. unfold gl.target_texture.
      by destruct (objects w !! _) as [[]|]; simplify_eq.
    + exists t. split; [| done]. unfold texture_at in *. by rewrite Hother.
  - rewrite (CreateTexture_2D w width height internalFormat format internalType
               samples mipmapLevels Hok) in E.
    injection E as <-.
    unfold texture_at. world_simpl. rewrite lookup_insert_eq.
    split; [by eexists |].
    intros k t Ht.
    assert (k <> next_name w) as Hk.
    { pose proof (texture_at_below w k t Hok Ht). lia. }
    exists t. rewrite lookup_insert_ne by done. done.
Qed.

Ltac run_texture_target :=
  match goal with
  | |- context [CreateTexture ?a ?b ?c ?d ?e ?f ?g ?h ?w] =>
      let w1 := fresh "w" in
      let E := fresh "E" in
      let Hok := fresh "Hok" in
      let Hn := fresh "Hn" in
      let Hh := fresh "Hh" in
      let t := fresh "t" in
      let Ht := fresh "Ht" in
      let Htg := fresh "Htg" in
      let Hpres := fresh "Hpres" in
      destruct (CreateTexture_target w a b c d e f g h ltac:(assumption))
        as (w1 & E & Hok & Hn & Hh & (t & Ht & Htg) & Hpres);
      rewrite E; clear E; cbv beta iota zeta;
      match goal with
      | |- context [set_heap ?h w1] => assert (ctx_ok (set_heap h w1)) by exact Hok
      end
  end.

Lemma fbo_preset_attachments w colorTex depthTex width height multisampling samples
    cformat ctype cintFormat clevels dformat dtype dintFormat dlevels :
  ctx_ok w ->
  exists fbo w',
    fbo_preset colorTex depthTex
      (CreateTexture width height cintFormat cformat ctype multisampling samples clevels)
      (CreateTexture width height dintFormat dformat dtype multisampling samples dlevels)
      (texture_target multisampling) w = (Ret fbo, w') /\
    ctx_ok w' /\
    next_name w' = fbo + 1 /\
    bindings w' !! gl.FRAMEBUFFER = Some 0 /\
    (forall p, colorTex = Some p ->
       attachment_of w' fbo gl.COLOR_ATTACHMENT0
         = Some (texture_target multisampling, heap w' !!! p, 0)) /\
    (forall p, depthTex = Some p ->
       attachment_of w' fbo gl.DEPTH_ATTACHMENT
         = Some (texture_target multisampling, heap w' !!! p, 0)) /\
    (colorTex = None -> attachment_of w' fbo gl.COLOR_ATTACHMENT0 = None) /\
    (depthTex = None -> attachment_of w' fbo gl.DEPTH_ATTACHMENT = None).
Proof.
  intros Hok. unfold fbo_preset.
  destruct colorTex as [pc|], depthTex as [pd|].
  all: unfold mbind, M_bind, mret, M_ret, store, modify.
  all: repeat run_texture_target.
  all: match goal with
       | |- context [CreateFboWithExistingTextures ?c ?d ?t ?w] =>
           rewrite (CreateFboWithExistingTextures_closed w c d t ltac:(assumption))
       end.
  all: eexists _, _; (split; [reflexivity |]).
  all: (split; [by apply ctx_ok_with_framebuffer |]).
  all: unfold attachment_of; world_simpl; rewrite !lookup_insert_eq; cbn [fb_attachments].
  all: (split; [done |]); (split; [done |]).
  all: norm_heap; world_simpl.
  all: repeat match goal with
       | H : heap _ = _ |- _ => world_simpl_in H; rewrite H; clear H
       end.
  all: destruct Hok as (Hpos & _ & _).
  all: repeat match goal with
       | H : next_name _ = _ |- _ => progress world_simpl_in H
       end.
  - (* both *)
    destruct (Hpres0 _ _ Ht) as (t' & Ht' & Htg').
    assert (forall p, p = pc \/ p = pd ->
              <[pd := next_name w0]> (<[pc := next_name w]> (heap w)) !!! p <> 0 /\
              exists t2,
                texture_at w1 (<[pd := next_name w0]> (<[pc := next_name w]> (heap w)) !!! p)
                  = Some t2 /\
                tx_target t2 = texture_target multisampling) as Hvalid.
    { intros p Hp. rewrite lookup_total_insert. case_decide.
      - split; [lia |]. by exists t0.
      - destruct Hp as [-> | ->]; [| done]. rewrite lookup_total_insert_eq.
        split; [lia |]. exists t'. split; [done | congruence]. }
    split; [| split; [| done]].
    + intros p [= <-]. destruct (Hvalid pc (or_introl eq_refl)) as (H0' & t2 & Ht2 & Htg2).
      rewrite attach_texture_other by done.
      by apply (attach_texture_named _ _ _ _ _ _ t2).
    + intros p [= <-]. destruct (Hvalid pd (or_intror eq_refl)) as (H0' & t2 & Ht2 & Htg2).
      by apply (attach_texture_named _ _ _ _ _ _ t2).
  - (* color only *)
    split; [| split; [done |]; split; [done |]].
    + intros p [= <-]. unfold attach_texture at 1. rewrite lookup_total_insert_eq.
      apply (attach_texture_named _ _ _ _ _ _ t);
        [apply lookup_total_insert_eq | lia | done | done].
    + intros _. unfold attach_texture at 1. by rewrite attach_texture_other.
  - (* depth only *)
    split; [done |]. split; [| split; [| done]].
    + intros p [= <-]. rewrite lookup_total_insert_eq.
      apply (attach_texture_named _ _ _ _ _ _ t);
        [apply lookup_total_insert_eq | lia | done | done].
    + intros _. by rewrite attach_texture_other.
  - (* neither *)
    split; [done |]. split; [done |]. split; done.
Qed.

(** X14: [CreateFboWithExistingTextures] returns a fresh framebuffer and
    leaves the default framebuffer 0 bound, whatever was bound before.  A
    pointer to the name of a texture of target [texType] gets that texture
    attached at level 0 (color at COLOR_ATTACHMENT0, depth at
    DEPTH_ATTACHMENT); a nil pointer, or a pointer to anything that is not a
    texture of that target, leaves the attachment point empty, and the call
    returns all the same.  No other attachment point is used, no other
    object changes. *)
Theorem CreateFboWithExistingTextures_attaches w colorTex depthTex texType :
  ctx_ok w ->
  exists w',
    CreateFboWithExistingTextures colorTex depthTex texType w = (Ret (next_name w), w') /\
    objects w !! next_name w = None /\
    (forall k, k <> next_name w -> objects w' !! k = objects w !! k) /\
    bindings w' = <[gl.FRAMEBUFFER := 0]> (bindings w) /\
    heap w' = heap w /\
    (forall p t, colorTex = Some p -> heap w !!! p <> 0 ->
       texture_at w (heap w !!! p) = Some t -> tx_target t = texType ->
       attachment_of w' (next_name w) gl.COLOR_ATTACHMENT0
         = Some (texType, heap w !!! p, 0)) /\
    (forall p t, depthTex = Some p -> heap w !!! p <> 0 ->
       texture_at w (heap w !!! p) = Some t -> tx_target t = texType ->
       attachment_of w' (next_name w) gl.DEPTH_ATTACHMENT
         = Some (texType, heap w !!! p, 0)) /\
    ((forall p, colorTex = Some p ->
        forall t, texture_at w (heap w !!! p) = Some t -> tx_target t <> texType) ->
     attachment_of w' (next_name w) gl.COLOR_ATTACHMENT0 = None) /\
    ((forall p, depthTex = Some p ->
        forall t, texture_at w (heap w !!! p) = Some t -> tx_target t <> texType) ->
     attachment_of w' (next_name w) gl.DEPTH_ATTACHMENT = None) /\
    (forall a, a <> gl.COLOR_ATTACHMENT0 -> a <> gl.DEPTH_ATTACHMENT ->
       attachment_of w' (next_name w) a = None).
Proof.
  intros Hok. rewrite (CreateFboWithExistingTextures_closed w colorTex depthTex texType Hok).
  destruct Hok as (_ & Hfresh & _).
  eexists. split; [reflexivity |]. split; [apply Hfresh; lia |].
  unfold attachment_of. world_simpl. rewrite !lookup_insert_eq. cbn [fb_attachments].
  split; [intros k Hk; by rewrite lookup_insert_ne |].
  split; [done |]. split; [done |].
  split; [| split; [| split; [| split]]].
  - intros p t -> H0 Ht Htg. rewrite attach_texture_other by done.
    by apply (attach_texture_valid _ _ _ _ _ t).
  - intros p t -> H0 Ht Htg. by apply (attach_texture_valid _ _ _ _ _ t).
  - intros Hbad. rewrite attach_texture_other by done.
    destruct colorTex as [p|]; [| done].
    apply attach_texture_invalid; [by apply Hbad | done].
  - intros Hbad. destruct depthTex as [p|].
    + apply attach_texture_invalid; [by apply Hbad |].
      by rewrite attach_texture_other.
    + unfold attach_texture at 1. by rewrite attach_texture_other.
  - intros a Ha Hb. by rewrite !attach_texture_other.
Qed.

Lemma texture_world_ctx_ok : ctx_ok texture_world.
Proof.
  destruct (CreateTexture_spec demo_world 64 32 gl.RGBA8 gl.RGBA gl.UNSIGNED_BYTE false 4 1
              demo_ctx_ok) as (w' & E & Hok & _).
  unfold texture_world. rewrite E. exact Hok.
Qed.

Lemma CreateFboWithExistingTextures_attaches_witness :
  exists w',
    CreateFboWithExistingTextures (Some 100) None gl.TEXTURE_2D texture_world
      = (Ret (next_name texture_world), w') /\
    objects texture_world !! next_name texture_world = None /\
    (forall k, k <> next_name texture_world -> objects w' !! k = objects texture_world !! k) /\
    bindings w' = <[gl.FRAMEBUFFER := 0]> (bindings texture_world) /\
    heap w' = heap texture_world /\
    (forall p t, Some 100 = Some p -> heap texture_world !!! p <> 0 ->
       texture_at texture_world (heap texture_world !!! p) = Some t ->
       tx_target t = gl.TEXTURE_2D ->
       attachment_of w' (next_name texture_world) gl.COLOR_ATTACHMENT0
         = Some (gl.TEXTURE_2D, heap texture_world !!! p, 0)) /\
    (forall p t, None = Some p -> heap texture_world !!! p <> 0 ->
       texture_at texture_world (heap texture_world !!! p) = Some t ->
       tx_target t = gl.TEXTURE_2D ->
       attachment_of w' (next_name texture_world) gl.DEPTH_ATTACHMENT
         = Some (gl.TEXTURE_2D, heap texture_world !!! p, 0)) /\
    ((forall p, Some 100 = Some p ->
        forall t, texture_at texture_world (heap texture_world !!! p) = Some t ->
                  tx_target t <> gl.TEXTURE_2D) ->
     attachment_of w' (next_name texture_world) gl.COLOR_ATTACHMENT0 = None) /\
    ((forall p, None = Some p ->
        forall t, texture_at texture_world (heap texture_world !!! p) = Some t ->
                  tx_target t <> gl.TEXTURE_2D) ->
     attachment_of w' (next_name texture_world) gl.DEPTH_ATTACHMENT = None) /\
    (forall a, a <> gl.COLOR_ATTACHMENT0 -> a <> gl.DEPTH_ATTACHMENT ->
       attachment_of w' (next_name texture_world) a = None).
Proof.
  apply (CreateFboWithExistingTextures_attaches texture_world (Some 100) None gl.TEXTURE_2D).
  exact texture_world_ctx_ok.
Defined.

(** X15: the framebuffer [CreateFbo] and [CreateLightFbo] return is the
    last object they make.  It has the texture whose name each non-nil
    pointer holds at the end attached, at level 0 and with the target that
    goes with [multisampling], color at COLOR_ATTACHMENT0 and depth at
    DEPTH_ATTACHMENT; the attachment point of a nil pointer is empty.  The
    default framebuffer 0 is bound at the end. *)
Theorem fbo_presets_attach_textures (w : World) (colorTex depthTex : option Z)
    (width height : Z) (multisampling : bool) (samples : Z) (isFloatingPoint : bool)
    (mipmapLevels : Z) :
  ctx_ok w ->
  (exists fbo w',
     CreateFbo colorTex depthTex width height multisampling samples isFloatingPoint
       mipmapLevels w = (Ret fbo, w') /\
     next_name w' = fbo + 1 /\
     bindings w' !! gl.FRAMEBUFFER = Some 0 /\
     (forall p, colorTex = Some p ->
        attachment_of w' fbo gl.COLOR_ATTACHMENT0
          = Some (texture_target multisampling, heap w' !!! p, 0)) /\
     (forall p, depthTex = Some p ->
        attachment_of w' fbo gl.DEPTH_ATTACHMENT
          = Some (texture_target multisampling, heap w' !!! p, 0)) /\
     (colorTex = None -> attachment_of w' fbo gl.COLOR_ATTACHMENT0 = None) /\
     (depthTex = None -> attachment_of w' fbo gl.DEPTH_ATTACHMENT = None)) /\
  (exists fbo w',
     CreateLightFbo colorTex depthTex width height multisampling samples w = (Ret fbo, w') /\
     next_name w' = fbo + 1 /\
     bindings w' !! gl.FRAMEBUFFER = Some 0 /\
     (forall p, colorTex = Some p ->
        attachment_of w' fbo gl.COLOR_ATTACHMENT0
          = Some (texture_target multisampling, heap w' !!! p, 0)) /\
     (forall p, depthTex = Some p ->
        attachment_of w' fbo gl.DEPTH_ATTACHMENT
          = Some (texture_target multisampling, heap w' !!! p, 0)) /\
     (colorTex = None -> attachment_of w' fbo gl.COLOR_ATTACHMENT0 = None) /\
     (depthTex = None -> attachment_of w' fbo gl.DEPTH_ATTACHMENT = None)).
Proof.
  intros Hok. split.
  - destruct isFloatingPoint.
    + destruct (fbo_preset_attachments w colorTex depthTex width height multisampling samples
                  gl.RGBA gl.FLOAT gl.RGBA32F mipmapLevels
                  gl.DEPTH_COMPONENT gl.FLOAT gl.DEPTH_COMPONENT32 1 Hok)
        as (fbo & w' & E & _ & H).
      by exists fbo, w'.
    + destruct (fbo_preset_attachments w colorTex depthTex width height multisampling samples
                  gl.RGBA gl.UNSIGNED_BYTE gl.RGBA8 mipmapLevels
                  gl.DEPTH_COMPONENT gl.FLOAT gl.DEPTH_COMPONENT32 1 Hok)
        as (fbo & w' & E & _ & H).
      by exists fbo, w'.
  - destruct (fbo_preset_attachments w colorTex depthTex width height multisampling samples
                gl.RG gl.FLOAT gl.RG32F 1
                gl.DEPTH_COMPONENT gl.FLOAT gl.DEPTH_COMPONENT32 1 Hok)
      as (fbo & w' & E & _ & H).
    by exists fbo, w'.
Qed.

Lemma fbo_presets_attach_textures_witness :
  (exists fbo w',
     CreateFbo (Some 100) (Some 104) 64 32 true 4 false 1 demo_world = (Ret fbo, w') /\
     next_name w' = fbo + 1 /\
     bindings w' !! gl.FRAMEBUFFER = Some 0 /\
     (forall p, Some 100 = Some p ->
        attachment_of w' fbo gl.COLOR_ATTACHMENT0
          = Some (texture_target true, heap w' !!! p, 0)) /\
     (forall p, Some 104 = Some p ->
        attachment_of w' fbo gl.DEPTH_ATTACHMENT
          = Some (texture_target true, heap w' !!! p, 0)) /\
     (Some 100 = None -> attachment_of w' fbo gl.COLOR_ATTACHMENT0 = None) /\
     (Some 104 = None -> attachment_of w' fbo gl.DEPTH_ATTACHMENT = None)) /\
  (exists fbo w',
     CreateLightFbo (Some 100) (Some 104) 64 32 true 4 demo_world = (Ret fbo, w') /\
     next_name w' = fbo + 1 /\
     bindings w' !! gl.FRAMEBUFFER = Some 0 /\
     (forall p, Some 100 = Some p ->
        attachment_of w' fbo gl.COLOR_ATTACHMENT0
          = Some (texture_target true, heap w' !!! p, 0)) /\
     (forall p, Some 104 = Some p ->
        attachment_of w' fbo gl.DEPTH_ATTACHMENT
          = Some (texture_target true, heap w' !!! p, 0)) /\
     (Some 100 = None -> attachment_of w' fbo gl.COLOR_ATTACHMENT0 = None) /\
     (Some 104 = None -> attachment_of w' fbo gl.DEPTH_ATTACHMENT = None)).
Proof.
  apply (fbo_presets_attach_textures demo_world (Some 100) (Some 104) 64 32 true 4 false 1).
  exact demo_ctx_ok.
Defined.

(** ** Mesh buffers *)

(** The context after a mesh was generated. *)
Ltac binding_lookups :=
  repeat first [ rewrite lookup_insert_eq | rewrite lookup_insert_ne by done ].

Lemma GenerateBufferFromTriangles2D_state w b points :
  ctx_ok w -> 3 <= len points ->
  exists w',
    GenerateBufferFromTriangles2D b points w =
      (Ret {| ArrayBuffer := next_name w; VertexBuffer := next_name w + 1;
              VertexCount := int32 (len points);
              IndexBuffer := IndexBuffer b; IndexCount := IndexCount b |}, w') /\
    next_name w' = next_name w + 2 /\
    (forall k, ~ created w w' k -> objects w' !! k = objects w !! k) /\
    bindings w' !! gl.ARRAY_BUFFER = Some 0 /\
    bindings w' !! gl.VERTEX_ARRAY_BINDING = Some (next_name w + 1) /\
    bindings w' !! gl.ELEMENT_ARRAY_BUFFER = Some 0 /\
    (forall target, target ∉ mesh_targets -> bindings w' !! target = bindings w !! target) /\
    heap w' = heap w /\ stdout w' = stdout w.
Proof.
  intros (Hpos & Hfresh & Hbound) Hlen.
  unfold GenerateBufferFromTriangles2D.
  destruct (Z.ltb_spec (len points) 3); [lia |].
  gl_unfold. repeat gl_step.
  eexists. split; [reflexivity |]. unfold created. world_simpl.
  split; [lia |].
  split; [intros k Hk; repeat (rewrite lookup_insert_ne by lia); reflexivity |].
  split; [by binding_lookups |]. split; [by binding_lookups |]. split; [by binding_lookups |].
  split; [| done].
  intros target Ht. unfold mesh_targets in Ht.
  repeat (rewrite lookup_insert_ne by (intros <-; apply Ht; set_solver)). reflexivity.
Qed.

Lemma GenerateBufferFromLines2D_state w b points indices :
  ctx_ok w -> 2 <= len points -> 2 <= len indices ->
  exists w' v,
    GenerateBufferFromLines2D b points indices w =
      (Ret {| ArrayBuffer := next_name w; VertexBuffer := next_name w + 1;
              VertexCount := int32 (len points);
              IndexBuffer := next_name w + 2; IndexCount := int32 (len indices) |}, w') /\
    next_name w' = next_name w + 3 /\
    (forall k, ~ created w w' k -> objects w' !! k = objects w !! k) /\
    vertex_array_at w' (next_name w + 1) = Some v /\
    va_element v = 0 /\
    (exists ib, buffer_at w' (next_name w + 2) = Some ib /\ bo_data ib = Indices indices) /\
    bindings w' !! gl.ARRAY_BUFFER = Some 0 /\
    bindings w' !! gl.VERTEX_ARRAY_BINDING = Some (next_name w + 1) /\
    bindings w' !! gl.ELEMENT_ARRAY_BUFFER = Some 0 /\
    (forall target, target ∉ mesh_targets -> bindings w' !! target = bindings w !! target) /\
    heap w' = heap w /\ stdout w' = stdout w.
Proof.
  intros (Hpos & Hfresh & Hbound) Hp Hi.
  unfold GenerateBufferFromLines2D.
  destruct (Z.ltb_spec (len points) 2); [lia |].
  destruct (Z.ltb_spec (len indices) 2); [lia |].
  replace (next_name w + 2) with (next_name w + 1 + 1) by lia.
  gl_unfold. repeat gl_step.
  eexists _, _. split; [reflexivity |].
  unfold created, vertex_array_at, buffer_at. world_simpl. repeat gl_step.
  split; [lia |].
  split; [intros k Hk; repeat (rewrite lookup_insert_ne by lia); reflexivity |].
  split; [reflexivity |]. split; [reflexivity |].
  split; [by eexists |].
  split; [by binding_lookups |]. split; [by binding_lookups |]. split; [by binding_lookups |].
  split; [| done].
  intros target Ht. unfold mesh_targets in Ht.
  repeat (rewrite lookup_insert_ne by (intros <-; apply Ht; set_solver)). reflexivity.
Qed.

(** Generating and freeing, in one run. *)
Lemma objects_restored (m m' : gmap Z GLObject) :
  (forall k, m' !! k = m !! k) -> m' = m.
Proof. intros H. by apply map_eq. Qed.

#[local] Arguments Z.eqb : simpl nomatch.
#[local] Arguments Z.ltb : simpl nomatch.

(** Stepping through deletions: lookups after [delete], and the
    comparisons the context decides. *)
Ltac mesh_step :=
  first
    [ rewrite lookup_delete_eq
    | rewrite lookup_delete_ne by lia
    | rewrite Z.eqb_refl
    | match goal with
      | |- context [?a =? ?b] => destruct (Z.eqb_spec a b) as [?|?]; [lia |]
      | |- context [?a <? ?b] => destruct (Z.ltb_spec a b) as [?|?]; [| lia]
      | |- context [?a <? ?b] => destruct (Z.ltb_spec a b) as [?|?]; [lia |]
      end
    | gl_step ].

Ltac restored Hfresh :=
  let k := fresh "k" in
  apply objects_restored; intros k;
  repeat first
    [ rewrite lookup_delete; case_decide; [subst k; symmetry; apply Hfresh; lia |]
    | rewrite lookup_insert; case_decide; [lia |] ];
  reflexivity.

Lemma triangles_round_trip_eq w b points :
  ctx_ok w -> 3 <= len points < 2 ^ 31 -> IndexCount b <= 0 ->
  exists w',
    triangles_round_trip b points w =
      (Ret {| ArrayBuffer := 0; VertexBuffer := 0; VertexCount := 0;
              IndexBuffer := IndexBuffer b; IndexCount := IndexCount b |}, w') /\
    objects w' = objects w /\
    next_name w' = next_name w + 2 /\
    bindings w' !! gl.ARRAY_BUFFER = Some 0 /\
    bindings w' !! gl.VERTEX_ARRAY_BINDING = Some 0 /\
    bindings w' !! gl.ELEMENT_ARRAY_BUFFER = Some 0.
Proof.
  intros (Hpos & Hfresh & Hbound) Hlen Hic.
  unfold triangles_round_trip, GenerateBufferFromTriangles2D, FreeGLBuffer.
  rewrite (int32_small (len points)) by lia.
  gl_unfold. repeat mesh_step.
  eexists. split; [reflexivity |]. world_simpl.
  split; [restored Hfresh |]. split; [lia |].
  split; [by binding_lookups |]. split; by binding_lookups.
Qed.

Lemma lines_round_trip_eq w b points indices :
  ctx_ok w -> 2 <= len points < 2 ^ 31 -> 2 <= len indices < 2 ^ 31 ->
  exists w',
    lines_round_trip b points indices w =
      (Ret {| ArrayBuffer := 0; VertexBuffer := 0; VertexCount := 0;
              IndexBuffer := 0; IndexCount := len indices |}, w') /\
    objects w' = objects w /\
    next_name w' = next_name w + 3 /\
    bindings w' !! gl.ARRAY_BUFFER = Some 0 /\
    bindings w' !! gl.VERTEX_ARRAY_BINDING = Some 0 /\
    bindings w' !! gl.ELEMENT_ARRAY_BUFFER = Some 0.
Proof.
  intros (Hpos & Hfresh & Hbound) Hp Hi.
  unfold lines_round_trip, GenerateBufferFromLines2D, FreeGLBuffer.
  rewrite (int32_small (len points)) by lia.
  rewrite (int32_small (len indices)) by lia.
  gl_unfold. repeat mesh_step.
  eexists. split; [reflexivity |]. world_simpl.
  split; [restored Hfresh |]. split; [lia |].
  split; [by binding_lookups |]. split; by binding_lookups.
Qed.

(** [gl.DeleteBuffers] and [gl.DeleteVertexArrays], whatever the context. *)
Lemma deletion_refl w : deletion w w.
Proof. repeat split; auto. Qed.

Lemma deletion_trans w1 w2 w3 : deletion w1 w2 -> deletion w2 w3 -> deletion w1 w3.
Proof.
  intros (A1 & B1 & C1 & G1 & D1 & E1 & F1) (A2 & B2 & C2 & G2 & D2 & E2 & F2).
  split; [by auto |]. split; [by auto |]. split; [by auto |].
  split; [| repeat split; congruence].
  intros target name H. destruct (G2 target name H) as [-> | H']; [by left | by apply G1].
Qed.

Ltac kind_goal :=
  let k := fresh "k" in
  let Hk := fresh "Hk" in
  try (intros k Hk);
  repeat (first [rewrite lookup_insert | rewrite lookup_delete]; case_decide; subst);
  try done;
  repeat match goal with
  | H : objects _ !! ?x = Some _, Hk : context [objects _ !! ?x] |- _ => rewrite H in Hk
  end;
  done.

Ltac bindings_goal :=
  let target := fresh "target" in
  let name := fresh "name" in
  let Hb := fresh "Hb" in
  intros target name Hb;
  repeat (rewrite lookup_insert in Hb; case_decide; [simplify_eq; by left |]);
  by right.

Ltac deletion_leaf :=
  unfold deletion, buffer_at, vertex_array_at; world_simpl;
  repeat match goal with
  | H : delete _ _ !! _ = Some _ |- _ =>
      apply lookup_delete_Some in H; destruct H as [? H]
  end;
  repeat known_lookup;
  split; [kind_goal |]; split; [kind_goal |]; split; [kind_goal |]; split; [kind_goal |];
  split; [bindings_goal |]; done.

Lemma DeleteBuffers_spec buffer w :
  exists w',
    gl.DeleteBuffers buffer w = (Ret (), w') /\
    buffer_at w' buffer = None /\ deletion w w'.
Proof.
  gl_unfold. repeat gl_case.
  all: eexists; (split; [reflexivity |]).
  all: deletion_leaf.
Qed.

Lemma DeleteVertexArrays_spec array w :
  exists w',
    gl.DeleteVertexArrays array w = (Ret (), w') /\
    vertex_array_at w' array = None /\ deletion w w'.
Proof.
  gl_unfold. repeat gl_case.
  all: eexists; (split; [reflexivity |]).
  all: deletion_leaf.
Qed.

Lemma FreeGLBuffer_deletion b w :
  exists w',
    FreeGLBuffer b w = (Ret (freed b), w') /\
    (0 < VertexCount b ->
     buffer_at w' (ArrayBuffer b) = None /\ vertex_array_at w' (VertexBuffer b) = None) /\
    (0 < IndexCount b -> buffer_at w' (IndexBuffer b) = None) /\
    deletion w w'.
Proof.
  destruct b as [ab vb vc ib ic].
  unfold FreeGLBuffer, freed. unfold mbind, M_bind, mret, M_ret.
  cbn [ArrayBuffer VertexBuffer VertexCount IndexBuffer IndexCount].
  destruct (Z.ltb_spec 0 vc) as [Hv|Hv].
  - destruct (DeleteBuffers_spec ab w) as (w1 & -> & Hb1 & D1).
    destruct (DeleteVertexArrays_spec vb w1) as (w2 & -> & Hv2 & D2).
    cbn [ArrayBuffer VertexBuffer VertexCount IndexBuffer IndexCount].
    destruct (Z.ltb_spec 0 ic) as [Hi|Hi].
    + destruct (DeleteBuffers_spec ib w2) as (w3 & -> & Hb3 & D3).
      exists w3. split; [done |].
      split; [intros _; split; [apply D3, D2, Hb1 | apply D3, Hv2] |].
      split; [done |]. eauto using deletion_trans.
    + exists w2. split; [done |].
      split; [intros _; split; [apply D2, Hb1 | apply Hv2] |].
      split; [lia |]. eauto using deletion_trans.
  - cbn [ArrayBuffer VertexBuffer VertexCount IndexBuffer IndexCount].
    destruct (Z.ltb_spec 0 ic) as [Hi|Hi].
    + destruct (DeleteBuffers_spec ib w) as (w3 & -> & Hb3 & D3).
      exists w3. split; [done |]. split; [lia |]. done.
    + exists w. split; [done |]. split; [lia |]. split; [lia |]. apply deletion_refl.
Qed.

Lemma DeleteBuffers_unused buffer w :
  buffer_at w buffer = None -> gl.DeleteBuffers buffer w = (Ret (), w).
Proof.
  unfold buffer_at. intros H. unfold gl.DeleteBuffers, gl.obj, mbind, M_bind.
  by destruct (objects w !! buffer) as [[]|].
Qed.

Lemma DeleteVertexArrays_unused array w :
  vertex_array_at w array = None -> gl.DeleteVertexArrays array w = (Ret (), w).
Proof.
  unfold vertex_array_at. intros H. unfold gl.DeleteVertexArrays, gl.obj, mbind, M_bind.
  by destruct (objects w !! array) as [[]|].
Qed.

(** X16: for inputs of the minimum sizes, both mesh functions hand out
    fresh names (two, three with the index buffer), change no object that
    was there before, and leave the new vertex array bound, with no buffer
    bound to ARRAY_BUFFER and ELEMENT_ARRAY_BUFFER; no other binding
    changes.  [GenerateBufferFromTriangles2D] leaves the [IndexBuffer] and
    [IndexCount] of the struct as they were. *)
Theorem mesh_buffers_leave_vertex_array_bound w b points indices :
  ctx_ok w ->
  (3 <= len points ->
   exists b' w',
     GenerateBufferFromTriangles2D b points w = (Ret b', w') /\
     ArrayBuffer b' = next_name w /\ VertexBuffer b' = next_name w + 1 /\
     IndexBuffer b' = IndexBuffer b /\ IndexCount b' = IndexCount b /\
     next_name w' = next_name w + 2 /\
     (forall k, ~ created w w' k -> objects w' !! k = objects w !! k) /\
     bindings w' !! gl.ARRAY_BUFFER = Some 0 /\
     bindings w' !! gl.VERTEX_ARRAY_BINDING = Some (VertexBuffer b') /\
     bindings w' !! gl.ELEMENT_ARRAY_BUFFER = Some 0 /\
     (forall target, target ∉ mesh_targets ->
        bindings w' !! target = bindings w !! target)) /\
  (2 <= len points -> 2 <= len indices ->
   exists b' w',
     GenerateBufferFromLines2D b points indices w = (Ret b', w') /\
     ArrayBuffer b' = next_name w /\ VertexBuffer b' = next_name w + 1 /\
     IndexBuffer b' = next_name w + 2 /\
     next_name w' = next_name w + 3 /\
     (forall k, ~ created w w' k -> objects w' !! k = objects w !! k) /\
     bindings w' !! gl.ARRAY_BUFFER = Some 0 /\
     bindings w' !! gl.VERTEX_ARRAY_BINDING = Some (VertexBuffer b') /\
     bindings w' !! gl.ELEMENT_ARRAY_BUFFER = Some 0 /\
     (forall target, target ∉ mesh_targets ->
        bindings w' !! target = bindings w !! target)).
Proof.
  intros Hok. split.
  - intros Hlen.
    destruct (GenerateBufferFromTriangles2D_state w b points Hok Hlen)
      as (w' & E & Hn & Hframe & Ha & Hv & He & Hother & _).
    eexists _, w'. split; [exact E |]. by cbn [ArrayBuffer VertexBuffer IndexBuffer IndexCount].
  - intros Hp Hi.
    destruct (GenerateBufferFromLines2D_state w b points indices Hok Hp Hi)
      as (w' & v & E & Hn & Hframe & _ & _ & _ & Ha & Hv & He & Hother & _).
    eexists _, w'. split; [exact E |]. by cbn [ArrayBuffer VertexBuffer IndexBuffer IndexCount].
Qed.

Lemma mesh_buffers_leave_vertex_array_bound_witness :
  (exists b' w',
     GenerateBufferFromTriangles2D empty_mesh [origin; origin; origin] demo_world
       = (Ret b', w') /\
     ArrayBuffer b' = next_name demo_world /\ VertexBuffer b' = next_name demo_world + 1 /\
     IndexBuffer b' = IndexBuffer empty_mesh /\ IndexCount b' = IndexCount empty_mesh /\
     next_name w' = next_name demo_world + 2 /\
     (forall k, ~ created demo_world w' k -> objects w' !! k = objects demo_world !! k) /\
     bindings w' !! gl.ARRAY_BUFFER = Some 0 /\
     bindings w' !! gl.VERTEX_ARRAY_BINDING = Some (VertexBuffer b') /\
     bindings w' !! gl.ELEMENT_ARRAY_BUFFER = Some 0 /\
     (forall target, target ∉ mesh_targets ->
        bindings w' !! target = bindings demo_world !! target)) /\
  (exists b' w',
     GenerateBufferFromLines2D empty_mesh [origin; origin] [0; 1] demo_world
       = (Ret b', w') /\
     ArrayBuffer b' = next_name demo_world /\ VertexBuffer b' = next_name demo_world + 1 /\
     IndexBuffer b' = next_name demo_world + 2 /\
     next_name w' = next_name demo_world + 3 /\
     (forall k, ~ created demo_world w' k -> objects w' !! k = objects demo_world !! k) /\
     bindings w' !! gl.ARRAY_BUFFER = Some 0 /\
     bindings w' !! gl.VERTEX_ARRAY_BINDING = Some (VertexBuffer b') /\
     bindings w' !! gl.ELEMENT_ARRAY_BUFFER = Some 0 /\
     (forall target, target ∉ mesh_targets ->
        bindings w' !! target = bindings demo_world !! target)).
Proof.
  destruct (mesh_buffers_leave_vertex_array_bound demo_world empty_mesh
              [origin; origin; origin] [0; 1] demo_ctx_ok) as [H1 _].
  destruct (mesh_buffers_leave_vertex_array_bound demo_world empty_mesh
              [origin; origin] [0; 1] demo_ctx_ok) as [_ H2].
  split; [apply H1 | apply H2]; unfold len; simpl; lia.
Defined.

(** X17: the vertex array [GenerateBufferFromLines2D] sets up ends
    without an element buffer.  The index buffer is bound to
    ELEMENT_ARRAY_BUFFER while the vertex array is bound, and so recorded in
    it, but the unbinding that follows, with the vertex array still bound,
    resets that record to 0: the indices are in the buffer [IndexBuffer],
    and the vertex array does not refer to it. *)
Theorem GenerateBufferFromLines2D_drops_element_buffer w b points indices :
  ctx_ok w -> 2 <= len points -> 2 <= len indices ->
  exists b' w' v ib,
    GenerateBufferFromLines2D b points indices w = (Ret b', w') /\
    vertex_array_at w' (VertexBuffer b') = Some v /\
    va_element v = 0 /\
    IndexBuffer b' <> 0 /\
    buffer_at w' (IndexBuffer b') = Some ib /\
    bo_data ib = Indices indices.
Proof.
  intros Hok Hp Hi.
  destruct (GenerateBufferFromLines2D_state w b points indices Hok Hp Hi)
    as (w' & v & E & _ & _ & Hv & He & (ib & Hib & Hdata) & _).
  destruct Hok as (Hpos & _).
  eexists _, w', v, ib. split; [exact E |].
  cbn [VertexBuffer IndexBuffer]. repeat split; try done. lia.
Qed.

Lemma GenerateBufferFromLines2D_drops_element_buffer_witness :
  exists b' w' v ib,
    GenerateBufferFromLines2D empty_mesh [origin; origin] [0; 1] demo_world = (Ret b', w') /\
    vertex_array_at w' (VertexBuffer b') = Some v /\
    va_element v = 0 /\
    IndexBuffer b' <> 0 /\
    buffer_at w' (IndexBuffer b') = Some ib /\
    bo_data ib = Indices [0; 1].
Proof.
  apply (GenerateBufferFromLines2D_drops_element_buffer demo_world empty_mesh
           [origin; origin] [0; 1]).
  - exact demo_ctx_ok.
  - unfold len; simpl; lia.
  - unfold len; simpl; lia.
Defined.

(** X18: a mesh of fewer than 2^31 points (and indices) that was generated
    into a struct and then freed leaves the driver's objects exactly as
    they were before: [FreeGLBuffer] deletes the buffers and the vertex
    array the generating call made, zeroes their handles, and no vertex
    array or buffer stays bound.  (The triangles struct must not carry a
    positive [IndexCount] from elsewhere.) *)
Theorem mesh_buffers_round_trip w b points indices :
  ctx_ok w ->
  (3 <= len points < 2 ^ 31 -> IndexCount b <= 0 ->
   exists b1 w1 b2 w2,
     GenerateBufferFromTriangles2D b points w = (Ret b1, w1) /\
     FreeGLBuffer b1 w1 = (Ret b2, w2) /\
     objects w2 = objects w /\
     ArrayBuffer b2 = 0 /\ VertexBuffer b2 = 0 /\ VertexCount b2 = 0 /\
     bindings w2 !! gl.ARRAY_BUFFER = Some 0 /\
     bindings w2 !! gl.VERTEX_ARRAY_BINDING = Some 0 /\
     bindings w2 !! gl.ELEMENT_ARRAY_BUFFER = Some 0) /\
  (2 <= len points < 2 ^ 31 -> 2 <= len indices < 2 ^ 31 ->
   exists b1 w1 b2 w2,
     GenerateBufferFromLines2D b points indices w = (Ret b1, w1) /\
     FreeGLBuffer b1 w1 = (Ret b2, w2) /\
     objects w2 = objects w /\
     ArrayBuffer b2 = 0 /\ VertexBuffer b2 = 0 /\ VertexCount b2 = 0 /\
     IndexBuffer b2 = 0 /\
     bindings w2 !! gl.ARRAY_BUFFER = Some 0 /\
     bindings w2 !! gl.VERTEX_ARRAY_BINDING = Some 0 /\
     bindings w2 !! gl.ELEMENT_ARRAY_BUFFER = Some 0).
Proof.
  intros Hok. split.
  - intros Hlen Hic.
    destruct (GenerateBufferFromTriangles2D_state w b points Hok ltac:(lia))
      as (w1 & E1 & _).
    destruct (triangles_round_trip_eq w b points Hok Hlen Hic)
      as (w2 & E2 & Hobj & _ & Ha & Hv & He).
    unfold triangles_round_trip in E2. unfold mbind, M_bind in E2. rewrite E1 in E2.
    eexists _, w1, _, w2. split; [exact E1 |]. split; [exact E2 |]. done.
  - intros Hp Hi.
    destruct (GenerateBufferFromLines2D_state w b points indices Hok ltac:(lia) ltac:(lia))
      as (w1 & v & E1 & _).
    destruct (lines_round_trip_eq w b points indices Hok Hp Hi)
      as (w2 & E2 & Hobj & _ & Ha & Hv & He).
    unfold lines_round_trip in E2. unfold mbind, M_bind in E2. rewrite E1 in E2.
    eexists _, w1, _, w2. split; [exact E1 |]. split; [exact E2 |]. done.
Qed.

Lemma mesh_buffers_round_trip_witness :
  (exists b1 w1 b2 w2,
     GenerateBufferFromTriangles2D empty_mesh [origin; origin; origin] demo_world
       = (Ret b1, w1) /\
     FreeGLBuffer b1 w1 = (Ret b2, w2) /\
     objects w2 = objects demo_world /\
     ArrayBuffer b2 = 0 /\ VertexBuffer b2 = 0 /\ VertexCount b2 = 0 /\
     bindings w2 !! gl.ARRAY_BUFFER = Some 0 /\
     bindings w2 !! gl.VERTEX_ARRAY_BINDING = Some 0 /\
     bindings w2 !! gl.ELEMENT_ARRAY_BUFFER = Some 0) /\
  (exists b1 w1 b2 w2,
     GenerateBufferFromLines2D empty_mesh [origin; origin] [0; 1] demo_world
       = (Ret b1, w1) /\
     FreeGLBuffer b1 w1 = (Ret b2, w2) /\
     objects w2 = objects demo_world /\
     ArrayBuffer b2 = 0 /\ VertexBuffer b2 = 0 /\ VertexCount b2 = 0 /\
     IndexBuffer b2 = 0 /\
     bindings w2 !! gl.ARRAY_BUFFER = Some 0 /\
     bindings w2 !! gl.VERTEX_ARRAY_BINDING = Some 0 /\
     bindings w2 !! gl.ELEMENT_ARRAY_BUFFER = Some 0).
Proof.
  destruct (mesh_buffers_round_trip demo_world empty_mesh [origin; origin; origin] [0; 1]
              demo_ctx_ok) as [H1 _].
  destruct (mesh_buffers_round_trip demo_world empty_mesh [origin; origin] [0; 1]
              demo_ctx_ok) as [_ H2].
  split; [apply H1 | apply H2]; unfold len; simpl; lia.
Defined.

(** X19: after [FreeGLBuffer], whatever the struct and the context were:
    with a positive [VertexCount] the name in [ArrayBuffer] names no buffer
    and the name in [VertexBuffer] no vertex array, with a positive
    [IndexCount] the name in [IndexBuffer] names no buffer.  The call makes
    no object and hands out no name. *)
Theorem FreeGLBuffer_releases b w :
  exists b' w',
    FreeGLBuffer b w = (Ret b', w') /\
    (0 < VertexCount b ->
     buffer_at w' (ArrayBuffer b) = None /\ vertex_array_at w' (VertexBuffer b) = None) /\
    (0 < IndexCount b -> buffer_at w' (IndexBuffer b) = None) /\
    (forall k, objects w !! k = None -> objects w' !! k = None) /\
    next_name w' = next_name w.
Proof.
  destruct (FreeGLBuffer_deletion b w) as (w' & E & Hv & Hi & _ & _ & Hnone & _ & Hn & _).
  by exists (freed b), w'.
Qed.

(** X20: [FreeGLBuffer] makes no driver call when neither count is
    positive, whatever the handles are, and returns the struct as it is.
    And when the handles name nothing to delete (names never used, 0, or
    objects of another kind), the driver ignores the deletions: the context
    is untouched, and only the fields of the struct are reset. *)
Theorem FreeGLBuffer_leaves_driver_untouched b w :
  (VertexCount b <= 0 -> IndexCount b <= 0 -> FreeGLBuffer b w = (Ret b, w)) /\
  (buffer_at w (ArrayBuffer b) = None -> vertex_array_at w (VertexBuffer b) = None ->
   buffer_at w (IndexBuffer b) = None ->
   FreeGLBuffer b w = (Ret (freed b), w)).
Proof.
  destruct b as [ab vb vc ib ic]. unfold FreeGLBuffer, freed.
  cbn [ArrayBuffer VertexBuffer VertexCount IndexBuffer IndexCount].
  unfold mbind, M_bind, mret, M_ret. split.
  - intros Hv Hi.
    destruct (Z.ltb_spec 0 vc); [lia |].
    cbn [ArrayBuffer VertexBuffer VertexCount IndexBuffer IndexCount].
    destruct (Z.ltb_spec 0 ic); [lia |]. reflexivity.
  - intros Ha Hv Hi.
    destruct (Z.ltb_spec 0 vc).
    + rewrite (DeleteBuffers_unused ab w Ha), (DeleteVertexArrays_unused vb w Hv).
      cbn [ArrayBuffer VertexBuffer VertexCount IndexBuffer IndexCount].
      destruct (Z.ltb_spec 0 ic); [| reflexivity].
      by rewrite (DeleteBuffers_unused ib w Hi).
    + cbn [ArrayBuffer VertexBuffer VertexCount IndexBuffer IndexCount].
      destruct (Z.ltb_spec 0 ic); [| reflexivity].
      by rewrite (DeleteBuffers_unused ib w Hi).
Qed.

Lemma FreeGLBuffer_leaves_driver_untouched_witness :
  FreeGLBuffer {| ArrayBuffer := 7; VertexBuffer := 8; VertexCount := 0;
                  IndexBuffer := 9; IndexCount := -1 |} demo_world
    = (Ret {| ArrayBuffer := 7; VertexBuffer := 8; VertexCount := 0;
              IndexBuffer := 9; IndexCount := -1 |}, demo_world) /\
  FreeGLBuffer {| ArrayBuffer := 0; VertexBuffer := 0; VertexCount := 3;
                  IndexBuffer := 0; IndexCount := 6 |} demo_world
    = (Ret (freed {| ArrayBuffer := 0; VertexBuffer := 0; VertexCount := 3;
                     IndexBuffer := 0; IndexCount := 6 |}), demo_world).
Proof.
  destruct (FreeGLBuffer_leaves_driver_untouched
              {| ArrayBuffer := 7; VertexBuffer := 8; VertexCount := 0;
                 IndexBuffer := 9; IndexCount := -1 |} demo_world) as [H1 _].
  destruct (FreeGLBuffer_leaves_driver_untouched
              {| ArrayBuffer := 0; VertexBuffer := 0; VertexCount := 3;
                 IndexBuffer := 0; IndexCount := 6 |} demo_world) as [_ H2].
  split; [apply H1; simpl; lia | apply H2; reflexivity].
Defined.

(** ** The context invariant *)

Lemma ctx_ok_deletion w w' : ctx_ok w -> deletion w w' -> ctx_ok w'.
Proof.
  intros (Hpos & Hfresh & Hbound) (_ & _ & Hnone & Hb & Hn & _).
  split; [lia |]. split.
  - intros n Hge. apply Hnone, Hfresh. lia.
  - intros target name H. destruct (Hb target name H) as [-> | H']; [lia |].
    apply Hbound in H'. lia.
Qed.

Lemma ctx_ok_mesh w w' used vao :
  ctx_ok w -> 0 <= used -> next_name w' = next_name w + used -> vao < next_name w' ->
  (forall k, ~ created w w' k -> objects w' !! k = objects w !! k) ->
  bindings w' !! gl.ARRAY_BUFFER = Some 0 ->
  bindings w' !! gl.VERTEX_ARRAY_BINDING = Some vao ->
  bindings w' !! gl.ELEMENT_ARRAY_BUFFER = Some 0 ->
  (forall target, target ∉ mesh_targets -> bindings w' !! target = bindings w !! target) ->
  ctx_ok w'.
Proof.
  intros Hok Hused Hn Hvao Hframe Ha Hv He Hother.
  apply (ctx_ok_grows w); [done | lia | done |].
  destruct Hok as (Hpos & _ & Hbound).
  intros target name H.
  destruct (decide (target ∈ mesh_targets)) as [Hin | Hout].
  - unfold mesh_targets in Hin.
    repeat (apply elem_of_cons in Hin; destruct Hin as [-> | Hin]; [simplify_eq; lia |]).
    by apply elem_of_nil in Hin.
  - rewrite (Hother target Hout) in H. apply Hbound in H. lia.
Qed.

(** X21: the context invariant [ctx_ok] (names are positive, names not
    yet handed out hold no object, bindings refer to names handed out) is
    kept by every function of the package, so the calls can be chained: each
    returns, without a panic, in a context the next one can start from.
    ([CreateImageTexture]: when [LoadImage] hands back an image, with or
    without an error.) *)
Theorem package_keeps_context w :
  ctx_ok w ->
  (logs_fit w ->
   (forall v g tc te f, exists r w', NewProgram v g tc te f w = (Ret r, w') /\ ctx_ok w') /\
   (forall c, exists r w', NewComputeProgram c w = (Ret r, w') /\ ctx_ok w')) /\
  (forall width height internalFormat format internalType multisampling samples mipmapLevels,
     exists r w',
       CreateTexture width height internalFormat format internalType multisampling samples
         mipmapLevels w = (Ret r, w') /\ ctx_ok w') /\
  (forall LoadImage imageName isRepeating image err w0,
     LoadImage imageName w0 = (Ret ({| Img := Some image |}, err), w) ->
     exists r w', CreateImageTexture LoadImage imageName isRepeating w0 = (Ret r, w') /\
                  ctx_ok w') /\
  (forall colorTex depthTex texType,
     exists r w', CreateFboWithExistingTextures colorTex depthTex texType w = (Ret r, w') /\
                  ctx_ok w') /\
  (forall colorTex depthTex width height multisampling samples,
     exists r w', CreateLightFbo colorTex depthTex width height multisampling samples w
                    = (Ret r, w') /\ ctx_ok w') /\
  (forall colorTex depthTex width height multisampling samples isFloatingPoint mipmapLevels,
     exists r w', CreateFbo colorTex depthTex width height multisampling samples
                    isFloatingPoint mipmapLevels w = (Ret r, w') /\ ctx_ok w') /\
  (forall b points,
     exists r w', GenerateBufferFromTriangles2D b points w = (Ret r, w') /\ ctx_ok w') /\
  (forall b points indices,
     exists r w', GenerateBufferFromLines2D b points indices w = (Ret r, w') /\ ctx_ok w') /\
  (forall b, exists r w', FreeGLBuffer b w = (Ret r, w') /\ ctx_ok w').
Proof.
  intros Hok.
  split; [intros Hfit; split |].
  { intros v g tc te f.
    destruct (NewProgram_effects w v g tc te f Hfit)
      as (r & w' & E & Hn & Hframe & _ & _ & _ & _ & _ & Hb & _).
    exists r, w'. split; [exact E |].
    apply (ctx_ok_grows w); [done | lia | done |].
    rewrite Hb. intros target name H. destruct Hok as (_ & _ & Hbound).
    apply Hbound in H. lia. }
  { intros c.
    destruct (NewComputeProgram_effects w c Hfit)
      as (r & w' & E & Hn & Hframe & _ & _ & _ & _ & _ & Hb & _).
    exists r, w'. split; [exact E |].
    apply (ctx_ok_grows w); [done | lia | done |].
    rewrite Hb. intros target name H. destruct Hok as (_ & _ & Hbound).
    apply Hbound in H. lia. }
  split.
  { intros width height internalFormat format internalType multisampling samples mipmapLevels.
    destruct (CreateTexture_spec w width height internalFormat format internalType
                multisampling samples mipmapLevels Hok) as (w' & E & Hok' & _).
    by eexists _, w'. }
  split.
  { intros LoadImage imageName isRepeating image err w0 Hload.
    destruct (CreateImageTexture_run LoadImage imageName isRepeating w0 image err w Hload Hok)
      as (w' & E & Hn & Hobj & Hb & _).
    eexists _, w'. split; [exact E |].
    apply (ctx_ok_grows w); [done | lia | |].
    - intros n Hc. unfold created in Hc. rewrite Hobj, lookup_insert_ne by lia. done.
    - intros target name. rewrite Hb, lookup_insert. case_decide.
      + intros [= <-]. lia.
      + intros H'. destruct Hok as (_ & _ & Hbound). apply Hbound in H'. lia. }
  split.
  { intros colorTex depthTex texType.
    rewrite (CreateFboWithExistingTextures_closed w colorTex depthTex texType Hok).
    eexists _, _. split; [reflexivity |]. by apply ctx_ok_with_framebuffer. }
  split.
  { intros colorTex depthTex width height multisampling samples.
    destruct (fbo_preset_attachments w colorTex depthTex width height multisampling samples
                gl.RG gl.FLOAT gl.RG32F 1
                gl.DEPTH_COMPONENT gl.FLOAT gl.DEPTH_COMPONENT32 1 Hok)
      as (fbo & w' & E & Hok' & _).
    by exists fbo, w'. }
  split.
  { intros colorTex depthTex width height multisampling samples isFloatingPoint mipmapLevels.
    destruct isFloatingPoint.
    - destruct (fbo_preset_attachments w colorTex depthTex width height multisampling samples
                  gl.RGBA gl.FLOAT gl.RGBA32F mipmapLevels
                  gl.DEPTH_COMPONENT gl.FLOAT gl.DEPTH_COMPONENT32 1 Hok)
        as (fbo & w' & E & Hok' & _).
      by exists fbo, w'.
    - destruct (fbo_preset_attachments w colorTex depthTex width height multisampling samples
                  gl.RGBA gl.UNSIGNED_BYTE gl.RGBA8 mipmapLevels
                  gl.DEPTH_COMPONENT gl.FLOAT gl.DEPTH_COMPONENT32 1 Hok)
        as (fbo & w' & E & Hok' & _).
      by exists fbo, w'. }
  split.
  { intros b points.
    destruct (Z.lt_ge_cases (len points) 3) as [Hlt | Hge].
    - exists b, w. split; [| done].
      unfold GenerateBufferFromTriangles2D.
      by destruct (Z.ltb_spec (len points) 3); [| lia].
    - destruct (GenerateBufferFromTriangles2D_state w b points Hok Hge)
        as (w' & E & Hn & Hframe & Ha & Hv & He & Hother & _).
      eexists _, w'. split; [exact E |].
      apply (ctx_ok_mesh w w' 2 (next_name w + 1)); first [done | lia]. }
  split.
  { intros b points indices.
    destruct (Z.lt_ge_cases (len points) 2) as [Hlt | Hge];
      [| destruct (Z.lt_ge_cases (len indices) 2) as [Hlt | Hge']].
    - exists b, w. split; [| done].
      unfold GenerateBufferFromLines2D.
      by destruct (Z.ltb_spec (len points) 2); [| lia].
    - exists b, w. split; [| done].
      unfold GenerateBufferFromLines2D.
      destruct (Z.ltb_spec (len points) 2); [done |].
      by destruct (Z.ltb_spec (len indices) 2); [| lia].
    - destruct (GenerateBufferFromLines2D_state w b points indices Hok Hge Hge')
        as (w' & va & E & Hn & Hframe & _ & _ & _ & Ha & Hv & He & Hother & _).
      eexists _, w'. split; [exact E |].
      apply (ctx_ok_mesh w w' 3 (next_name w + 1)); first [done | lia]. }
  intros b.
  destruct (FreeGLBuffer_deletion b w) as (w' & E & _ & _ & Hdel).
  eexists _, w'. split; [exact E |]. by apply (ctx_ok_deletion w).
Qed.

Lemma package_keeps_context_witness :
  exists tex w1 mesh w2,
    CreateTexture 64 32 gl.RGBA8 gl.RGBA gl.UNSIGNED_BYTE false 4 1 demo_world
      = (Ret tex, w1) /\
    GenerateBufferFromTriangles2D empty_mesh [origin; origin; origin] w1 = (Ret mesh, w2) /\
    ctx_ok w2.
Proof.
  destruct (package_keeps_context demo_world demo_ctx_ok) as (_ & H1 & _).
  destruct (H1 64 32 gl.RGBA8 gl.RGBA gl.UNSIGNED_BYTE false 4 1) as (tex & w1 & E1 & Hok1).
  destruct (package_keeps_context w1 Hok1) as (_ & _ & _ & _ & _ & _ & H2 & _).
  destruct (H2 empty_mesh [origin; origin; origin]) as (mesh & w2 & E2 & Hok2).
  by exists tex, w1, mesh, w2.
Defined.

